(** * Booking lifecycle engine of tbz-booking-backend

    A shallow embedding of [booking/booking_service.go] (the lifecycle
    engine and the notification composer), of the PostgreSQL repository
    that implements its [BookingRepository] interface, and of the data
    types both share, followed by the properties of the lifecycle that
    the specification states.

    Go values are modelled as follows.
    - [string] is [String.string] (a sequence of bytes), [int] is [Z],
      [bool] is [bool], a slice is a [list], [time.Time] is an instant
      counted from Go's zero time.
    - An [error] is [option error]: [None] is [nil].
    - The two collaborators of the engine are interfaces in Go and type
      classes here; every call on them threads the collaborator's state
      and is appended to a log, which is what the mock expectations of the
      test-suite count. *)

From Stdlib Require Import String Ascii List ZArith Bool Lia DecimalString.
Import ListNotations.
Local Open Scope string_scope.
Local Open Scope Z_scope.

Set Implicit Arguments.

(** ** Errors *)

(** The three sentinels of the booking package, [pgx.ErrNoRows], errors
    raised by code outside the repository (driver, transport), and
    [fmt.Errorf("<context>: %w", wrapped)]. *)
Inductive error : Type :=
| ErrBookingNotFound
| ErrInvalidBookingState
| ErrNotAllowed
| ErrNoRows
| ErrForeign (msg : string)
| Errorf (context : string) (wrapped : error).

Fixpoint error_eqb (a b : error) : bool :=
  match a, b with
  | ErrBookingNotFound, ErrBookingNotFound => true
  | ErrInvalidBookingState, ErrInvalidBookingState => true
  | ErrNotAllowed, ErrNotAllowed => true
  | ErrNoRows, ErrNoRows => true
  | ErrForeign m, ErrForeign n => String.eqb m n
  | Errorf c a', Errorf d b' => String.eqb c d && error_eqb a' b'
  | _, _ => false
  end.

(** [err.Error()]. *)
Fixpoint Error (e : error) : string :=
  match e with
  | ErrBookingNotFound => "booking not found"
  | ErrInvalidBookingState => "invalid booking state"
  | ErrNotAllowed => "not allowed to perform this operation"
  | ErrNoRows => "no rows in result set"
  | ErrForeign msg => msg
  | Errorf context wrapped => context ++ ": " ++ Error wrapped
  end.

(** [errors.Is(err, target)]: walks the chain of wrapped errors. *)
Fixpoint Is_chain (e target : error) : bool :=
  error_eqb e target ||
  match e with
  | Errorf _ wrapped => Is_chain wrapped target
  | _ => false
  end.

Definition errors_Is (err : option error) (target : error) : bool :=
  match err with
  | None => false
  | Some e => Is_chain e target
  end.

Definition isNil (err : option error) : bool :=
  match err with None => true | Some _ => false end.

(** ** Data model *)

Definition Time := Z.

(** [strconv.Itoa]. *)
Definition Itoa (n : Z) : string := NilZero.string_of_int (Z.to_int n).

(** [strings.Join]. *)
Fixpoint Join (elems : list string) (sep : string) : string :=
  match elems with
  | [] => ""
  | [e] => e
  | e :: rest => e ++ sep ++ Join rest sep
  end.

(** [slices.Contains] on strings. *)
Fixpoint Contains (s : list string) (v : string) : bool :=
  match s with
  | [] => false
  | x :: rest => String.eqb x v || Contains rest v
  end.

(** [len(s) != 0] on a string. *)
Definition nonEmpty (s : string) : bool :=
  match s with EmptyString => false | String _ _ => true end.

Module Booking.
Record t : Type := mk {
  ID : string;
  Game : string;
  UserID : string;
  Username : string;
  Points : Z;
  Description : string;
  Status : string;
  ReminderEnabled : bool;
  DateTime : Time;
  Players : list string
}.

(** [Booking{}]. *)
Definition zero : t := mk "" "" "" "" 0 "" "" false 0 [].

Definition set_ID (v : string) (b : t) : t :=
  mk v (Game b) (UserID b) (Username b) (Points b) (Description b)
     (Status b) (ReminderEnabled b) (DateTime b) (Players b).
Definition set_Game (v : string) (b : t) : t :=
  mk (ID b) v (UserID b) (Username b) (Points b) (Description b)
     (Status b) (ReminderEnabled b) (DateTime b) (Players b).
Definition set_Points (v : Z) (b : t) : t :=
  mk (ID b) (Game b) (UserID b) (Username b) v (Description b)
     (Status b) (ReminderEnabled b) (DateTime b) (Players b).
Definition set_Description (v : string) (b : t) : t :=
  mk (ID b) (Game b) (UserID b) (Username b) (Points b) v
     (Status b) (ReminderEnabled b) (DateTime b) (Players b).
Definition set_ReminderEnabled (v : bool) (b : t) : t :=
  mk (ID b) (Game b) (UserID b) (Username b) (Points b) (Description b)
     (Status b) v (DateTime b) (Players b).
Definition set_DateTime (v : Time) (b : t) : t :=
  mk (ID b) (Game b) (UserID b) (Username b) (Points b) (Description b)
     (Status b) (ReminderEnabled b) v (Players b).
Definition set_Players (v : list string) (b : t) : t :=
  mk (ID b) (Game b) (UserID b) (Username b) (Points b) (Description b)
     (Status b) (ReminderEnabled b) (DateTime b) v.
End Booking.

(** The discord package: identities and messages. *)
Module User.
Record t : Type := mk { ID : string; Username : string }.
End User.

Module Member.
Record t : Type := mk { User : User.t; Roles : list string }.
End Member.

Module DiscordUser.
Record t : Type := mk { ID : string; Username : string; Admin : bool }.
End DiscordUser.

Module Author.
Record t : Type := mk { Name : string; URL : string; IconURL : string }.
Definition zero : t := mk "" "" "".
End Author.

Module EmbedField.
Record t : Type := mk { Name : string; Value : string; Inline : bool }.
End EmbedField.

Module Embed.
Record t : Type := mk {
  Type_ : string;
  Title : string;
  Author : Author.t;
  Fields : list EmbedField.t;
  ChannelID : string;
  Content : string
}.
End Embed.

Module Message.
Record t : Type := mk { Content : string; Embeds : list Embed.t }.
End Message.

(** ** The collaborators *)

(** [BookingRepository], restricted to the methods the lifecycle
    operations call.  A method takes the repository's state and returns
    its Go results together with the next state. *)
Class BookingRepository (R : Type) : Type := {
  GetBookingByID : R -> string -> (Booking.t * option error) * R;
  InsertBooking : R -> Booking.t -> (Booking.t * option error) * R;
  UpdateBooking : R -> Booking.t -> option error * R;
  SetBookingStatus : R -> string -> string -> option error * R
}.

(** [discord.DiscordClient], restricted likewise. *)
Class DiscordClient (C : Type) : Type := {
  SendMessage : C -> string -> Message.t -> option error * C;
  SearchMembers : C -> string -> Z -> (list Member.t * option error) * C
}.

(** One call on a collaborator, with the error it returned where the
    engine looks at it. *)
Inductive Call : Type :=
| CallGetBookingByID (id : string)
| CallInsertBooking (booking : Booking.t) (err : option error)
| CallUpdateBooking (booking : Booking.t) (err : option error)
| CallSetBookingStatus (id status : string) (err : option error)
| CallSearchMembers (query : string) (limit : Z)
| CallSendMessage (channelID : string) (message : Message.t).

(** A call that asks the repository to write. *)
Definition isWrite (c : Call) : bool :=
  match c with
  | CallInsertBooking _ _ | CallUpdateBooking _ _ | CallSetBookingStatus _ _ _ => true
  | _ => false
  end.

(** A write that the repository reported as done. *)
Definition isCommit (c : Call) : bool :=
  match c with
  | CallInsertBooking _ err | CallUpdateBooking _ err
  | CallSetBookingStatus _ _ err => isNil err
  | _ => false
  end.

Definition isSend (c : Call) : bool :=
  match c with CallSendMessage _ _ => true | _ => false end.

Definition sentMessages (log : list Call) : list Message.t :=
  flat_map (fun c => match c with CallSendMessage _ m => [m] | _ => [] end) log.

(** ** The lifecycle engine ([booking_service.go]) *)

Module NotificationOptions.
Record t : Type := mk { message : string; reason : string }.
End NotificationOptions.

(** [checkUserAllowed]. *)
Definition checkUserAllowed (booking : Booking.t) (user : DiscordUser.t) : bool :=
  if negb (String.eqb (Booking.UserID booking) (DiscordUser.ID user))
     && negb (Contains (Booking.Players booking) (DiscordUser.Username user))
  then false
  else true.

(** [fmt.Sprintf("<@%v>", id)]. *)
Definition Sprintf_tag (id : string) : string := "<@" ++ id ++ ">".

Module Service.

(** The [Service] struct: the two collaborators and the channel, and
    the log of the calls issued on the collaborators, oldest first. *)
Record t (R C : Type) : Type := mk {
  repo : R;
  client : C;
  channelID : string;
  log : list Call
}.

(** [NewService]. *)
Definition NewService {R C : Type} (repo : R) (client : C) (channelID : string) : t R C :=
  mk repo client channelID [].

Section Engine.
Context {R C : Type} {HR : BookingRepository R} {HC : DiscordClient C}.

(** [t.In(loc).Format(time.DateTime)] for the location that
    [sendNotification] loads; the time package is not part of the
    repository. *)
Variable formatDateTime : Time -> string.

(** A method of the service: a computation on the service's state. *)
Definition M (A : Type) : Type := t R C -> A * t R C.

Definition ret {A : Type} (a : A) : M A := fun s => (a, s).

Definition bind {A B : Type} (m : M A) (k : A -> M B) : M B :=
  fun s => let (a, s') := m s in k a s'.

Notation "x <- m ;; k" := (bind m (fun x => k))
  (at level 61, m at next level, right associativity).
Notation "m ;;; k" := (bind m (fun _ => k))
  (at level 61, right associativity).

Definition record (c : Call) (r : R) (d : C) (s : t R C) : t R C :=
  mk r d (channelID s) (log s ++ [c])%list.

(** [s.repo.X(ctx, ...)] and [s.client.X(ctx, ...)]. *)
Definition repo_GetBookingByID (id : string) : M (Booking.t * option error) :=
  fun s => let (res, r) := GetBookingByID (repo s) id in
           (res, record (CallGetBookingByID id) r (client s) s).

Definition repo_InsertBooking (booking : Booking.t) : M (Booking.t * option error) :=
  fun s => let (res, r) := InsertBooking (repo s) booking in
           (res, record (CallInsertBooking booking (snd res)) r (client s) s).

Definition repo_UpdateBooking (booking : Booking.t) : M (option error) :=
  fun s => let (err, r) := UpdateBooking (repo s) booking in
           (err, record (CallUpdateBooking booking err) r (client s) s).

Definition repo_SetBookingStatus (id status : string) : M (option error) :=
  fun s => let (err, r) := SetBookingStatus (repo s) id status in
           (err, record (CallSetBookingStatus id status err) r (client s) s).

Definition client_SearchMembers (query : string) (limit : Z)
  : M (list Member.t * option error) :=
  fun s => let (res, d) := SearchMembers (client s) query limit in
           (res, record (CallSearchMembers query limit) (repo s) d s).

Definition client_SendMessage (channel : string) (message : Message.t)
  : M (option error) :=
  fun s => let (err, d) := SendMessage (client s) channel message in
           (err, record (CallSendMessage channel message) (repo s) d s).

(** The loop of [sendNotification] over [booking.Players]; the
    accumulator is [playerTags].  [_members[0]] is read only under
    [err == nil && len(_members) != 0]. *)
Fixpoint resolvePlayers (players : list string) (playerTags : list string)
  : M (list string) :=
  match players with
  | [] => ret playerTags
  | player :: rest =>
      res <- client_SearchMembers player 1 ;;
      match res with
      | (m0 :: _, None) =>
          resolvePlayers rest
            (playerTags ++ [Sprintf_tag (User.ID (Member.User m0))])%list
      | _ => resolvePlayers rest playerTags
      end
  end.

Definition userTagOf (booking : Booking.t) : string :=
  if nonEmpty (Booking.UserID booking)
  then Sprintf_tag (Booking.UserID booking)
  else Sprintf_tag (Booking.Username booking).

Definition descriptionOf (booking : Booking.t) : string :=
  if nonEmpty (Booking.Description booking)
  then Booking.Description booking
  else "Aucune".

(** The embed that [sendNotification] builds once the players are
    resolved. *)
Definition composeEmbed (channel : string) (booking : Booking.t)
           (options : NotificationOptions.t) (playerTags : list string)
  : Embed.t :=
  let userTag := userTagOf booking in
  let description := descriptionOf booking in
  let fields :=
    [ EmbedField.mk "Utilisateur" userTag true;
      EmbedField.mk "Date et Heure" (formatDateTime (Booking.DateTime booking)) true;
      EmbedField.mk "Jeu" (Booking.Game booking) true;
      EmbedField.mk "Points" (Itoa (Booking.Points booking)) true;
      EmbedField.mk "Joueurs" (Join playerTags ", ") true;
      EmbedField.mk "Description" description true ] in
  let fields :=
    if nonEmpty (NotificationOptions.reason options)
    then (fields ++ [EmbedField.mk "Raison" (NotificationOptions.reason options) true])%list
    else fields in
  Embed.mk "rich" (NotificationOptions.message options) Author.zero
           fields channel "".

(** [sendNotification]. *)
Definition sendNotification (booking : Booking.t) (options : NotificationOptions.t)
  : M (option error) :=
  playerTags <- resolvePlayers (Booking.Players booking) [] ;;
  fun s =>
    (client_SendMessage (channelID s)
       (Message.mk "" [composeEmbed (channelID s) booking options playerTags]) ;;;
     ret None) s.

(** [CreateBooking]. *)
Definition CreateBooking (booking : Booking.t) : M (Booking.t * option error) :=
  res <- repo_InsertBooking booking ;;
  let (booking, err) := res in
  (if isNil err
   then sendNotification booking
          (NotificationOptions.mk "Nouvelle Réservation :calendar:" "") ;;; ret tt
   else ret tt) ;;;
  ret (booking, err).

(** [ModifyBooking]. *)
Definition ModifyBooking (updated : Booking.t) (user : DiscordUser.t)
  : M (option error) :=
  res <- repo_GetBookingByID (Booking.ID updated) ;;
  let (booking, err) := res in
  if negb (isNil err) then ret err
  else if negb (String.eqb (Booking.Status booking) "pending")
  then ret (Some ErrInvalidBookingState)
  else if negb (checkUserAllowed booking user)
  then ret (Some ErrNotAllowed)
  else
    let booking := Booking.set_Game (Booking.Game updated) booking in
    let booking := Booking.set_Points (Booking.Points updated) booking in
    let booking := Booking.set_Description (Booking.Description updated) booking in
    let booking := Booking.set_ReminderEnabled (Booking.ReminderEnabled updated) booking in
    let booking := Booking.set_DateTime (Booking.DateTime updated) booking in
    let booking := Booking.set_Players (Booking.Players updated) booking in
    err <- repo_UpdateBooking booking ;;
    (if isNil err
     then sendNotification booking
            (NotificationOptions.mk "Réservation Modifiée :pencil:" "") ;;; ret tt
     else ret tt) ;;;
    ret err.

(** [AcceptBooking]. *)
Definition AcceptBooking (id : string) : M (option error) :=
  res <- repo_GetBookingByID id ;;
  let (booking, err) := res in
  if negb (isNil err) then ret err
  else if String.eqb (Booking.Status booking) "canceled"
          || String.eqb (Booking.Status booking) "accepted"
  then ret (Some ErrInvalidBookingState)
  else
    err <- repo_SetBookingStatus id "accepted" ;;
    (if isNil err
     then sendNotification booking
            (NotificationOptions.mk "Réservation Acceptée :white_check_mark:" "") ;;; ret tt
     else ret tt) ;;;
    ret err.

(** [RefuseBooking]. *)
Definition RefuseBooking (id reason : string) : M (option error) :=
  res <- repo_GetBookingByID id ;;
  let (booking, err) := res in
  if negb (isNil err) then ret err
  else if String.eqb (Booking.Status booking) "refused"
          || String.eqb (Booking.Status booking) "canceled"
  then ret (Some ErrInvalidBookingState)
  else
    err <- repo_SetBookingStatus id "refused" ;;
    (if isNil err
     then sendNotification booking
            (NotificationOptions.mk "Réservation Refusée :no_entry:" reason) ;;; ret tt
     else ret tt) ;;;
    ret err.

(** [CancelBooking]. *)
Definition CancelBooking (id : string) (user : DiscordUser.t) : M (option error) :=
  res <- repo_GetBookingByID id ;;
  let (booking, err) := res in
  if negb (isNil err) then ret err
  else if String.eqb (Booking.Status booking) "canceled"
          || String.eqb (Booking.Status booking) "refused"
  then ret (Some ErrInvalidBookingState)
  else if negb (checkUserAllowed booking user)
  then ret (Some ErrNotAllowed)
  else
    err <- repo_SetBookingStatus id "canceled" ;;
    match err with
    | Some e => ret (Some (Errorf "failed to cancel booking" e))
    | None =>
        sendNotification booking
          (NotificationOptions.mk
             "Réservation Annulée :negative_squared_cross_mark:" "") ;;;
        ret None
    end.

End Engine.
End Service.

(** ** The PostgreSQL repository ([booking_repository.go]) *)

Module Row.
(** A row of ["game-table-booking".booking].  The columns the queries
    read through [COALESCE] may hold NULL. *)
Record t : Type := mk {
  id : string;
  game : string;
  userId : option string;
  username : option string;
  points : Z;
  description : string;
  status : string;
  reminderEnabled : option bool;
  dateTime : Time;
  players : list string
}.
End Row.

Definition COALESCE {A : Type} (v : option A) (default : A) : A :=
  match v with Some a => a | None => default end.

Module Repository.

(** What the engine sees of the [*pgx.Conn]: the table, the identifier
    the database assigns to the next inserted row, and the outcome of
    the coming statements on the connection, one entry per statement
    ([Some msg]: the driver returns an error and the statement has no
    effect; [None], or no entry left: the statement is executed). *)
Record t : Type := mk {
  table : list Row.t;
  newID : list Row.t -> string;
  faults : list (option string)
}.

(** One statement sent on the connection. *)
Definition roundTrip (r : t) : option error * t :=
  match faults r with
  | [] => (None, r)
  | f :: rest => (option_map ErrForeign f, mk (table r) (newID r) rest)
  end.

Definition hasID (id : string) (row : Row.t) : bool := String.eqb (Row.id row) id.

(** [rows.Scan(&booking.ID, ...)] of the ten selected columns. *)
Definition scan (row : Row.t) : Booking.t :=
  Booking.mk (Row.id row) (Row.game row)
             (COALESCE (Row.userId row) "") (COALESCE (Row.username row) "")
             (Row.points row) (Row.description row) (Row.status row)
             (COALESCE (Row.reminderEnabled row) false)
             (Row.dateTime row) (Row.players row).

(** [GetBookingByID]. *)
Definition GetBookingByID (r : t) (id : string) : (Booking.t * option error) * t :=
  let (fault, r) := roundTrip r in
  let (booking, err) :=
    match fault with
    | Some e => (Booking.zero, Some e)
    | None =>
        match find (hasID id) (table r) with
        | Some row => (scan row, None)
        | None => (Booking.zero, Some ErrNoRows)
        end
    end in
  if errors_Is err ErrNoRows then ((Booking.zero, Some ErrBookingNotFound), r)
  else match err with
       | Some e =>
           ((Booking.zero,
             Some (Errorf ("failed to fetch booking with id " ++ id) e)), r)
       | None => ((booking, None), r)
       end.

(** The row that the INSERT statement of [InsertBooking] adds. *)
Definition inserted (id : string) (booking : Booking.t) : Row.t :=
  Row.mk id (Booking.Game booking)
         (Some (Booking.UserID booking)) (Some (Booking.Username booking))
         (Booking.Points booking) (Booking.Description booking)
         "pending"
         (Some (Booking.ReminderEnabled booking))
         (Booking.DateTime booking) (Booking.Players booking).

(** [InsertBooking]. *)
Definition InsertBooking (r : t) (booking : Booking.t) : (Booking.t * option error) * t :=
  let (fault, r) := roundTrip r in
  match fault with
  | Some e => ((Booking.zero, Some (Errorf "failed to insert booking" e)), r)
  | None =>
      let id := newID r (table r) in
      let booking := Booking.set_ID id booking in
      ((booking, None),
       mk (table r ++ [inserted id booking]) (newID r) (faults r))
  end.

(** The SET clause of [UpdateBooking]. *)
Definition updated (booking : Booking.t) (row : Row.t) : Row.t :=
  Row.mk (Row.id row) (Booking.Game booking) (Row.userId row) (Row.username row)
         (Booking.Points booking) (Booking.Description booking) (Row.status row)
         (Some (Booking.ReminderEnabled booking))
         (Booking.DateTime booking) (Booking.Players booking).

(** [tag.RowsAffected()] of an UPDATE ... WHERE id=$n. *)
Definition RowsAffected (id : string) (rows : list Row.t) : nat :=
  length (filter (hasID id) rows).

(** [UpdateBooking]. *)
Definition UpdateBooking (r : t) (booking : Booking.t) : option error * t :=
  let (fault, r) := roundTrip r in
  match fault with
  | Some e => (Some (Errorf "failed to update booking" e), r)
  | None =>
      let id := Booking.ID booking in
      let r' := mk (map (fun row => if hasID id row then updated booking row else row)
                        (table r))
                   (newID r) (faults r) in
      if Nat.eqb (RowsAffected id (table r)) 0
      then (Some ErrBookingNotFound, r')
      else (None, r')
  end.

(** The SET clause of [SetBookingStatus]. *)
Definition withStatus (status : string) (row : Row.t) : Row.t :=
  Row.mk (Row.id row) (Row.game row) (Row.userId row) (Row.username row)
         (Row.points row) (Row.description row) status
         (Row.reminderEnabled row) (Row.dateTime row) (Row.players row).

(** [SetBookingStatus]. *)
Definition SetBookingStatus (r : t) (id status : string) : option error * t :=
  let (fault, r) := roundTrip r in
  match fault with
  | Some e =>
      (Some (Errorf ("failed to update booking '" ++ id ++ "' status") e), r)
  | None =>
      let r' := mk (map (fun row => if hasID id row then withStatus status row else row)
                        (table r))
                   (newID r) (faults r) in
      if Nat.eqb (RowsAffected id (table r)) 0
      then (Some ErrBookingNotFound, r')
      else (None, r')
  end.

(** The status column of the row that a look-up of [id] reads. *)
Definition statusOf (r : t) (id : string) : option string :=
  option_map Row.status (find (hasID id) (table r)).

End Repository.

#[export] Instance Repository_BookingRepository : BookingRepository Repository.t := {
  GetBookingByID := Repository.GetBookingByID;
  InsertBooking := Repository.InsertBooking;
  UpdateBooking := Repository.UpdateBooking;
  SetBookingStatus := Repository.SetBookingStatus
}.

(** A chat client for the examples: a directory of members by search
    query; a query outside the directory makes the search fail, and the
    channel ["down"] refuses messages. *)
Module Directory.
Definition t : Type := list (string * list Member.t).

Fixpoint lookup (d : t) (query : string) : option (list Member.t) :=
  match d with
  | [] => None
  | (q, members) :: rest => if String.eqb q query then Some members else lookup rest query
  end.

Definition SearchMembers (d : t) (query : string) (limit : Z)
  : (list Member.t * option error) * t :=
  match lookup d query with
  | Some members => ((members, None), d)
  | None => (([], Some (ErrForeign "request failed")), d)
  end.

Definition SendMessage (d : t) (channelID : string) (message : Message.t)
  : option error * t :=
  if String.eqb channelID "down"
  then (Some (ErrForeign "failed to send request"), d)
  else (None, d).
End Directory.

#[export] Instance Directory_DiscordClient : DiscordClient Directory.t := {
  SendMessage := Directory.SendMessage;
  SearchMembers := Directory.SearchMembers
}.

(** ** Requests *)

(** The five lifecycle requests that the handler layer forwards to the
    engine, and what the engine hands back: the booking (create only) and
    the error. *)
Inductive Request : Type :=
| Create (booking : Booking.t)
| Modify (updated : Booking.t) (user : DiscordUser.t)
| Accept (id : string)
| Refuse (id reason : string)
| Cancel (id : string) (user : DiscordUser.t).

Section Perform.
Context {R C : Type} {HR : BookingRepository R} {HC : DiscordClient C}.
Variable formatDateTime : Time -> string.

Definition perform (req : Request) (s : Service.t R C)
  : (option Booking.t * option error) * Service.t R C :=
  match req with
  | Create booking =>
      let (res, s') := Service.CreateBooking formatDateTime booking s in
      ((Some (fst res), snd res), s')
  | Modify updated user =>
      let (err, s') := Service.ModifyBooking formatDateTime updated user s in
      ((None, err), s')
  | Accept id =>
      let (err, s') := Service.AcceptBooking formatDateTime id s in
      ((None, err), s')
  | Refuse id reason =>
      let (err, s') := Service.RefuseBooking formatDateTime id reason s in
      ((None, err), s')
  | Cancel id user =>
      let (err, s') := Service.CancelBooking formatDateTime id user s in
      ((None, err), s')
  end.
End Perform.

(** ** States reached by the engine *)

(** The identifier of the booking that a request addresses. *)
Definition target (req : Request) : option string :=
  match req with
  | Create _ => None
  | Modify updated _ => Some (Booking.ID updated)
  | Accept id | Refuse id _ | Cancel id _ => Some id
  end.

Definition isAccept (req : Request) : bool :=
  match req with Accept _ => true | _ => false end.

Definition isSearch (c : Call) : bool :=
  match c with CallSearchMembers _ _ => true | _ => false end.

(** Number of announcements handed to the chat client, of writes asked of
    the repository, and of writes it reported as done. *)
Definition dispatched (log : list Call) : nat := length (filter isSend log).
Definition writes (log : list Call) : nat := length (filter isWrite log).
Definition committed (log : list Call) : nat := length (filter isCommit log).

Section Reached.
Context {R C : Type} {HR : BookingRepository R} {HC : DiscordClient C}.
Variable formatDateTime : Time -> string.

(** What one run of a method leaves of the service apart from the
    client: same repository, same channel, a longer log. *)
Definition extends (s s' : Service.t R C) (l : list Call) : Prop :=
  Service.repo s' = Service.repo s /\
  Service.channelID s' = Service.channelID s /\
  Service.log s' = (Service.log s ++ l)%list.

(** The service after [sendNotification]. *)
Definition notified (booking : Booking.t) (message reason : string)
           (s : Service.t R C) : Service.t R C :=
  snd (Service.sendNotification formatDateTime booking
         (NotificationOptions.mk message reason) s).

(** The service after the look-up of [id]. *)
Definition looked (id : string) (s : Service.t R C) : Service.t R C :=
  Service.record (CallGetBookingByID id)
                 (snd (GetBookingByID (Service.repo s) id)) (Service.client s) s.

(** The service after [SetBookingStatus id status], following the
    look-up. *)
Definition marked (id status : string) (s : Service.t R C) : Service.t R C :=
  let s1 := looked id s in
  let out := SetBookingStatus (Service.repo s1) id status in
  Service.record (CallSetBookingStatus id status (fst out)) (snd out)
                 (Service.client s1) s1.

(** The booking that [ModifyBooking] hands to [UpdateBooking]. *)
Definition merged (booking updated : Booking.t) : Booking.t :=
  Booking.mk (Booking.ID booking) (Booking.Game updated) (Booking.UserID booking)
             (Booking.Username booking) (Booking.Points updated)
             (Booking.Description updated) (Booking.Status booking)
             (Booking.ReminderEnabled updated) (Booking.DateTime updated)
             (Booking.Players updated).

(** The service after [UpdateBooking], following the look-up. *)
Definition rewritten (updated : Booking.t) (s : Service.t R C) : Service.t R C :=
  let s1 := looked (Booking.ID updated) s in
  let booking := fst (fst (GetBookingByID (Service.repo s) (Booking.ID updated))) in
  let out := UpdateBooking (Service.repo s1) (merged booking updated) in
  Service.record (CallUpdateBooking (merged booking updated) (fst out)) (snd out)
                 (Service.client s1) s1.

End Reached.

(** The value of the field called [name] in an embed. *)
Definition fieldValue (name : string) (embed : Embed.t) : option string :=
  option_map EmbedField.Value
             (find (fun f => String.eqb (EmbedField.Name f) name) (Embed.Fields embed)).

(** The tags of the players, in the words of the specification: the
    names are searched in order, limited to one match; a name contributes
    the tag of its first match when the search succeeds with a non-empty
    result, and nothing otherwise. *)
Inductive Resolved {C : Type} {HC : DiscordClient C}
  : C -> list string -> list string -> C -> Prop :=
| Resolved_done (c : C) : Resolved c [] [] c
| Resolved_tagged (c c1 c2 : C) (player : string) (rest tags : list string)
                  (first : Member.t) (others : list Member.t) :
    SearchMembers c player 1 = ((first :: others, None), c1) ->
    Resolved c1 rest tags c2 ->
    Resolved c (player :: rest)
             (("<@" ++ User.ID (Member.User first) ++ ">") :: tags) c2
| Resolved_omitted (c c1 c2 : C) (player : string) (rest tags : list string)
                   (members : list Member.t) (err : option error) :
    SearchMembers c player 1 = ((members, err), c1) ->
    err <> None \/ members = [] ->
    Resolved c1 rest tags c2 ->
    Resolved c (player :: rest) tags c2.

(** ** The listing queries of the repository *)

Module Queries.

(** The WHERE clause of [GetBookingsPerUsername]:
    [username=$1 OR $1 = ANY(players)]; a NULL username equals nothing. *)
Definition concerns (username : string) (row : Row.t) : bool :=
  match Row.username row with
  | Some owner => String.eqb owner username
  | None => false
  end
  || Contains (Row.players row) username.

(** [GetBookingsPerUsername].  The rows come in the order of the table,
    although the query asks for none; a nil slice and an empty one are
    both the empty list. *)
Definition GetBookingsPerUsername (r : Repository.t) (username : string)
  : (list Booking.t * option error) * Repository.t :=
  let (fault, r) := Repository.roundTrip r in
  match fault with
  | Some e =>
      (([], Some (Errorf ("failed to fetch bookings for username '" ++ username ++ "'")
                         e)), r)
  | None =>
      ((map Repository.scan (filter (concerns username) (Repository.table r)), None), r)
  end.

(** [GetActiveBookings]; [now] is what [time.Now()] returns when the
    query is sent. *)
Definition GetActiveBookings (r : Repository.t) (now : Time)
  : (list Booking.t * option error) * Repository.t :=
  let (fault, r) := Repository.roundTrip r in
  match fault with
  | Some e => (([], Some (Errorf "failed to fetch bookings" e)), r)
  | None =>
      ((map Repository.scan
            (filter (fun row => Z.leb now (Row.dateTime row)) (Repository.table r)),
        None), r)
  end.

End Queries.

(** ** The HTTP layer ([api] package) *)

(** [GetGuildMember] of [discord.DiscordClient], the method that the
    authentication middleware calls: a [*Member] and an error. *)
Class GuildClient (C : Type) : Type := {
  GetGuildMember : C -> string -> (option Member.t * option error) * C
}.

(** What the handlers use of gin.  A [Context] carries the parts of the
    request that the handlers read, the keys that the middleware sets,
    and what has been written to the response.  The status of the
    response is decided by the first write; later writes only add to the
    body. *)
Module gin.

(** The values that the handlers render as JSON. *)
Inductive Payload : Type :=
| H_error (msg : string)
| H_message (msg : string)
| OfBooking (booking : Booking.t)
| OfUser (user : DiscordUser.t).

Record Context : Type := mk {
  Header_accesstoken : string;
  Param_id : string;
  Query_reason : string;
  Body : Booking.t + error;
  Keys_user : option DiscordUser.t;
  Keys_accessToken : option string;
  Errors : list error;
  Written : list (Z * option Payload);
  Aborted : bool;
  Panicked : bool
}.

(** The context of an incoming request: the [accesstoken] header, the
    [id] parameter of the path, the [reason] parameter of the query, and
    the outcome of decoding the body as a booking. *)
Definition incoming (accesstoken id reason : string) (body : Booking.t + error)
  : Context :=
  mk accesstoken id reason body None None [] [] false false.

(** [c.JSON(code, obj)] and [c.IndentedJSON(code, obj)]. *)
Definition JSON (code : Z) (obj : Payload) (c : Context) : Context :=
  mk (Header_accesstoken c) (Param_id c) (Query_reason c) (Body c) (Keys_user c)
     (Keys_accessToken c) (Errors c) (Written c ++ [(code, Some obj)])
     (Aborted c) (Panicked c).

(** [c.Error(err)]. *)
Definition Error (err : error) (c : Context) : Context :=
  mk (Header_accesstoken c) (Param_id c) (Query_reason c) (Body c) (Keys_user c)
     (Keys_accessToken c) (Errors c ++ [err]) (Written c) (Aborted c) (Panicked c).

(** [c.Abort()]. *)
Definition Abort (c : Context) : Context :=
  mk (Header_accesstoken c) (Param_id c) (Query_reason c) (Body c) (Keys_user c)
     (Keys_accessToken c) (Errors c) (Written c) true (Panicked c).

(** [c.AbortWithStatus(code)]: writes the header, without body. *)
Definition AbortWithStatus (code : Z) (c : Context) : Context :=
  Abort (mk (Header_accesstoken c) (Param_id c) (Query_reason c) (Body c)
            (Keys_user c) (Keys_accessToken c) (Errors c)
            (Written c ++ [(code, None)]) (Aborted c) (Panicked c)).

(** [c.BindJSON(&booking)]: when the body does not decode, gin aborts
    with status 400 and records the error before it returns it. *)
Definition BindJSON (c : Context) : (Booking.t * option error) * Context :=
  match Body c with
  | inl booking => ((booking, None), c)
  | inr err => ((Booking.zero, Some err), Error err (AbortWithStatus 400 c))
  end.

(** [c.Set("user", user)] and [c.Set("accessToken", token)]. *)
Definition Set_user (user : DiscordUser.t) (c : Context) : Context :=
  mk (Header_accesstoken c) (Param_id c) (Query_reason c) (Body c) (Some user)
     (Keys_accessToken c) (Errors c) (Written c) (Aborted c) (Panicked c).

Definition Set_accessToken (token : string) (c : Context) : Context :=
  mk (Header_accesstoken c) (Param_id c) (Query_reason c) (Body c) (Keys_user c)
     (Some token) (Errors c) (Written c) (Aborted c) (Panicked c).

(** A Go panic in a handler ([MustGet] on a missing key, a nil
    dereference). *)
Definition panic (c : Context) : Context :=
  mk (Header_accesstoken c) (Param_id c) (Query_reason c) (Body c) (Keys_user c)
     (Keys_accessToken c) (Errors c) (Written c) (Aborted c) true.

(** The status of the response: that of the first write, 200 when
    nothing is written. *)
Definition status (c : Context) : Z :=
  match Written c with
  | [] => 200
  | (code, _) :: _ => code
  end.

(** The JSON values of the body of the response, in order. *)
Definition payloads (c : Context) : list Payload :=
  flat_map (fun w => match snd w with Some p => [p] | None => [] end) (Written c).

End gin.

Module api.
Section Handlers.
Context {R C : Type} {HR : BookingRepository R} {HC : DiscordClient C}.
Context {HG : GuildClient C}.
Variable formatDateTime : Time -> string.

(** [gin.HandlerFunc], on the state that the handlers share: the booking
    service, whose chat client is also the one of the middleware. *)
Definition HandlerFunc : Type :=
  gin.Context -> Service.t R C -> gin.Context * Service.t R C.

(** gin's run of a chain of handlers: the next handler runs unless the
    context is aborted (or the goroutine has panicked). *)
Fixpoint Next (handlers : list HandlerFunc) (c : gin.Context) (s : Service.t R C)
  : gin.Context * Service.t R C :=
  match handlers with
  | [] => (c, s)
  | h :: rest =>
      if gin.Aborted c || gin.Panicked c then (c, s)
      else let (c', s') := h c s in Next rest c' s'
  end.

(** [DiscordAuth] ([discord_auth_middleware.go]). *)
Definition DiscordAuth (adminRoleID : string) : HandlerFunc :=
  fun c s =>
    let accessToken := gin.Header_accesstoken c in
    if negb (nonEmpty accessToken)
    then (gin.Abort (gin.JSON 401 (gin.H_error "missing authentication") c), s)
    else
      let (res, d) := GetGuildMember (Service.client s) accessToken in
      let s := Service.mk (Service.repo s) d (Service.channelID s) (Service.log s) in
      match snd res with
      | Some _ =>
          (gin.Abort (gin.JSON 401 (gin.H_error "invalid authentication") c), s)
      | None =>
          match fst res with
          | None => (gin.panic c, s)
          | Some member =>
              let user :=
                DiscordUser.mk (User.ID (Member.User member))
                               (User.Username (Member.User member))
                               (Contains (Member.Roles member) adminRoleID) in
              (gin.Set_accessToken accessToken (gin.Set_user user c), s)
          end
      end.

(** [AdminOnly]. *)
Definition AdminOnly : HandlerFunc :=
  fun c s =>
    match gin.Keys_user c with
    | None => (gin.panic c, s)
    | Some user =>
        if negb (DiscordUser.Admin user)
        then (gin.Abort (gin.JSON 403 (gin.H_error "not allowed") c), s)
        else (c, s)
    end.

(** [Service.FindBookingByID]: the look-up of the repository. *)
Definition FindBookingByID (id : string) (s : Service.t R C)
  : (Booking.t * option error) * Service.t R C :=
  Service.repo_GetBookingByID id s.

(** [BookingHandler.GetByID]. *)
Definition GetByID : HandlerFunc :=
  fun c s =>
    let id := gin.Param_id c in
    let (res, s) := FindBookingByID id s in
    match snd res with
    | Some err =>
        let c := gin.Error err c in
        if errors_Is (Some err) ErrBookingNotFound
        then (gin.JSON 404 (gin.H_error "booking not found") c, s)
        else (gin.JSON 500 (gin.H_error "failed to fetch booking") c, s)
    | None => (gin.JSON 200 (gin.OfBooking (fst res)) c, s)
    end.

(** [BookingHandler.Create]. *)
Definition Create : HandlerFunc :=
  fun c s =>
    let (bound, c) := gin.BindJSON c in
    match snd bound with
    | Some err =>
        (gin.JSON 400 (gin.H_error "failed to parse JSON body") (gin.Error err c), s)
    | None =>
        let (res, s) := Service.CreateBooking formatDateTime (fst bound) s in
        match snd res with
        | Some err =>
            (gin.JSON 400 (gin.H_error "failed to create booking") (gin.Error err c), s)
        | None => (gin.JSON 201 (gin.OfBooking (fst res)) c, s)
        end
    end.

(** [BookingHandler.Accept]. *)
Definition Accept : HandlerFunc :=
  fun c s =>
    let id := gin.Param_id c in
    let (err, s) := Service.AcceptBooking formatDateTime id s in
    match err with
    | Some e =>
        let c := gin.Error e c in
        if errors_Is err ErrBookingNotFound
        then (gin.JSON 404 (gin.H_error "booking not found") c, s)
        else if errors_Is err ErrInvalidBookingState
        then (gin.JSON 400 (gin.H_error "invalid booking state") c, s)
        else (gin.JSON 500 (gin.H_error "failed to accept booking") c, s)
    | None => (gin.JSON 200 (gin.H_message "booking accepted") c, s)
    end.

(** [BookingHandler.Refuse]. *)
Definition Refuse : HandlerFunc :=
  fun c s =>
    let id := gin.Param_id c in
    let reason := gin.Query_reason c in
    let (err, s) := Service.RefuseBooking formatDateTime id reason s in
    match err with
    | Some e =>
        let c := gin.Error e c in
        if errors_Is err ErrBookingNotFound
        then (gin.JSON 404 (gin.H_error "booking not found") c, s)
        else if errors_Is err ErrInvalidBookingState
        then (gin.JSON 400 (gin.H_error "invalid booking state") c, s)
        else (gin.JSON 500 (gin.H_error "failed to refuse booking") c, s)
    | None => (gin.JSON 200 (gin.H_message "booking refused") c, s)
    end.

(** [BookingHandler.Cancel]. *)
Definition Cancel : HandlerFunc :=
  fun c s =>
    let id := gin.Param_id c in
    match gin.Keys_user c with
    | None => (gin.panic c, s)
    | Some user =>
        let (err, s) := Service.CancelBooking formatDateTime id user s in
        match err with
        | Some e =>
            let c := gin.Error e c in
            if errors_Is err ErrBookingNotFound
            then (gin.JSON 404 (gin.H_error "booking not found") c, s)
            else if errors_Is err ErrInvalidBookingState
            then (gin.JSON 400 (gin.H_error "invalid booking state") c, s)
            else (gin.JSON 500 (gin.H_error "failed to cancel booking") c, s)
        | None => (gin.JSON 200 (gin.H_message "booking canceled") c, s)
        end
    end.

(** [BookingHandler.Modify]. *)
Definition Modify : HandlerFunc :=
  fun c s =>
    match gin.Keys_user c with
    | None => (gin.panic c, s)
    | Some user =>
        let id := gin.Param_id c in
        let (bound, c) := gin.BindJSON c in
        match snd bound with
        | Some _ =>
            (gin.JSON 500 (gin.H_error "failed to parse JSON body") c, s)
        | None =>
            let booking := Booking.set_ID id (fst bound) in
            let (err, s) := Service.ModifyBooking formatDateTime booking user s in
            match err with
            | Some e =>
                let c := gin.Error e c in
                if errors_Is err ErrNotAllowed
                then (gin.JSON 403 (gin.H_error "not allowed to modify this booking") c,
                      s)
                else (gin.JSON 500 (gin.H_error "failed to modify booking") c, s)
            | None => (gin.JSON 200 (gin.H_message "booking modified") c, s)
            end
        end
    end.

(** [DiscordHandler.GetUserInfo] ([discord_handler.go]). *)
Definition GetUserInfo : HandlerFunc :=
  fun c s =>
    match gin.Keys_user c with
    | None => (gin.panic c, s)
    | Some user => (gin.JSON 200 (gin.OfUser user) c, s)
    end.

(** The routes whose handlers are above. *)
Inductive Route : Type :=
| GET_booking_id
| POST_bookings
| PUT_accept
| PUT_refuse
| PUT_cancel
| PUT_modify
| GET_user_info.

(** The chain of a route: [BookingHandler.Register] on the group that
    [main] puts behind [DiscordAuth], and [DiscordHandler.Register]. *)
Definition chain (adminRoleID : string) (route : Route) : list HandlerFunc :=
  match route with
  | GET_booking_id => [DiscordAuth adminRoleID; GetByID]
  | POST_bookings => [DiscordAuth adminRoleID; Create]
  | PUT_accept => [DiscordAuth adminRoleID; AdminOnly; Accept]
  | PUT_refuse => [DiscordAuth adminRoleID; AdminOnly; Refuse]
  | PUT_cancel => [DiscordAuth adminRoleID; Cancel]
  | PUT_modify => [DiscordAuth adminRoleID; Modify]
  | GET_user_info => [DiscordAuth adminRoleID; GetUserInfo]
  end.

Definition serve (adminRoleID : string) (route : Route) (c : gin.Context)
           (s : Service.t R C) : gin.Context * Service.t R C :=
  Next (chain adminRoleID route) c s.

End Handlers.
End api.

(** A guild for the examples: the members by access token; an unknown
    token makes the request fail. *)
#[export] Instance Directory_GuildClient : GuildClient Directory.t := {
  GetGuildMember d accessToken :=
    match accessToken with
    | "token-admin" =>
        ((Some (Member.mk (User.mk "adminID" "admin") ["role-admin"]), None), d)
    | "token-user1" =>
        ((Some (Member.mk (User.mk "user1ID" "user1") ["role-player"]), None), d)
    | "token-someone" =>
        ((Some (Member.mk (User.mk "someone" "someone") []), None), d)
    | _ => ((None, Some (ErrForeign "request failed with status '401'")), d)
    end
}.

(** The service once the middleware has called the chat client. *)
Definition authenticatedWith {R C : Type} (d : C) (s : Service.t R C) : Service.t R C :=
  Service.mk (Service.repo s) d (Service.channelID s) (Service.log s).

(** The user that [DiscordAuth] stores in the context for a member. *)
Definition userOf (adminRoleID : string) (member : Member.t) : DiscordUser.t :=
  DiscordUser.mk (User.ID (Member.User member)) (User.Username (Member.User member))
                 (Contains (Member.Roles member) adminRoleID).

(** The routes that [Register] puts behind [AdminOnly]. *)
Definition adminRoute (route : api.Route) : bool :=
  match route with
  | api.PUT_accept | api.PUT_refuse => true
  | _ => false
  end.

(** The lifecycle request that the handler of a route passes to the
    service, if the body decodes where one is read. *)
Definition requestOf (route : api.Route) (c : gin.Context) (user : DiscordUser.t)
  : option Request :=
  match route with
  | api.GET_booking_id | api.GET_user_info => None
  | api.POST_bookings =>
      match gin.Body c with
      | inl booking => Some (Create booking)
      | inr _ => None
      end
  | api.PUT_accept => Some (Accept (gin.Param_id c))
  | api.PUT_refuse => Some (Refuse (gin.Param_id c) (gin.Query_reason c))
  | api.PUT_cancel => Some (Cancel (gin.Param_id c) user)
  | api.PUT_modify =>
      match gin.Body c with
      | inl booking => Some (Modify (Booking.set_ID (gin.Param_id c) booking) user)
      | inr _ => None
      end
  end.

(** The status and the JSON value with which the handler of a lifecycle
    route answers what the service returned. *)
Definition reply (route : api.Route) (result : option Booking.t * option error)
  : Z * gin.Payload :=
  let err := snd result in
  match err with
  | None =>
      match route with
      | api.POST_bookings =>
          (201, gin.OfBooking (match fst result with
                               | Some booking => booking
                               | None => Booking.zero
                               end))
      | api.PUT_accept => (200, gin.H_message "booking accepted")
      | api.PUT_refuse => (200, gin.H_message "booking refused")
      | api.PUT_cancel => (200, gin.H_message "booking canceled")
      | _ => (200, gin.H_message "booking modified")
      end
  | Some _ =>
      match route with
      | api.POST_bookings => (400, gin.H_error "failed to create booking")
      | api.PUT_modify =>
          if errors_Is err ErrNotAllowed
          then (403, gin.H_error "not allowed to modify this booking")
          else (500, gin.H_error "failed to modify booking")
      | _ =>
          if errors_Is err ErrBookingNotFound
          then (404, gin.H_error "booking not found")
          else if errors_Is err ErrInvalidBookingState
          then (400, gin.H_error "invalid booking state")
          else (500, gin.H_error
                       match route with
                       | api.PUT_accept => "failed to accept booking"
                       | api.PUT_refuse => "failed to refuse booking"
                       | _ => "failed to cancel booking"
                       end)
      end
  end.

(** The status that a request asks the repository to store. *)
Definition newStatus (req : Request) : option string :=
  match req with
  | Accept _ => Some "accepted"
  | Refuse _ _ => Some "refused"
  | Cancel _ _ => Some "canceled"
  | Create _ | Modify _ _ => None
  end.

(** A call on the repository, as opposed to one on the chat client. *)
Definition isRepositoryCall (c : Call) : bool :=
  match c with
  | CallSearchMembers _ _ | CallSendMessage _ _ => false
  | _ => true
  end.

(** [booking] with its status replaced. *)
Definition withBookingStatus (status : string) (booking : Booking.t) : Booking.t :=
  Booking.mk (Booking.ID booking) (Booking.Game booking) (Booking.UserID booking)
             (Booking.Username booking) (Booking.Points booking)
             (Booking.Description booking) status
             (Booking.ReminderEnabled booking) (Booking.DateTime booking)
             (Booking.Players booking).

(** The state check at the head of each operation: [true] when the
    operation rejects a booking read with this status. *)
Definition rejectedIn (req : Request) (status : string) : bool :=
  match req with
  | Create _ => false
  | Modify _ _ => negb (String.eqb status "pending")
  | Accept _ => String.eqb status "canceled" || String.eqb status "accepted"
  | Refuse _ _ => String.eqb status "refused" || String.eqb status "canceled"
  | Cancel _ _ => String.eqb status "canceled" || String.eqb status "refused"
  end.

(** The [NotificationOptions] that each operation passes to
    [sendNotification]. *)
Definition optionsOf (req : Request) : NotificationOptions.t :=
  match req with
  | Create _ => NotificationOptions.mk "Nouvelle Réservation :calendar:" ""
  | Modify _ _ => NotificationOptions.mk "Réservation Modifiée :pencil:" ""
  | Accept _ => NotificationOptions.mk "Réservation Acceptée :white_check_mark:" ""
  | Refuse _ reason => NotificationOptions.mk "Réservation Refusée :no_entry:" reason
  | Cancel _ _ =>
      NotificationOptions.mk "Réservation Annulée :negative_squared_cross_mark:" ""
  end.

(** The member searches that announcing a booking with these players
    issues. *)
Definition searches (players : list string) : list Call :=
  map (fun player => CallSearchMembers player 1) players.

(** ** Fixtures *)

Module Fixture.
Definition member1 : Member.t := Member.mk (User.mk "12345" "user1") [].
Definition member2 : Member.t := Member.mk (User.mk "abcdef" "player2") [].

Definition directory : Directory.t :=
  [("user1", [member1]); ("player2", [member2]); ("ghost", [])].

Definition format (t : Time) : string := "2025-01-01 20:00:00".

Definition row (status : string) : Row.t :=
  Row.mk "123" "test1" (Some "user1ID") (Some "user1") 10 "test description1"
         status (Some true) 0 ["user1"; "player2"].

Definition database (status : string) (faults : list (option string)) : Repository.t :=
  Repository.mk [row status] (fun _ => "124") faults.

Definition service (status : string) (faults : list (option string))
  : Service.t Repository.t Directory.t :=
  Service.NewService (database status faults) directory "test-channel-d".

Definition user1 : DiscordUser.t := DiscordUser.mk "user1ID" "user1" false.
Definition player2 : DiscordUser.t := DiscordUser.mk "p2ID" "player2" false.
Definition someone : DiscordUser.t := DiscordUser.mk "someone" "someone" false.

Definition draft (status : string) : Booking.t :=
  Booking.mk "" "test1" "user1ID" "user1" 10 "test description1" status true 0
             ["user1"; "player2"].

Definition changes : Booking.t :=
  Booking.mk "123" "modified" "intruder" "intruder" 20 "" "accepted" false 7
             ["user1"; "unknown"].
End Fixture.

(** * Properties *)

(** ** The notification composer *)

Lemma searches_no_send (l : list Call) :
  forallb isSearch l = true -> filter isSend l = [].
Proof.
  induction l as [|c l IH]; simpl; [reflexivity|].
  destruct c; simpl; try discriminate; assumption.
Qed.

Lemma searches_no_write (l : list Call) :
  forallb isSearch l = true -> filter isWrite l = [].
Proof.
  induction l as [|c l IH]; simpl; [reflexivity|].
  destruct c; simpl; try discriminate; assumption.
Qed.

Lemma searches_no_commit (l : list Call) :
  forallb isSearch l = true -> filter isCommit l = [].
Proof.
  induction l as [|c l IH]; simpl; [reflexivity|].
  destruct c; simpl; try discriminate; assumption.
Qed.

Section Composer.
Context {R C : Type} {HR : BookingRepository R} {HC : DiscordClient C}.
Variable formatDateTime : Time -> string.

Lemma resolvePlayers_frame (players : list string) :
  forall (tags : list string) (s : Service.t R C),
  exists l, extends s (snd (Service.resolvePlayers players tags s)) l /\
            forallb isSearch l = true.
Proof.
  induction players as [|player rest IH]; intros tags s.
  - exists []. unfold extends. simpl. rewrite app_nil_r. auto.
  - simpl. unfold Service.bind, Service.client_SearchMembers.
    destruct (SearchMembers (Service.client s) player 1) as [[members err] d].
    set (s1 := Service.record (CallSearchMembers player 1) (Service.repo s) d s).
    assert (Hstep : forall tags',
               exists l, extends s (snd (Service.resolvePlayers rest tags' s1)) l /\
                         forallb isSearch l = true).
    { intros tags'. destruct (IH tags' s1) as (l & (Hr & Hc & Hl) & Hs).
      exists (CallSearchMembers player 1 :: l). split; [|exact Hs].
      unfold extends. rewrite Hr, Hc, Hl. subst s1. simpl.
      rewrite <- app_assoc. auto. }
    destruct members as [|m0 ms], err as [e|]; apply Hstep.
Qed.

(** [sendNotification] always returns nil, leaves the repository alone
    and hands exactly one message to the chat client, after the member
    searches. *)
Lemma sendNotification_frame (booking : Booking.t) (options : NotificationOptions.t)
      (s : Service.t R C) :
  fst (Service.sendNotification formatDateTime booking options s) = None /\
  exists l message,
    extends s (snd (Service.sendNotification formatDateTime booking options s))
            (l ++ [CallSendMessage (Service.channelID s) message]) /\
    forallb isSearch l = true.
Proof.
  unfold Service.sendNotification, Service.bind, Service.client_SendMessage,
    Service.ret.
  destruct (resolvePlayers_frame (Booking.Players booking) [] s)
    as (l & (Hr & Hc & Hl) & Hs).
  destruct (Service.resolvePlayers (Booking.Players booking) [] s) as [tags s1].
  simpl in Hr, Hc, Hl.
  destruct (SendMessage (Service.client s1) (Service.channelID s1) _) as [err d].
  simpl. split; [reflexivity|].
  exists l. eexists. split; [|exact Hs].
  unfold extends. simpl. rewrite Hr, Hl, Hc, app_assoc. auto.
Qed.

End Composer.

(** ** The five operations, path by path *)

Section Paths.
Context {R C : Type} {HR : BookingRepository R} {HC : DiscordClient C}.
Variable formatDateTime : Time -> string.

Lemma sendNotification_nil (booking : Booking.t) (options : NotificationOptions.t)
      (s : Service.t R C) :
  Service.sendNotification formatDateTime booking options s =
  (None, snd (Service.sendNotification formatDateTime booking options s)).
Proof.
  destruct (sendNotification_frame formatDateTime booking options s) as [E _].
  destruct (Service.sendNotification formatDateTime booking options s) as [e s'].
  simpl in *. now subst.
Qed.

Lemma CreateBooking_paths (draft : Booking.t) (s : Service.t R C) :
  let out := InsertBooking (Service.repo s) draft in
  let s1 := Service.record (CallInsertBooking draft (snd (fst out))) (snd out)
                           (Service.client s) s in
  Service.CreateBooking formatDateTime draft s =
  (fst out,
   match snd (fst out) with
   | None => notified formatDateTime (fst (fst out)) "Nouvelle Réservation :calendar:" "" s1
   | Some _ => s1
   end).
Proof.
  unfold Service.CreateBooking, Service.bind, Service.repo_InsertBooking, Service.ret,
    notified, Service.record.
  destruct (InsertBooking (Service.repo s) draft) as [[booking err] r1]. simpl.
  destruct err as [e|]; simpl; [reflexivity|].
  rewrite sendNotification_nil. reflexivity.
Qed.

Lemma AcceptBooking_paths (id : string) (s : Service.t R C) :
  let got := fst (GetBookingByID (Service.repo s) id) in
  let status := Booking.Status (fst got) in
  Service.AcceptBooking formatDateTime id s =
  match snd got with
  | Some e => (Some e, looked id s)
  | None =>
      if String.eqb status "canceled" || String.eqb status "accepted"
      then (Some ErrInvalidBookingState, looked id s)
      else
        match fst (SetBookingStatus (Service.repo (looked id s)) id "accepted") with
        | Some e => (Some e, marked id "accepted" s)
        | None =>
            (None, notified formatDateTime (fst got) "Réservation Acceptée :white_check_mark:" ""
                            (marked id "accepted" s))
        end
  end.
Proof.
  unfold Service.AcceptBooking, Service.bind, Service.repo_GetBookingByID,
    Service.repo_SetBookingStatus, Service.ret, notified, marked, looked, Service.record.
  destruct (GetBookingByID (Service.repo s) id) as [[booking err] r1]. simpl.
  destruct err as [e|]; simpl; [reflexivity|].
  destruct (_ || _); [reflexivity|].
  simpl. destruct (SetBookingStatus r1 id "accepted") as [err r2]. simpl.
  destruct err as [e|]; simpl; [reflexivity|].
  rewrite sendNotification_nil. reflexivity.
Qed.

Lemma RefuseBooking_paths (id reason : string) (s : Service.t R C) :
  let got := fst (GetBookingByID (Service.repo s) id) in
  let status := Booking.Status (fst got) in
  Service.RefuseBooking formatDateTime id reason s =
  match snd got with
  | Some e => (Some e, looked id s)
  | None =>
      if String.eqb status "refused" || String.eqb status "canceled"
      then (Some ErrInvalidBookingState, looked id s)
      else
        match fst (SetBookingStatus (Service.repo (looked id s)) id "refused") with
        | Some e => (Some e, marked id "refused" s)
        | None =>
            (None, notified formatDateTime (fst got) "Réservation Refusée :no_entry:" reason
                            (marked id "refused" s))
        end
  end.
Proof.
  unfold Service.RefuseBooking, Service.bind, Service.repo_GetBookingByID,
    Service.repo_SetBookingStatus, Service.ret, notified, marked, looked, Service.record.
  destruct (GetBookingByID (Service.repo s) id) as [[booking err] r1]. simpl.
  destruct err as [e|]; simpl; [reflexivity|].
  destruct (_ || _); [reflexivity|].
  simpl. destruct (SetBookingStatus r1 id "refused") as [err r2]. simpl.
  destruct err as [e|]; simpl; [reflexivity|].
  rewrite sendNotification_nil. reflexivity.
Qed.

Lemma CancelBooking_paths (id : string) (user : DiscordUser.t) (s : Service.t R C) :
  let got := fst (GetBookingByID (Service.repo s) id) in
  let status := Booking.Status (fst got) in
  Service.CancelBooking formatDateTime id user s =
  match snd got with
  | Some e => (Some e, looked id s)
  | None =>
      if String.eqb status "canceled" || String.eqb status "refused"
      then (Some ErrInvalidBookingState, looked id s)
      else if checkUserAllowed (fst got) user
      then
        match fst (SetBookingStatus (Service.repo (looked id s)) id "canceled") with
        | Some e => (Some (Errorf "failed to cancel booking" e), marked id "canceled" s)
        | None =>
            (None, notified formatDateTime (fst got)
                            "Réservation Annulée :negative_squared_cross_mark:" ""
                            (marked id "canceled" s))
        end
      else (Some ErrNotAllowed, looked id s)
  end.
Proof.
  unfold Service.CancelBooking, Service.bind, Service.repo_GetBookingByID,
    Service.repo_SetBookingStatus, Service.ret, notified, marked, looked, Service.record.
  destruct (GetBookingByID (Service.repo s) id) as [[booking err] r1]. simpl.
  destruct err as [e|]; simpl; [reflexivity|].
  destruct (_ || _); [reflexivity|].
  destruct (checkUserAllowed booking user); simpl; [|reflexivity].
  simpl. destruct (SetBookingStatus r1 id "canceled") as [err r2]. simpl.
  destruct err as [e|]; simpl; [reflexivity|].
  rewrite sendNotification_nil. reflexivity.
Qed.

Lemma ModifyBooking_paths (updated : Booking.t) (user : DiscordUser.t) (s : Service.t R C) :
  let id := Booking.ID updated in
  let got := fst (GetBookingByID (Service.repo s) id) in
  Service.ModifyBooking formatDateTime updated user s =
  match snd got with
  | Some e => (Some e, looked id s)
  | None =>
      if String.eqb (Booking.Status (fst got)) "pending"
      then
        if checkUserAllowed (fst got) user
        then
          match fst (UpdateBooking (Service.repo (looked id s))
                                   (merged (fst got) updated)) with
          | Some e => (Some e, rewritten updated s)
          | None =>
              (None, notified formatDateTime (merged (fst got) updated)
                              "Réservation Modifiée :pencil:" "" (rewritten updated s))
          end
        else (Some ErrNotAllowed, looked id s)
      else (Some ErrInvalidBookingState, looked id s)
  end.
Proof.
  unfold Service.ModifyBooking, Service.bind, Service.repo_GetBookingByID,
    Service.repo_UpdateBooking, Service.ret, notified, rewritten, looked, Service.record.
  destruct (GetBookingByID (Service.repo s) (Booking.ID updated)) as [[booking err] r1].
  simpl.
  destruct err as [e|]; simpl; [reflexivity|].
  destruct (String.eqb (Booking.Status booking) "pending"); simpl; [|reflexivity].
  destruct (checkUserAllowed booking user); simpl; [|reflexivity].
  change (Booking.set_Players _ _) with (merged booking updated).
  simpl. destruct (UpdateBooking r1 (merged booking updated)) as [err r2]. simpl.
  destruct err as [e|]; simpl; [reflexivity|].
  rewrite sendNotification_nil. reflexivity.
Qed.

End Paths.

(** ** The repository *)

Lemma roundTrip_table (r : Repository.t) :
  Repository.table (snd (Repository.roundTrip r)) = Repository.table r.
Proof.
  unfold Repository.roundTrip. destruct (Repository.faults r); reflexivity.
Qed.

Lemma GetBookingByID_table (r : Repository.t) (id : string) :
  Repository.table (snd (Repository.GetBookingByID r id)) = Repository.table r.
Proof.
  unfold Repository.GetBookingByID.
  pose proof (roundTrip_table r) as T.
  destruct (Repository.roundTrip r) as [fault r1]. simpl in T.
  destruct fault as [e|].
  - destruct (errors_Is (Some e) ErrNoRows); exact T.
  - destruct (find (Repository.hasID id) (Repository.table r1)); exact T.
Qed.

(** A look-up that returns no error has read the first row with that
    identifier. *)
Lemma GetBookingByID_found (r : Repository.t) (id : string) (booking : Booking.t) :
  fst (Repository.GetBookingByID r id) = (booking, None) ->
  exists row, find (Repository.hasID id) (Repository.table r) = Some row /\
              booking = Repository.scan row.
Proof.
  unfold Repository.GetBookingByID, Repository.roundTrip.
  destruct (Repository.faults r) as [|f rest]; simpl.
  - destruct (find (Repository.hasID id) (Repository.table r)) as [row|]; simpl.
    + intros E. exists row. split; [reflexivity|congruence].
    + discriminate.
  - destruct f as [msg|]; simpl; [discriminate|].
    destruct (find (Repository.hasID id) (Repository.table r)) as [row|]; simpl.
    + intros E. exists row. split; [reflexivity|congruence].
    + discriminate.
Qed.

Lemma found_affected (id : string) (rows : list Row.t) (row : Row.t) :
  find (Repository.hasID id) rows = Some row ->
  Nat.eqb (Repository.RowsAffected id rows) 0 = false.
Proof.
  unfold Repository.RowsAffected.
  induction rows as [|x rows IH]; simpl; [discriminate|].
  destruct (Repository.hasID id x); simpl; [reflexivity|exact IH].
Qed.

Lemma unaffected_map (id : string) (f : Row.t -> Row.t) (rows : list Row.t) :
  Nat.eqb (Repository.RowsAffected id rows) 0 = true ->
  map (fun row => if Repository.hasID id row then f row else row) rows = rows.
Proof.
  unfold Repository.RowsAffected.
  induction rows as [|x rows IH]; simpl; [reflexivity|].
  destruct (Repository.hasID id x); simpl; [discriminate|].
  intros E. now rewrite IH.
Qed.

Lemma find_map_hasID (id : string) (f : Row.t -> Row.t) (rows : list Row.t) :
  (forall row, Row.id (f row) = Row.id row) ->
  find (Repository.hasID id)
       (map (fun row => if Repository.hasID id row then f row else row) rows) =
  option_map f (find (Repository.hasID id) rows).
Proof.
  intros Hid. induction rows as [|x rows IH]; simpl; [reflexivity|].
  destruct (Repository.hasID id x) eqn:E.
  - unfold Repository.hasID in *. rewrite Hid, E. reflexivity.
  - rewrite E. exact IH.
Qed.

(** A status update that returns an error leaves the table as it was. *)
Lemma SetBookingStatus_failed (r : Repository.t) (id status : string) (e : error) :
  fst (Repository.SetBookingStatus r id status) = Some e ->
  Repository.table (snd (Repository.SetBookingStatus r id status)) = Repository.table r.
Proof.
  unfold Repository.SetBookingStatus.
  pose proof (roundTrip_table r) as T.
  destruct (Repository.roundTrip r) as [fault r1]. simpl in T.
  destruct fault as [e'|]; simpl; [intros _; exact T|].
  destruct (Nat.eqb (Repository.RowsAffected id (Repository.table r1)) 0) eqn:E; simpl.
  - intros _. rewrite unaffected_map by exact E. exact T.
  - discriminate.
Qed.

(** A status update that is executed on a table that holds the row
    rewrites the status column of the rows with that identifier. *)
Lemma SetBookingStatus_done (r : Repository.t) (id status : string) (row : Row.t) :
  fst (Repository.roundTrip r) = None ->
  find (Repository.hasID id) (Repository.table r) = Some row ->
  fst (Repository.SetBookingStatus r id status) = None /\
  Repository.table (snd (Repository.SetBookingStatus r id status)) =
  map (fun row => if Repository.hasID id row
                  then Repository.withStatus status row else row)
      (Repository.table r).
Proof.
  unfold Repository.SetBookingStatus.
  pose proof (roundTrip_table r) as T.
  destruct (Repository.roundTrip r) as [fault r1]. simpl in T |- *.
  intros -> F. rewrite T.
  rewrite (found_affected _ _ F). simpl. auto.
Qed.

(** The errors of a status update that follows a successful look-up come
    from the driver. *)
Lemma SetBookingStatus_error (r : Repository.t) (id status : string) (row : Row.t)
      (e : error) :
  find (Repository.hasID id) (Repository.table r) = Some row ->
  fst (Repository.SetBookingStatus r id status) = Some e ->
  exists msg,
    e = Errorf ("failed to update booking '" ++ id ++ "' status") (ErrForeign msg).
Proof.
  unfold Repository.SetBookingStatus, Repository.roundTrip.
  intros F.
  destruct (Repository.faults r) as [|f rest]; simpl.
  - rewrite (found_affected _ _ F). discriminate.
  - destruct f as [msg|]; simpl.
    + intros E. exists msg. congruence.
    + rewrite (found_affected _ _ F). discriminate.
Qed.

(** An update that returns no error has rewritten the six columns of its
    SET clause in the rows with that identifier. *)
Lemma UpdateBooking_done (r : Repository.t) (booking : Booking.t) :
  fst (Repository.UpdateBooking r booking) = None ->
  Repository.table (snd (Repository.UpdateBooking r booking)) =
  map (fun row => if Repository.hasID (Booking.ID booking) row
                  then Repository.updated booking row else row)
      (Repository.table r).
Proof.
  unfold Repository.UpdateBooking.
  pose proof (roundTrip_table r) as T.
  destruct (Repository.roundTrip r) as [fault r1]. simpl in T.
  destruct fault as [e|]; simpl; [discriminate|].
  destruct (Nat.eqb _ 0); simpl; [discriminate|].
  intros _. now rewrite T.
Qed.

(** ** Counting calls *)

Lemma dispatched_app (l l' : list Call) :
  dispatched (l ++ l') = (dispatched l + dispatched l')%nat.
Proof. unfold dispatched. now rewrite filter_app, length_app. Qed.

Lemma writes_app (l l' : list Call) :
  writes (l ++ l') = (writes l + writes l')%nat.
Proof. unfold writes. now rewrite filter_app, length_app. Qed.

Lemma committed_app (l l' : list Call) :
  committed (l ++ l') = (committed l + committed l')%nat.
Proof. unfold committed. now rewrite filter_app, length_app. Qed.

Lemma sentMessages_app (l l' : list Call) :
  sentMessages (l ++ l') = (sentMessages l ++ sentMessages l')%list.
Proof. unfold sentMessages. apply flat_map_app. Qed.

Lemma searches_not_sent (l : list Call) :
  forallb isSearch l = true -> sentMessages l = [].
Proof.
  induction l as [|c l IH]; simpl; [reflexivity|].
  destruct c; simpl; try discriminate; assumption.
Qed.

(** The calls of one announcement: searches, then one message. *)
Lemma announcement_counts (l : list Call) (channel : string) (message : Message.t) :
  forallb isSearch l = true ->
  dispatched (l ++ [CallSendMessage channel message]) = 1%nat /\
  writes (l ++ [CallSendMessage channel message]) = 0%nat /\
  committed (l ++ [CallSendMessage channel message]) = 0%nat.
Proof.
  intros Hs. rewrite dispatched_app, writes_app, committed_app.
  unfold dispatched, writes, committed.
  rewrite (searches_no_send _ Hs), (searches_no_write _ Hs), (searches_no_commit _ Hs).
  auto.
Qed.

Section Frames.
Context {R C : Type} {HR : BookingRepository R} {HC : DiscordClient C}.
Variable formatDateTime : Time -> string.

Lemma notified_frame (booking : Booking.t) (message reason : string)
      (s : Service.t R C) :
  exists l m,
    extends s (notified formatDateTime booking message reason s)
            (l ++ [CallSendMessage (Service.channelID s) m]) /\
    forallb isSearch l = true.
Proof.
  unfold notified.
  destruct (sendNotification_frame formatDateTime booking
              (NotificationOptions.mk message reason) s) as [_ H].
  exact H.
Qed.

Lemma notified_repo (booking : Booking.t) (message reason : string)
      (s : Service.t R C) :
  Service.repo (notified formatDateTime booking message reason s) = Service.repo s.
Proof.
  destruct (notified_frame booking message reason s) as (l & m & (Hr & _) & _).
  exact Hr.
Qed.

End Frames.

(** ** The lifecycle on the PostgreSQL repository *)

Ltac on_postgres H :=
  change (@GetBookingByID Repository.t _) with Repository.GetBookingByID in H;
  change (@SetBookingStatus Repository.t _) with Repository.SetBookingStatus in H;
  change (@UpdateBooking Repository.t _) with Repository.UpdateBooking in H;
  change (@InsertBooking Repository.t _) with Repository.InsertBooking in H.

Lemma status_guard (status a b : string) :
  String.eqb status a || String.eqb status b = true <-> status = a \/ status = b.
Proof.
  rewrite orb_true_iff, !String.eqb_eq. reflexivity.
Qed.

Lemma status_guard_false (status a b : string) :
  String.eqb status a || String.eqb status b = false <-> status <> a /\ status <> b.
Proof.
  rewrite orb_false_iff, !String.eqb_neq. reflexivity.
Qed.

Lemma lookup_facts (r r1 : Repository.t) (id : string) (booking : Booking.t) :
  Repository.GetBookingByID r id = ((booking, None), r1) ->
  exists row, find (Repository.hasID id) (Repository.table r) = Some row /\
              booking = Repository.scan row /\
              Row.id row = id /\
              Repository.table r1 = Repository.table r /\
              find (Repository.hasID id) (Repository.table r1) = Some row.
Proof.
  intros G.
  assert (F : fst (Repository.GetBookingByID r id) = (booking, None)) by now rewrite G.
  destruct (GetBookingByID_found _ _ F) as (row & Hrow & Hb).
  pose proof (GetBookingByID_table r id) as T. rewrite G in T. simpl in T.
  exists row. repeat split; try assumption.
  - apply find_some in Hrow. destruct Hrow as [_ E].
    now apply String.eqb_eq in E.
  - now rewrite T.
Qed.

(** The errors of the look-up: the sentinel, or the wrapped driver
    error. *)
Lemma GetBookingByID_error (r r1 : Repository.t) (id : string) (booking : Booking.t)
      (e : error) :
  Repository.GetBookingByID r id = ((booking, Some e), r1) ->
  e = ErrBookingNotFound \/
  exists msg, e = Errorf ("failed to fetch booking with id " ++ id) (ErrForeign msg).
Proof.
  unfold Repository.GetBookingByID, Repository.roundTrip.
  destruct (Repository.faults r) as [|f rest]; simpl.
  - destruct (find (Repository.hasID id) (Repository.table r)); simpl.
    + discriminate.
    + intros E. left. congruence.
  - destruct f as [msg|]; simpl.
    + intros E. right. exists msg. congruence.
    + destruct (find (Repository.hasID id) (Repository.table r)); simpl.
      * discriminate.
      * intros E. left. congruence.
Qed.

(** The errors of an update. *)
Lemma UpdateBooking_error (r : Repository.t) (booking : Booking.t) (e : error) :
  fst (Repository.UpdateBooking r booking) = Some e ->
  e = ErrBookingNotFound \/
  exists msg, e = Errorf "failed to update booking" (ErrForeign msg).
Proof.
  unfold Repository.UpdateBooking, Repository.roundTrip.
  destruct (Repository.faults r) as [|f rest]; simpl.
  - destruct (Nat.eqb _ 0); simpl; [|discriminate]. intros E. left. congruence.
  - destruct f as [msg|]; simpl.
    + intros E. right. exists msg. congruence.
    + destruct (Nat.eqb _ 0); simpl; [|discriminate]. intros E. left. congruence.
Qed.

(** An update that returns an error leaves the table as it was. *)
Lemma UpdateBooking_failed (r : Repository.t) (booking : Booking.t) (e : error) :
  fst (Repository.UpdateBooking r booking) = Some e ->
  Repository.table (snd (Repository.UpdateBooking r booking)) = Repository.table r.
Proof.
  unfold Repository.UpdateBooking.
  pose proof (roundTrip_table r) as T.
  destruct (Repository.roundTrip r) as [fault r1]. simpl in T.
  destruct fault as [e'|]; simpl; [intros _; exact T|].
  destruct (Nat.eqb (Repository.RowsAffected _ (Repository.table r1)) 0) eqn:E; simpl.
  - intros _. rewrite unaffected_map by exact E. exact T.
  - discriminate.
Qed.

Lemma Contains_In (s : list string) (v : string) :
  Contains s v = true <-> In v s.
Proof.
  induction s as [|x s IH]; simpl.
  - split; [discriminate|tauto].
  - rewrite orb_true_iff, String.eqb_eq, IH. reflexivity.
Qed.

(** [checkUserAllowed] is the predicate of the specification. *)
Lemma checkUserAllowed_iff (booking : Booking.t) (user : DiscordUser.t) :
  checkUserAllowed booking user = true <->
  Booking.UserID booking = DiscordUser.ID user \/
  In (DiscordUser.Username user) (Booking.Players booking).
Proof.
  unfold checkUserAllowed. rewrite <- Contains_In, <- String.eqb_eq.
  destruct (String.eqb _ _), (Contains _ _); simpl; intuition discriminate.
Qed.

Section Lifecycle.
Context {C : Type} {HC : DiscordClient C}.
Variable formatDateTime : Time -> string.

(** C4.  On a booking that the look-up finds, [AcceptBooking] returns
    [ErrInvalidBookingState] exactly when the current status is
    ["accepted"] or ["canceled"]; for any other current status, when the
    database executes the status update, it returns nil and the stored
    status of the booking is ["accepted"] (only the status column of the
    rows with this identifier is rewritten). *)
Theorem accept_state_check (s : Service.t Repository.t C) (id : string) (booking : Booking.t)
        (r1 : Repository.t) :
  Repository.GetBookingByID (Service.repo s) id = ((booking, None), r1) ->
  let out := Service.AcceptBooking formatDateTime id s in
  (fst out = Some ErrInvalidBookingState <->
   Booking.Status booking = "accepted" \/ Booking.Status booking = "canceled") /\
  (Booking.Status booking <> "accepted" ->
   Booking.Status booking <> "canceled" ->
   fst (Repository.roundTrip r1) = None ->
   fst out = None /\
   Repository.statusOf (Service.repo (snd out)) id = Some "accepted" /\
   Repository.table (Service.repo (snd out)) =
   map (fun row => if Repository.hasID id row
                   then Repository.withStatus "accepted" row else row)
       (Repository.table (Service.repo s))).
Proof.
  intros G out.
  pose proof (AcceptBooking_paths formatDateTime id s) as P.
  unfold marked, looked in P. on_postgres P. rewrite G in P.
  cbn [fst snd Service.repo Service.record Service.client] in P.
  fold out in P.
  assert (F : fst (Repository.GetBookingByID (Service.repo s) id) = (booking, None))
    by now rewrite G.
  destruct (GetBookingByID_found _ _ F) as (row & Hrow & Hb).
  assert (T1 : Repository.table r1 = Repository.table (Service.repo s)).
  { pose proof (GetBookingByID_table (Service.repo s) id) as T. now rewrite G in T. }
  assert (Hrow1 : find (Repository.hasID id) (Repository.table r1) = Some row)
    by now rewrite T1.
  destruct (String.eqb (Booking.Status booking) "canceled"
            || String.eqb (Booking.Status booking) "accepted") eqn:Guard.
  - apply status_guard in Guard. split.
    + split; [tauto|]. intros _. now rewrite P.
    + tauto.
  - apply status_guard_false in Guard.
    destruct (fst (Repository.SetBookingStatus r1 id "accepted")) as [e|] eqn:W.
    + destruct (SetBookingStatus_error _ _ _ Hrow1 W) as (msg & ->).
      split.
      * rewrite P. simpl. split; [discriminate|tauto].
      * intros _ _ Hexec.
        destruct (SetBookingStatus_done r1 id "accepted" Hexec Hrow1) as [W' _].
        congruence.
    + split.
      * rewrite P. simpl. split; [discriminate|tauto].
      * intros _ _ Hexec.
        destruct (SetBookingStatus_done r1 id "accepted" Hexec Hrow1) as [_ Tb].
        rewrite P. cbn [fst snd]. rewrite notified_repo.
        unfold Service.record, Repository.statusOf. cbn [Service.repo].
        rewrite Tb, T1. split; [reflexivity|]. split; [|reflexivity].
        rewrite find_map_hasID by reflexivity.
        rewrite Hrow. reflexivity.
Qed.

(** C2 (amended).  ["canceled"] is terminal for the four operations
    and ["refused"] is terminal for refuse, cancel and modify: on a
    booking found with such a status the operation returns
    [ErrInvalidBookingState], the only call issued is the look-up, and
    the table is unchanged. *)
Theorem terminal_statuses (s : Service.t Repository.t C) (req : Request) (id : string)
        (booking : Booking.t) (r1 : Repository.t) :
  Repository.GetBookingByID (Service.repo s) id = ((booking, None), r1) ->
  target req = Some id ->
  Booking.Status booking = "canceled" \/
  (Booking.Status booking = "refused" /\ isAccept req = false) ->
  let out := perform formatDateTime req s in
  snd (fst out) = Some ErrInvalidBookingState /\
  Repository.table (Service.repo (snd out)) = Repository.table (Service.repo s) /\
  Service.log (snd out) = (Service.log s ++ [CallGetBookingByID id])%list.
Proof.
  intros G Ht Hst.
  destruct (lookup_facts _ _ G) as (row & _ & _ & _ & T1 & _).
  assert (Hmod : String.eqb (Booking.Status booking) "pending" = false)
    by (destruct Hst as [E|[E _]]; rewrite E; reflexivity).
  assert (Href : String.eqb (Booking.Status booking) "refused"
                 || String.eqb (Booking.Status booking) "canceled" = true)
    by (destruct Hst as [E|[E _]]; rewrite E; reflexivity).
  assert (Hcan : String.eqb (Booking.Status booking) "canceled"
                 || String.eqb (Booking.Status booking) "refused" = true)
    by (destruct Hst as [E|[E _]]; rewrite E; reflexivity).
  destruct req as [draft|updated user|id'|id' reason|id' user];
    simpl in Ht; try discriminate; injection Ht as Ht; subst id; unfold perform.
  - pose proof (ModifyBooking_paths formatDateTime updated user s) as P.
    unfold looked in P. on_postgres P. rewrite G in P. cbn [fst snd] in P.
    rewrite Hmod in P. rewrite P. simpl. auto.
  - assert (Hacc : String.eqb (Booking.Status booking) "canceled"
                   || String.eqb (Booking.Status booking) "accepted" = true).
    { destruct Hst as [E|[_ E]]; [rewrite E; reflexivity|discriminate]. }
    pose proof (AcceptBooking_paths formatDateTime id' s) as P.
    unfold looked in P. on_postgres P. rewrite G in P. cbn [fst snd] in P.
    rewrite Hacc in P. rewrite P. simpl. auto.
  - pose proof (RefuseBooking_paths formatDateTime id' reason s) as P.
    unfold looked in P. on_postgres P. rewrite G in P. cbn [fst snd] in P.
    rewrite Href in P. rewrite P. simpl. auto.
  - pose proof (CancelBooking_paths formatDateTime id' user s) as P.
    unfold looked in P. on_postgres P. rewrite G in P. cbn [fst snd] in P.
    rewrite Hcan in P. rewrite P. simpl. auto.
Qed.

(** C3.  [checkUserAllowed] holds exactly when the caller's ID is the
    owner's user ID or the caller's username is among the players.  Once
    the state check has passed, [ModifyBooking] and [CancelBooking]
    return [ErrNotAllowed] exactly when it fails, and then the only call
    issued is the look-up and the table is unchanged. *)
Theorem owner_or_player_only (s : Service.t Repository.t C) (id : string) (booking : Booking.t)
        (r1 : Repository.t) (user : DiscordUser.t) :
  Repository.GetBookingByID (Service.repo s) id = ((booking, None), r1) ->
  let allowed := Booking.UserID booking = DiscordUser.ID user \/
                 In (DiscordUser.Username user) (Booking.Players booking) in
  (checkUserAllowed booking user = true <-> allowed) /\
  (forall updated : Booking.t,
      Booking.ID updated = id ->
      Booking.Status booking = "pending" ->
      let out := Service.ModifyBooking formatDateTime updated user s in
      (fst out = Some ErrNotAllowed <-> ~ allowed) /\
      (~ allowed ->
       Repository.table (Service.repo (snd out)) = Repository.table (Service.repo s) /\
       Service.log (snd out) = (Service.log s ++ [CallGetBookingByID id])%list)) /\
  (Booking.Status booking <> "canceled" ->
   Booking.Status booking <> "refused" ->
   let out := Service.CancelBooking formatDateTime id user s in
   (fst out = Some ErrNotAllowed <-> ~ allowed) /\
   (~ allowed ->
    Repository.table (Service.repo (snd out)) = Repository.table (Service.repo s) /\
    Service.log (snd out) = (Service.log s ++ [CallGetBookingByID id])%list)).
Proof.
  intros G allowed.
  destruct (lookup_facts _ _ G) as (row & _ & _ & _ & T1 & Hrow1).
  pose proof (checkUserAllowed_iff booking user) as A. fold allowed in A.
  split; [exact A|]. split.
  - intros updated <- Hst out.
    pose proof (ModifyBooking_paths formatDateTime updated user s) as P.
    unfold rewritten, looked in P. on_postgres P. rewrite G in P.
    cbn [fst snd] in P. fold out in P.
    rewrite Hst in P. simpl String.eqb in P. cbv iota in P.
    destruct (checkUserAllowed booking user) eqn:Chk.
    + assert (Ha : allowed) by now apply A.
      split; [|tauto]. split; [|tauto]. intros E. exfalso.
      unfold Service.record in P. cbn [Service.repo] in P.
      destruct (fst (Repository.UpdateBooking r1 _)) as [e|] eqn:W.
      * destruct (UpdateBooking_error _ _ W) as [->|(msg & ->)];
          rewrite P in E; discriminate.
      * rewrite P in E. discriminate.
    + assert (Ha : ~ allowed) by (rewrite <- A; discriminate).
      rewrite P. simpl. split; [tauto|]. auto.
  - intros Hc Hr out.
    pose proof (CancelBooking_paths formatDateTime id user s) as P.
    unfold marked, looked in P. on_postgres P. rewrite G in P.
    cbn [fst snd] in P. fold out in P.
    assert (Guard : String.eqb (Booking.Status booking) "canceled"
                    || String.eqb (Booking.Status booking) "refused" = false)
      by now apply status_guard_false.
    rewrite Guard in P.
    destruct (checkUserAllowed booking user) eqn:Chk.
    + assert (Ha : allowed) by now apply A.
      split; [|tauto]. split; [|tauto]. intros E. exfalso.
      destruct (fst (Repository.SetBookingStatus _ id "canceled")) as [e|];
        rewrite P in E; discriminate.
    + assert (Ha : ~ allowed) by (rewrite <- A; discriminate).
      rewrite P. simpl. split; [tauto|]. auto.
Qed.

(** C6.  [CancelBooking] checks the state before the caller: on a
    booking found ["canceled"] or ["refused"] it returns
    [ErrInvalidBookingState] whoever the caller is.  When the status
    update fails with [e], it returns [e] wrapped as
    ["failed to cancel booking: ..."], which no failed look-up returns
    and which is not [ErrBookingNotFound] for [errors.Is]; the table,
    and with it the stored status, is unchanged and nothing is
    announced. *)
Theorem cancel_state_then_caller (s : Service.t Repository.t C) (id : string) (booking : Booking.t)
        (r1 : Repository.t) (user : DiscordUser.t) :
  Repository.GetBookingByID (Service.repo s) id = ((booking, None), r1) ->
  let out := Service.CancelBooking formatDateTime id user s in
  (Booking.Status booking = "canceled" \/ Booking.Status booking = "refused" ->
   fst out = Some ErrInvalidBookingState) /\
  (forall e : error,
      Booking.Status booking <> "canceled" ->
      Booking.Status booking <> "refused" ->
      checkUserAllowed booking user = true ->
      fst (Repository.SetBookingStatus r1 id "canceled") = Some e ->
      fst out = Some (Errorf "failed to cancel booking" e) /\
      Error (Errorf "failed to cancel booking" e) =
      "failed to cancel booking: " ++ Error e /\
      errors_Is (fst out) ErrBookingNotFound = false /\
      (forall (r r' : Repository.t) (id' : string) (b' : Booking.t) (e' : error),
          Repository.GetBookingByID r id' = ((b', Some e'), r') ->
          Errorf "failed to cancel booking" e <> e') /\
      Repository.table (Service.repo (snd out)) = Repository.table (Service.repo s) /\
      Repository.statusOf (Service.repo (snd out)) id = Some (Booking.Status booking) /\
      dispatched (Service.log (snd out)) = dispatched (Service.log s)).
Proof.
  intros G out.
  destruct (lookup_facts _ _ G) as (row & Hrow & Hb & _ & T1 & Hrow1).
  pose proof (CancelBooking_paths formatDateTime id user s) as P.
  unfold marked, looked, Service.record in P. on_postgres P. rewrite G in P.
  cbn [fst snd Service.repo Service.client Service.channelID Service.log] in P.
  fold out in P.
  split.
  - intros Hst. apply status_guard in Hst. rewrite Hst in P. now rewrite P.
  - intros e Hc Hr Chk W.
    assert (Guard : String.eqb (Booking.Status booking) "canceled"
                    || String.eqb (Booking.Status booking) "refused" = false)
      by now apply status_guard_false.
    rewrite Guard, Chk, W in P. rewrite P. cbn [fst snd Service.repo Service.log].
    destruct (SetBookingStatus_error _ _ _ Hrow1 W) as (msg & He).
    split; [reflexivity|]. split; [reflexivity|]. split; [now rewrite He|].
    split.
    { intros r r' id' b' e' G' E. subst e'.
      destruct (GetBookingByID_error _ _ G') as [E|(m & E)]; [discriminate|].
      injection E as E _. simpl in E. discriminate. }
    rewrite (SetBookingStatus_failed _ _ _ W), T1.
    split; [reflexivity|]. split.
    + unfold Repository.statusOf.
      rewrite (SetBookingStatus_failed _ _ _ W), T1, Hrow, Hb. reflexivity.
    + unfold dispatched. rewrite !filter_app. simpl. now rewrite !app_nil_r.
Qed.

(** C7.  A [ModifyBooking] that returns nil has rewritten, in the rows
    with the identifier of the request, the game, the points, the
    description, the reminder flag, the date-time and the players with
    the caller's values and nothing else: the id, user ID, username and
    status columns of the table are what they were. *)
Theorem modify_frame (s : Service.t Repository.t C) (updated : Booking.t) (user : DiscordUser.t) :
  let out := Service.ModifyBooking formatDateTime updated user s in
  let before := Repository.table (Service.repo s) in
  let after := Repository.table (Service.repo (snd out)) in
  fst out = None ->
  after =
  map (fun row =>
         if Repository.hasID (Booking.ID updated) row
         then Row.mk (Row.id row) (Booking.Game updated) (Row.userId row)
                     (Row.username row) (Booking.Points updated)
                     (Booking.Description updated) (Row.status row)
                     (Some (Booking.ReminderEnabled updated))
                     (Booking.DateTime updated) (Booking.Players updated)
         else row) before /\
  map Row.id after = map Row.id before /\
  map Row.userId after = map Row.userId before /\
  map Row.username after = map Row.username before /\
  map Row.status after = map Row.status before.
Proof.
  intros out before after Hok.
  assert (Hafter :
    after =
    map (fun row =>
           if Repository.hasID (Booking.ID updated) row
           then Row.mk (Row.id row) (Booking.Game updated) (Row.userId row)
                       (Row.username row) (Booking.Points updated)
                       (Booking.Description updated) (Row.status row)
                       (Some (Booking.ReminderEnabled updated))
                       (Booking.DateTime updated) (Booking.Players updated)
           else row) before).
  { subst after before.
    pose proof (ModifyBooking_paths formatDateTime updated user s) as P.
    unfold rewritten, looked, Service.record in P. on_postgres P.
    destruct (Repository.GetBookingByID (Service.repo s) (Booking.ID updated))
      as [[booking err] r1] eqn:G.
    cbn [fst snd Service.repo Service.client Service.channelID Service.log] in P.
    fold out in P.
    destruct err as [e|]; [rewrite P in Hok; discriminate|].
    destruct (lookup_facts _ _ G) as (row & _ & Hb & Hid & T1 & _).
    destruct (String.eqb (Booking.Status booking) "pending");
      [|rewrite P in Hok; discriminate].
    destruct (checkUserAllowed booking user); [|rewrite P in Hok; discriminate].
    destruct (fst (Repository.UpdateBooking r1 (merged booking updated))) eqn:W;
      [rewrite P in Hok; discriminate|].
    rewrite P. cbn [snd]. rewrite notified_repo. cbn [Service.repo].
    rewrite (UpdateBooking_done _ _ W), T1.
    assert (Hsame : Booking.ID (merged booking updated) = Booking.ID updated).
    { rewrite Hb. simpl. exact Hid. }
    rewrite Hsame. reflexivity. }
  split; [exact Hafter|].
  rewrite Hafter, !map_map.
  repeat split; apply map_ext; intros row;
    destruct (Repository.hasID (Booking.ID updated) row); reflexivity.
Qed.

(** [CreateBooking] on the PostgreSQL repository: when it returns nil,
    the returned booking is the draft with the new identifier, and the
    row appended to the table carries the status ["pending"]. *)
Lemma CreateBooking_done (s : Service.t Repository.t C) (draft : Booking.t) :
  let out := Service.CreateBooking formatDateTime draft s in
  let id := Repository.newID (Service.repo s) (Repository.table (Service.repo s)) in
  snd (fst out) = None ->
  fst (fst out) = Booking.set_ID id draft /\
  Repository.table (Service.repo (snd out)) =
  (Repository.table (Service.repo s) ++ [Repository.inserted id draft])%list.
Proof.
  intros out id.
  pose proof (CreateBooking_paths formatDateTime draft s) as P.
  cbv zeta in P. unfold Service.record in P. on_postgres P. fold out in P.
  rewrite P. cbn [fst snd].
  unfold Repository.InsertBooking.
  pose proof (roundTrip_table (Service.repo s)) as T.
  assert (N : forall r, Repository.newID (snd (Repository.roundTrip r)) =
                        Repository.newID r)
    by (intros r; unfold Repository.roundTrip; destruct (Repository.faults r);
        reflexivity).
  specialize (N (Service.repo s)).
  destruct (Repository.roundTrip (Service.repo s)) as [fault r1].
  simpl in T, N.
  destruct fault as [e|]; cbn [fst snd]; [discriminate|].
  intros _. rewrite notified_repo. cbn [Service.repo Repository.table].
  subst id. rewrite T, N. split; reflexivity.
Qed.

End Lifecycle.

(** ** The lifecycle on any repository and any chat client *)

Lemma Resolved_functional {C : Type} {HC : DiscordClient C} (c : C)
      (players tags : list string) (c' : C) :
  Resolved c players tags c' ->
  forall (tags' : list string) (c'' : C),
    Resolved c players tags' c'' -> tags' = tags /\ c'' = c'.
Proof.
  induction 1 as [c|c c1 c2 player rest tags first others E _ IH
                   |c c1 c2 player rest tags members err E Hmiss _ IH];
    intros tags' c'' H'; inversion H'; subst.
  - auto.
  - match goal with
    | E' : SearchMembers c player 1 = _ |- _ => rewrite E in E'; injection E' as ? ? ?
    end.
    subst. match goal with
           | R' : Resolved _ rest _ c'' |- _ => destruct (IH _ _ R') as [-> ->]
           end. auto.
  - match goal with
    | E' : SearchMembers c player 1 = _ |- _ => rewrite E in E'; injection E' as ? ? ?
    end.
    subst. match goal with
           | M : _ \/ _ |- _ => destruct M; congruence
           end.
  - match goal with
    | E' : SearchMembers c player 1 = _ |- _ => rewrite E in E'; injection E' as ? ? ?
    end.
    subst. destruct Hmiss; congruence.
  - match goal with
    | E' : SearchMembers c player 1 = _ |- _ => rewrite E in E'; injection E' as ? ? ?
    end.
    subst. match goal with
           | R' : Resolved _ rest _ c'' |- _ => destruct (IH _ _ R') as [-> ->]
           end. auto.
Qed.

Section AnyCollaborators.
Context {R C : Type} {HR : BookingRepository R} {HC : DiscordClient C}.
Variable formatDateTime : Time -> string.

Lemma notified_counts (booking : Booking.t) (message reason : string) (s : Service.t R C) :
  let s' := notified formatDateTime booking message reason s in
  dispatched (Service.log s') = S (dispatched (Service.log s)) /\
  writes (Service.log s') = writes (Service.log s) /\
  committed (Service.log s') = committed (Service.log s).
Proof.
  destruct (notified_frame formatDateTime booking message reason s)
    as (l & m & (_ & _ & Hl) & Hs).
  destruct (announcement_counts l (Service.channelID s) m Hs) as (D & W & K).
  cbv zeta. rewrite Hl, dispatched_app, writes_app, committed_app, D, W, K. lia.
Qed.

(** The loop over the players computes the tags of the
    specification, appended to the accumulator. *)
Lemma resolvePlayers_resolved (players : list string) :
  forall (acc : list string) (s : Service.t R C),
  exists tags,
    fst (Service.resolvePlayers players acc s) = (acc ++ tags)%list /\
    Resolved (Service.client s) players tags
             (Service.client (snd (Service.resolvePlayers players acc s))).
Proof.
  induction players as [|player rest IH]; intros acc s.
  - exists []. simpl. rewrite app_nil_r. split; [reflexivity|constructor].
  - simpl. unfold Service.bind, Service.client_SearchMembers.
    destruct (SearchMembers (Service.client s) player 1) as [[members err] d] eqn:E.
    set (s1 := Service.record (CallSearchMembers player 1) (Service.repo s) d s).
    assert (Hmiss : err <> None \/ members = [] ->
                    exists tags,
                      fst (Service.resolvePlayers rest acc s1) = (acc ++ tags)%list /\
                      Resolved (Service.client s) (player :: rest) tags
                               (Service.client (snd (Service.resolvePlayers rest acc s1)))).
    { intros M. destruct (IH acc s1) as (tags & Ht & Hr).
      exists tags. split; [exact Ht|].
      eapply Resolved_omitted; [exact E|exact M|exact Hr]. }
    destruct members as [|m0 ms], err as [e|].
    + apply Hmiss. left. discriminate.
    + apply Hmiss. now right.
    + apply Hmiss. left. discriminate.
    + destruct (IH (acc ++ [Sprintf_tag (User.ID (Member.User m0))])%list s1)
        as (tags & Ht & Hr).
      exists (Sprintf_tag (User.ID (Member.User m0)) :: tags). split.
      * rewrite Ht, <- app_assoc. reflexivity.
      * eapply Resolved_tagged; [exact E|exact Hr].
Qed.

(** The one message of [sendNotification]: the embed composed from the
    resolved tags. *)
Lemma sendNotification_sends (booking : Booking.t) (options : NotificationOptions.t)
      (s : Service.t R C) :
  exists (tags : list string) (c' : C),
    Resolved (Service.client s) (Booking.Players booking) tags c' /\
    sentMessages (Service.log (snd (Service.sendNotification formatDateTime booking
                                      options s))) =
    (sentMessages (Service.log s) ++
     [Message.mk "" [Service.composeEmbed formatDateTime (Service.channelID s)
                       booking options tags]])%list.
Proof.
  unfold Service.sendNotification, Service.bind, Service.client_SendMessage,
    Service.ret.
  destruct (resolvePlayers_resolved (Booking.Players booking) [] s) as (tags & Ht & Hr).
  destruct (resolvePlayers_frame (Booking.Players booking) [] s)
    as (l & (_ & Hc & Hl) & Hs).
  destruct (Service.resolvePlayers (Booking.Players booking) [] s) as [tags' s1].
  simpl in Ht, Hr, Hc, Hl. subst tags'.
  destruct (SendMessage (Service.client s1) (Service.channelID s1) _) as [err d].
  exists tags, (Service.client s1). split; [exact Hr|].
  simpl. rewrite Hl, Hc, !sentMessages_app, (searches_not_sent _ Hs), app_nil_r.
  reflexivity.
Qed.

Lemma fieldValue_composed (channel : string) (booking : Booking.t)
      (options : NotificationOptions.t) (tags : list string) :
  let embed := Service.composeEmbed formatDateTime channel booking options tags in
  fieldValue "Utilisateur" embed = Some (Service.userTagOf booking) /\
  fieldValue "Joueurs" embed = Some (Join tags ", ") /\
  fieldValue "Description" embed = Some (Service.descriptionOf booking).
Proof.
  unfold Service.composeEmbed, fieldValue.
  destruct (nonEmpty (NotificationOptions.reason options)); simpl; auto.
Qed.

(** C5.  On a booking that the look-up finds with a status other than
    ["pending"], [ModifyBooking] returns [ErrInvalidBookingState]
    whoever the caller is, and the look-up is the only call it issues:
    neither the caller nor the repository is consulted further. *)
Theorem modify_requires_pending (s : Service.t R C) (updated : Booking.t)
        (user : DiscordUser.t) (booking : Booking.t) (r1 : R) :
  GetBookingByID (Service.repo s) (Booking.ID updated) = ((booking, None), r1) ->
  Booking.Status booking <> "pending" ->
  let out := Service.ModifyBooking formatDateTime updated user s in
  fst out = Some ErrInvalidBookingState /\
  Service.repo (snd out) = r1 /\
  Service.log (snd out) =
  (Service.log s ++ [CallGetBookingByID (Booking.ID updated)])%list /\
  writes (Service.log (snd out)) = writes (Service.log s).
Proof.
  intros G Hst out.
  pose proof (ModifyBooking_paths formatDateTime updated user s) as P.
  unfold looked in P. rewrite G in P. cbn [fst snd] in P. fold out in P.
  apply String.eqb_neq in Hst. rewrite Hst in P. rewrite P. simpl.
  repeat split. unfold writes. rewrite filter_app. simpl. now rewrite app_nil_r.
Qed.

(** C9.  The announcement that [sendNotification] hands to the chat
    client carries in its field "Joueurs" the tags of the players joined
    with [", "], where a name contributes the tag [<@id>] of its first
    match exactly when its search returns no error and at least one
    member, and nothing otherwise; whatever the searches return, the
    message is handed over and [sendNotification] returns nil. *)
Theorem players_tagged_or_omitted (booking : Booking.t)
        (options : NotificationOptions.t) (s : Service.t R C) :
  let out := Service.sendNotification formatDateTime booking options s in
  exists (tags : list string) (c' : C) (embed : Embed.t),
    Resolved (Service.client s) (Booking.Players booking) tags c' /\
    (forall tags' c'',
        Resolved (Service.client s) (Booking.Players booking) tags' c'' ->
        tags' = tags) /\
    sentMessages (Service.log (snd out)) =
    (sentMessages (Service.log s) ++ [Message.mk "" [embed]])%list /\
    fieldValue "Joueurs" embed = Some (Join tags ", ") /\
    fst out = None.
Proof.
  intros out.
  destruct (sendNotification_sends booking options s) as (tags & c' & Hr & Hm).
  exists tags, c',
    (Service.composeEmbed formatDateTime (Service.channelID s) booking options tags).
  split; [exact Hr|]. split.
  { intros tags' c'' H'. now destruct (Resolved_functional Hr H'). }
  split; [exact Hm|]. split.
  - apply fieldValue_composed.
  - apply sendNotification_frame.
Qed.

(** C10.  The announcement that [sendNotification] hands to the chat
    client has a non-empty field "Utilisateur": the tag of the owner's
    user ID when that is not empty, of the owner's username otherwise;
    and its field "Description" is the booking's description, or
    "Aucune" when that is empty. *)
Theorem requester_and_description_rendered (booking : Booking.t)
        (options : NotificationOptions.t) (s : Service.t R C) :
  let out := Service.sendNotification formatDateTime booking options s in
  exists (embed : Embed.t) (userTag : string),
    sentMessages (Service.log (snd out)) =
    (sentMessages (Service.log s) ++ [Message.mk "" [embed]])%list /\
    fieldValue "Utilisateur" embed = Some userTag /\
    userTag <> "" /\
    userTag = match Booking.UserID booking with
              | "" => "<@" ++ Booking.Username booking ++ ">"
              | _ => "<@" ++ Booking.UserID booking ++ ">"
              end /\
    fieldValue "Description" embed =
    Some match Booking.Description booking with
         | "" => "Aucune"
         | _ => Booking.Description booking
         end.
Proof.
  intros out.
  destruct (sendNotification_sends booking options s) as (tags & c' & _ & Hm).
  destruct (fieldValue_composed (Service.channelID s) booking options tags)
    as (Hu & _ & Hd).
  eexists. exists (Service.userTagOf booking).
  split; [exact Hm|]. split; [exact Hu|].
  unfold Service.userTagOf, Service.descriptionOf, Sprintf_tag in *.
  split; [|split].
  - destruct (nonEmpty (Booking.UserID booking)); discriminate.
  - destruct (Booking.UserID booking); reflexivity.
  - rewrite Hd. destruct (Booking.Description booking); reflexivity.
Qed.

End AnyCollaborators.

(** ** The chat client cannot be observed *)

Section TwoClients.
Context {R C1 C2 : Type} {HR : BookingRepository R}.
Context {H1 : DiscordClient C1} {H2 : DiscordClient C2}.
Variable formatDateTime : Time -> string.

Ltac relog :=
  unfold marked, rewritten, looked, Service.record, Service.NewService;
  cbn [fst snd Service.repo Service.client Service.channelID Service.log app].

Ltac count :=
  unfold dispatched, committed; cbn [filter isSend isCommit isNil length];
  auto.

Ltac settle P1 P2 :=
  rewrite P1, P2; cbn [fst snd];
  rewrite ?notified_repo;
  repeat match goal with
         | |- context [Service.log (notified ?f ?b ?m ?r ?s)] =>
             let D := fresh "D" in
             let K := fresh "K" in
             destruct (notified_counts f b m r s) as (D & _ & K);
             cbv zeta in D, K; rewrite D, K; clear D K
         end;
  relog; repeat split; count.

(** C8.  Run on the same repository with two chat clients, of any
    behaviour, a lifecycle request returns the same booking and error
    and leaves the repository in the same state; and the number of
    announcements handed to the chat client is the number of writes
    that the repository reported as done, which is zero or one. *)
Theorem chat_client_unobservable (req : Request) (r : R) (c1 : C1) (c2 : C2)
        (channel : string) :
  let out1 := perform formatDateTime req (Service.NewService r c1 channel) in
  let out2 := perform formatDateTime req (Service.NewService r c2 channel) in
  fst out1 = fst out2 /\
  Service.repo (snd out1) = Service.repo (snd out2) /\
  dispatched (Service.log (snd out1)) = committed (Service.log (snd out1)) /\
  (committed (Service.log (snd out1)) <= 1)%nat.
Proof.
  destruct req as [draft|updated user|id|id reason|id user]; cbv zeta; unfold perform.
  - pose proof (CreateBooking_paths formatDateTime draft
                  (Service.NewService r c1 channel)) as P1.
    pose proof (CreateBooking_paths formatDateTime draft
                  (Service.NewService r c2 channel)) as P2.
    cbv zeta in P1, P2. relog. revert P1 P2. relog.
    destruct (InsertBooking r draft) as [[booking err] r1].
    cbn [fst snd]. destruct err as [e|]; intros P1 P2; settle P1 P2.
  - pose proof (ModifyBooking_paths formatDateTime updated user
                  (Service.NewService r c1 channel)) as P1.
    pose proof (ModifyBooking_paths formatDateTime updated user
                  (Service.NewService r c2 channel)) as P2.
    cbv zeta in P1, P2. revert P1 P2. relog.
    destruct (GetBookingByID r (Booking.ID updated)) as [[booking err] r1].
    cbn [fst snd]. destruct err as [e|]; [intros P1 P2; settle P1 P2|].
    destruct (String.eqb (Booking.Status booking) "pending");
      [|intros P1 P2; settle P1 P2].
    destruct (checkUserAllowed booking user); [|intros P1 P2; settle P1 P2].
    destruct (UpdateBooking r1 (merged booking updated)) as [err r2].
    cbn [fst snd]. destruct err as [e|]; intros P1 P2; settle P1 P2.
  - pose proof (AcceptBooking_paths formatDateTime id
                  (Service.NewService r c1 channel)) as P1.
    pose proof (AcceptBooking_paths formatDateTime id
                  (Service.NewService r c2 channel)) as P2.
    cbv zeta in P1, P2. revert P1 P2. relog.
    destruct (GetBookingByID r id) as [[booking err] r1].
    cbn [fst snd]. destruct err as [e|]; [intros P1 P2; settle P1 P2|].
    destruct (_ || _); [intros P1 P2; settle P1 P2|].
    destruct (SetBookingStatus r1 id "accepted") as [err r2].
    cbn [fst snd]. destruct err as [e|]; intros P1 P2; settle P1 P2.
  - pose proof (RefuseBooking_paths formatDateTime id reason
                  (Service.NewService r c1 channel)) as P1.
    pose proof (RefuseBooking_paths formatDateTime id reason
                  (Service.NewService r c2 channel)) as P2.
    cbv zeta in P1, P2. revert P1 P2. relog.
    destruct (GetBookingByID r id) as [[booking err] r1].
    cbn [fst snd]. destruct err as [e|]; [intros P1 P2; settle P1 P2|].
    destruct (_ || _); [intros P1 P2; settle P1 P2|].
    destruct (SetBookingStatus r1 id "refused") as [err r2].
    cbn [fst snd]. destruct err as [e|]; intros P1 P2; settle P1 P2.
  - pose proof (CancelBooking_paths formatDateTime id user
                  (Service.NewService r c1 channel)) as P1.
    pose proof (CancelBooking_paths formatDateTime id user
                  (Service.NewService r c2 channel)) as P2.
    cbv zeta in P1, P2. revert P1 P2. relog.
    destruct (GetBookingByID r id) as [[booking err] r1].
    cbn [fst snd]. destruct err as [e|]; [intros P1 P2; settle P1 P2|].
    destruct (_ || _); [intros P1 P2; settle P1 P2|].
    destruct (checkUserAllowed booking user); [|intros P1 P2; settle P1 P2].
    destruct (SetBookingStatus r1 id "canceled") as [err r2].
    cbn [fst snd]. destruct err as [e|]; intros P1 P2; settle P1 P2.
Qed.

End TwoClients.

(** ** The properties on the fixtures *)

(** C1.  [CreateBooking] of a draft that carries the status ["accepted"],
    on a database that executes the insertion: the row stored under the
    new identifier has the status ["pending"], whereas the booking
    returned to the caller, without error, still has the status
    ["accepted"] of the draft. *)
Lemma create_returns_draft_status :
  let s := Fixture.service "pending" [] in
  let out := Service.CreateBooking Fixture.format (Fixture.draft "accepted") s in
  snd (fst out) = None /\
  Booking.ID (fst (fst out)) = "124" /\
  Repository.statusOf (Service.repo (snd out)) "124" = Some "pending" /\
  Booking.Status (fst (fst out)) = "accepted" /\
  Booking.Status (fst (fst out)) <> "pending".
Proof.
  vm_compute. repeat split. discriminate.
Qed.

(** C2, as stated, fails for [AcceptBooking] on a booking whose status is
    ["refused"]: it returns nil, not [ErrInvalidBookingState], issues a
    status update, and the stored status becomes ["accepted"]. *)
Lemma refused_booking_accepted :
  let s := Fixture.service "refused" [] in
  let out := perform Fixture.format (Accept "123") s in
  Repository.statusOf (Service.repo s) "123" = Some "refused" /\
  snd (fst out) = None /\
  Repository.statusOf (Service.repo (snd out)) "123" = Some "accepted" /\
  writes (Service.log (snd out)) = 1%nat /\
  ~ (snd (fst out) = Some ErrInvalidBookingState /\
     Repository.table (Service.repo (snd out)) = Repository.table (Service.repo s)).
Proof.
  vm_compute. repeat split. intros [E _]. discriminate.
Qed.

Lemma terminal_statuses_witness :
  let s := Fixture.service "refused" [] in
  let out := perform Fixture.format (Cancel "123" Fixture.user1) s in
  Repository.GetBookingByID (Service.repo s) "123" =
  ((Repository.scan (Fixture.row "refused"), None), Service.repo s) /\
  snd (fst out) = Some ErrInvalidBookingState /\
  Repository.table (Service.repo (snd out)) = Repository.table (Service.repo s) /\
  Service.log (snd out) = [CallGetBookingByID "123"].
Proof.
  split; [reflexivity|].
  apply (@terminal_statuses _ _ Fixture.format (Fixture.service "refused" [])
           (Cancel "123" Fixture.user1) "123"
           (Repository.scan (Fixture.row "refused"))
           (Service.repo (Fixture.service "refused" []))).
  - reflexivity.
  - reflexivity.
  - right. split; reflexivity.
Defined.

Lemma owner_or_player_only_witness :
  let s := Fixture.service "pending" [] in
  let out := Service.CancelBooking Fixture.format "123" Fixture.someone s in
  Repository.GetBookingByID (Service.repo s) "123" =
  ((Repository.scan (Fixture.row "pending"), None), Service.repo s) /\
  fst out = Some ErrNotAllowed /\
  Repository.table (Service.repo (snd out)) = Repository.table (Service.repo s) /\
  Service.log (snd out) = [CallGetBookingByID "123"].
Proof.
  split; [reflexivity|].
  destruct (@owner_or_player_only _ _ Fixture.format (Fixture.service "pending" [])
              "123" (Repository.scan (Fixture.row "pending"))
              (Service.repo (Fixture.service "pending" [])) Fixture.someone eq_refl)
    as (_ & _ & H).
  assert (Hc : Booking.Status (Repository.scan (Fixture.row "pending")) <> "canceled")
    by (simpl; discriminate).
  assert (Hr : Booking.Status (Repository.scan (Fixture.row "pending")) <> "refused")
    by (simpl; discriminate).
  destruct (H Hc Hr) as [Hiff Hframe].
  assert (Hn : ~ (Booking.UserID (Repository.scan (Fixture.row "pending")) =
                  DiscordUser.ID Fixture.someone \/
                  In (DiscordUser.Username Fixture.someone)
                     (Booking.Players (Repository.scan (Fixture.row "pending"))))).
  { simpl. intros [E|[E|[E|[]]]]; discriminate. }
  split; [apply Hiff; exact Hn|apply Hframe; exact Hn].
Defined.

Lemma accept_state_check_witness :
  let s := Fixture.service "pending" [] in
  let out := Service.AcceptBooking Fixture.format "123" s in
  Repository.GetBookingByID (Service.repo s) "123" =
  ((Repository.scan (Fixture.row "pending"), None), Service.repo s) /\
  fst out = None /\
  Repository.statusOf (Service.repo (snd out)) "123" = Some "accepted".
Proof.
  split; [reflexivity|].
  destruct (@accept_state_check _ _ Fixture.format (Fixture.service "pending" [])
              "123" (Repository.scan (Fixture.row "pending"))
              (Service.repo (Fixture.service "pending" [])) eq_refl)
    as (_ & H).
  assert (Ha : Booking.Status (Repository.scan (Fixture.row "pending")) <> "accepted")
    by (simpl; discriminate).
  assert (Hc : Booking.Status (Repository.scan (Fixture.row "pending")) <> "canceled")
    by (simpl; discriminate).
  destruct (H Ha Hc eq_refl) as (Hok & Hst & _).
  split; assumption.
Defined.

Lemma modify_requires_pending_witness :
  let s := Fixture.service "approved" [] in
  let out := Service.ModifyBooking Fixture.format Fixture.changes Fixture.someone s in
  Booking.Status (Repository.scan (Fixture.row "approved")) <> "pending" /\
  fst out = Some ErrInvalidBookingState /\
  Service.log (snd out) = [CallGetBookingByID "123"].
Proof.
  assert (Hst : Booking.Status (Repository.scan (Fixture.row "approved")) <> "pending")
    by (simpl; discriminate).
  split; [exact Hst|].
  destruct (@modify_requires_pending Repository.t Directory.t
              Repository_BookingRepository Directory_DiscordClient Fixture.format
              (Fixture.service "approved" []) Fixture.changes Fixture.someone
              (Repository.scan (Fixture.row "approved"))
              (Service.repo (Fixture.service "approved" [])) eq_refl Hst)
    as (Hres & _ & Hlog & _).
  split; assumption.
Defined.

Lemma cancel_state_then_caller_witness :
  let s := Fixture.service "pending" [None; Some "connection reset"] in
  let out := Service.CancelBooking Fixture.format "123" Fixture.player2 s in
  fst (Repository.GetBookingByID (Service.repo s) "123") =
  (Repository.scan (Fixture.row "pending"), None) /\
  fst out =
  Some (Errorf "failed to cancel booking"
          (Errorf "failed to update booking '123' status"
                  (ErrForeign "connection reset"))) /\
  Repository.statusOf (Service.repo (snd out)) "123" = Some "pending".
Proof.
  split; [reflexivity|].
  destruct (@cancel_state_then_caller _ _ Fixture.format
              (Fixture.service "pending" [None; Some "connection reset"])
              "123" (Repository.scan (Fixture.row "pending"))
              (Repository.mk [Fixture.row "pending"] (fun _ => "124")
                             [Some "connection reset"])
              Fixture.player2 eq_refl)
    as (_ & H).
  assert (Hc : Booking.Status (Repository.scan (Fixture.row "pending")) <> "canceled")
    by (simpl; discriminate).
  assert (Hr : Booking.Status (Repository.scan (Fixture.row "pending")) <> "refused")
    by (simpl; discriminate).
  destruct (H (Errorf "failed to update booking '123' status"
                      (ErrForeign "connection reset")) Hc Hr eq_refl eq_refl)
    as (Hres & _ & _ & _ & _ & Hst & _).
  split; assumption.
Defined.

Lemma modify_frame_witness :
  let s := Fixture.service "pending" [] in
  let out := Service.ModifyBooking Fixture.format Fixture.changes Fixture.user1 s in
  fst out = None /\
  Repository.table (Service.repo (snd out)) =
  [Row.mk "123" "modified" (Some "user1ID") (Some "user1") 20 "" "pending"
          (Some false) 7 ["user1"; "unknown"]] /\
  map Row.status (Repository.table (Service.repo (snd out))) = ["pending"].
Proof.
  assert (Hok : fst (Service.ModifyBooking Fixture.format Fixture.changes Fixture.user1
                       (Fixture.service "pending" [])) = None) by reflexivity.
  split; [exact Hok|].
  destruct (@modify_frame _ _ Fixture.format (Fixture.service "pending" [])
              Fixture.changes Fixture.user1 Hok)
    as (Htable & _ & _ & _ & Hstatus).
  split; [exact Htable|exact Hstatus].
Defined.

(** * Further properties of the engine and of the repository *)

(** ** The repository, statement by statement *)

Lemma affected_found (id : string) (rows : list Row.t) :
  Nat.eqb (Repository.RowsAffected id rows) 0 = false ->
  exists row, find (Repository.hasID id) rows = Some row.
Proof.
  unfold Repository.RowsAffected.
  induction rows as [|x rows IH]; simpl; [discriminate|].
  destruct (Repository.hasID id x); simpl; [intros _; now exists x|exact IH].
Qed.

(** A status update that returns nil has found the row and rewritten the
    status column of the rows with that identifier. *)
Lemma SetBookingStatus_nil (r : Repository.t) (id status : string) :
  fst (Repository.SetBookingStatus r id status) = None ->
  Repository.table (snd (Repository.SetBookingStatus r id status)) =
  map (fun row => if Repository.hasID id row
                  then Repository.withStatus status row else row)
      (Repository.table r) /\
  exists row, find (Repository.hasID id) (Repository.table r) = Some row.
Proof.
  unfold Repository.SetBookingStatus.
  pose proof (roundTrip_table r) as T.
  destruct (Repository.roundTrip r) as [fault r1]. simpl in T.
  destruct fault as [e|]; simpl; [discriminate|].
  destruct (Nat.eqb _ 0) eqn:E; simpl; [discriminate|].
  intros _. rewrite T in *. split; [reflexivity|]. now apply affected_found.
Qed.

(** An insertion that returns an error leaves the table as it was. *)
Lemma InsertBooking_failed (r : Repository.t) (draft : Booking.t) (e : error) :
  snd (fst (Repository.InsertBooking r draft)) = Some e ->
  Repository.table (snd (Repository.InsertBooking r draft)) = Repository.table r.
Proof.
  unfold Repository.InsertBooking.
  pose proof (roundTrip_table r) as T.
  destruct (Repository.roundTrip r) as [fault r1]. simpl in T.
  destruct fault as [e'|]; simpl; [intros _; exact T|discriminate].
Qed.

Lemma dispatched_one (log : list Call) (c1 : Call) :
  isSend c1 = false -> dispatched (log ++ [c1]) = dispatched log.
Proof.
  intros E1. unfold dispatched. rewrite !filter_app. simpl.
  rewrite E1, !app_nil_r. auto.
Qed.

Lemma dispatched_two (log : list Call) (c1 c2 : Call) :
  isSend c1 = false -> isSend c2 = false ->
  dispatched ((log ++ [c1]) ++ [c2]) = dispatched log.
Proof.
  intros E1 E2. now rewrite !dispatched_one.
Qed.

Section Outcomes.
Context {C : Type} {HC : DiscordClient C}.
Variable formatDateTime : Time -> string.

Ltac unfold_path P :=
  cbv zeta in P; unfold marked, rewritten, looked, Service.record in P;
  on_postgres P.

Ltac project P :=
  cbn [fst snd Service.repo Service.client Service.channelID Service.log] in P.

(** A request that returns an error leaves the table as it was and
    announces nothing. *)
Lemma failed_request (s : Service.t Repository.t C) (req : Request) :
  let out := perform formatDateTime req s in
  snd (fst out) <> None ->
  Repository.table (Service.repo (snd out)) = Repository.table (Service.repo s) /\
  dispatched (Service.log (snd out)) = dispatched (Service.log s).
Proof.
  destruct req as [draft|updated user|id|id reason|id user]; cbv zeta; unfold perform.
  - pose proof (CreateBooking_paths formatDateTime draft s) as P. unfold_path P.
    rewrite P. cbn [fst snd].
    destruct (snd (fst (Repository.InsertBooking (Service.repo s) draft)))
      as [e|] eqn:E; [|congruence].
    intros _. cbn [Service.repo Service.log].
    rewrite (InsertBooking_failed _ _ E). split; [reflexivity|].
    now apply dispatched_one.
  - pose proof (ModifyBooking_paths formatDateTime updated user s) as P. unfold_path P.
    pose proof (GetBookingByID_table (Service.repo s) (Booking.ID updated)) as T.
    destruct (Repository.GetBookingByID (Service.repo s) (Booking.ID updated))
      as [[booking err] r1]. project P. simpl in T.
    rewrite P.
    destruct err as [e|];
      [|destruct (String.eqb (Booking.Status booking) "pending");
        [destruct (checkUserAllowed booking user)|]];
      try (intros _; cbn [fst snd Service.repo Service.log]; split; [exact T|];
           now apply dispatched_one).
    destruct (fst (Repository.UpdateBooking r1 _)) as [e|] eqn:W;
      [|intros H; now elim H].
    intros _. cbn [fst snd Service.repo Service.log].
    rewrite (UpdateBooking_failed _ _ W). split; [exact T|].
    now apply dispatched_two.
  - pose proof (AcceptBooking_paths formatDateTime id s) as P. unfold_path P.
    pose proof (GetBookingByID_table (Service.repo s) id) as T.
    destruct (Repository.GetBookingByID (Service.repo s) id) as [[booking err] r1].
    project P. simpl in T. rewrite P.
    destruct err as [e|]; [|destruct (_ || _)];
      try (intros _; cbn [fst snd Service.repo Service.log]; split; [exact T|];
           now apply dispatched_one).
    destruct (fst (Repository.SetBookingStatus r1 id "accepted")) as [e|] eqn:W;
      [|intros H; now elim H].
    intros _. cbn [fst snd Service.repo Service.log].
    rewrite (SetBookingStatus_failed _ _ _ W). split; [exact T|].
    now apply dispatched_two.
  - pose proof (RefuseBooking_paths formatDateTime id reason s) as P. unfold_path P.
    pose proof (GetBookingByID_table (Service.repo s) id) as T.
    destruct (Repository.GetBookingByID (Service.repo s) id) as [[booking err] r1].
    project P. simpl in T. rewrite P.
    destruct err as [e|]; [|destruct (_ || _)];
      try (intros _; cbn [fst snd Service.repo Service.log]; split; [exact T|];
           now apply dispatched_one).
    destruct (fst (Repository.SetBookingStatus r1 id "refused")) as [e|] eqn:W;
      [|intros H; now elim H].
    intros _. cbn [fst snd Service.repo Service.log].
    rewrite (SetBookingStatus_failed _ _ _ W). split; [exact T|].
    now apply dispatched_two.
  - pose proof (CancelBooking_paths formatDateTime id user s) as P. unfold_path P.
    pose proof (GetBookingByID_table (Service.repo s) id) as T.
    destruct (Repository.GetBookingByID (Service.repo s) id) as [[booking err] r1].
    project P. simpl in T. rewrite P.
    destruct err as [e|];
      [|destruct (_ || _); [|destruct (checkUserAllowed booking user)]];
      try (intros _; cbn [fst snd Service.repo Service.log]; split; [exact T|];
           now apply dispatched_one).
    destruct (fst (Repository.SetBookingStatus r1 id "canceled")) as [e|] eqn:W;
      [|intros H; now elim H].
    intros _. cbn [fst snd Service.repo Service.log].
    rewrite (SetBookingStatus_failed _ _ _ W). split; [exact T|].
    now apply dispatched_two.
Qed.

(** A request whose look-up finds a booking in a status that its state
    check rejects: [ErrInvalidBookingState], and nothing but the look-up. *)
Lemma rejected_request (s : Service.t Repository.t C) (req : Request) (id : string)
      (booking : Booking.t) (r1 : Repository.t) :
  Repository.GetBookingByID (Service.repo s) id = ((booking, None), r1) ->
  target req = Some id ->
  rejectedIn req (Booking.Status booking) = true ->
  perform formatDateTime req s =
  ((None, Some ErrInvalidBookingState),
   Service.mk r1 (Service.client s) (Service.channelID s)
              (Service.log s ++ [CallGetBookingByID id])%list).
Proof.
  intros G Ht Hrej.
  destruct req as [draft|updated user|id'|id' reason|id' user];
    simpl in Ht; try discriminate; injection Ht as Ht; subst id;
    unfold perform; simpl in Hrej.
  - pose proof (ModifyBooking_paths formatDateTime updated user s) as P. unfold_path P.
    rewrite G in P. project P. apply negb_true_iff in Hrej. rewrite Hrej in P.
    now rewrite P.
  - pose proof (AcceptBooking_paths formatDateTime id' s) as P. unfold_path P.
    rewrite G in P. project P. rewrite Hrej in P. now rewrite P.
  - pose proof (RefuseBooking_paths formatDateTime id' reason s) as P. unfold_path P.
    rewrite G in P. project P. rewrite Hrej in P. now rewrite P.
  - pose proof (CancelBooking_paths formatDateTime id' user s) as P. unfold_path P.
    rewrite G in P. project P. rewrite Hrej in P. now rewrite P.
Qed.

(** An accept, refuse or cancel that returns nil: the look-up had found
    the booking, the status column of its rows is rewritten, and one
    announcement is handed to the chat client. *)
Lemma status_request_nil (s : Service.t Repository.t C) (req : Request)
      (id status : string) :
  target req = Some id ->
  newStatus req = Some status ->
  snd (fst (perform formatDateTime req s)) = None ->
  exists row,
    find (Repository.hasID id) (Repository.table (Service.repo s)) = Some row /\
    fst (Repository.GetBookingByID (Service.repo s) id) = (Repository.scan row, None) /\
    Repository.table (Service.repo (snd (perform formatDateTime req s))) =
    map (fun row => if Repository.hasID id row
                    then Repository.withStatus status row else row)
        (Repository.table (Service.repo s)) /\
    dispatched (Service.log (snd (perform formatDateTime req s))) =
    S (dispatched (Service.log s)).
Proof.
  intros Ht Hn.
  destruct req as [draft|updated user|id'|id' reason|id' user];
    simpl in Ht, Hn; try discriminate;
    injection Ht as Ht; injection Hn as Hn; subst id status; unfold perform.
  - pose proof (AcceptBooking_paths formatDateTime id' s) as P. unfold_path P.
    destruct (Repository.GetBookingByID (Service.repo s) id') as [[booking err] r1] eqn:G.
    project P. rewrite P.
    destruct err as [e|]; [discriminate|]. destruct (_ || _); [discriminate|].
    destruct (fst (Repository.SetBookingStatus r1 id' "accepted")) eqn:W;
      [discriminate|].
    intros _. destruct (lookup_facts _ _ G) as (row & Hrow & Hb & _ & T1 & _).
    destruct (SetBookingStatus_nil _ _ _ W) as [Tb _].
    exists row. cbn [fst snd]. rewrite notified_repo. cbn [Service.repo].
    rewrite Tb, T1, Hb. repeat split; try assumption.
    destruct (notified_counts formatDateTime booking
                "Réservation Acceptée :white_check_mark:" ""
                (Service.mk (snd (Repository.SetBookingStatus r1 id' "accepted"))
                   (Service.client s) (Service.channelID s)
                   ((Service.log s ++ [CallGetBookingByID id']) ++
                    [CallSetBookingStatus id' "accepted" None])%list)) as (D & _).
    cbv zeta in D. subst booking. rewrite D. cbn [Service.log].
    now rewrite dispatched_two.
  - pose proof (RefuseBooking_paths formatDateTime id' reason s) as P. unfold_path P.
    destruct (Repository.GetBookingByID (Service.repo s) id') as [[booking err] r1] eqn:G.
    project P. rewrite P.
    destruct err as [e|]; [discriminate|]. destruct (_ || _); [discriminate|].
    destruct (fst (Repository.SetBookingStatus r1 id' "refused")) eqn:W;
      [discriminate|].
    intros _. destruct (lookup_facts _ _ G) as (row & Hrow & Hb & _ & T1 & _).
    destruct (SetBookingStatus_nil _ _ _ W) as [Tb _].
    exists row. cbn [fst snd]. rewrite notified_repo. cbn [Service.repo].
    rewrite Tb, T1, Hb. repeat split; try assumption.
    destruct (notified_counts formatDateTime booking
                "Réservation Refusée :no_entry:" reason
                (Service.mk (snd (Repository.SetBookingStatus r1 id' "refused"))
                   (Service.client s) (Service.channelID s)
                   ((Service.log s ++ [CallGetBookingByID id']) ++
                    [CallSetBookingStatus id' "refused" None])%list)) as (D & _).
    cbv zeta in D. subst booking. rewrite D. cbn [Service.log].
    now rewrite dispatched_two.
  - pose proof (CancelBooking_paths formatDateTime id' user s) as P. unfold_path P.
    destruct (Repository.GetBookingByID (Service.repo s) id') as [[booking err] r1] eqn:G.
    project P. rewrite P.
    destruct err as [e|]; [discriminate|]. destruct (_ || _); [discriminate|].
    destruct (checkUserAllowed booking user); [|discriminate].
    destruct (fst (Repository.SetBookingStatus r1 id' "canceled")) eqn:W;
      [discriminate|].
    intros _. destruct (lookup_facts _ _ G) as (row & Hrow & Hb & _ & T1 & _).
    destruct (SetBookingStatus_nil _ _ _ W) as [Tb _].
    exists row. cbn [fst snd]. rewrite notified_repo. cbn [Service.repo].
    rewrite Tb, T1, Hb. repeat split; try assumption.
    destruct (notified_counts formatDateTime booking
                "Réservation Annulée :negative_squared_cross_mark:" ""
                (Service.mk (snd (Repository.SetBookingStatus r1 id' "canceled"))
                   (Service.client s) (Service.channelID s)
                   ((Service.log s ++ [CallGetBookingByID id']) ++
                    [CallSetBookingStatus id' "canceled" None])%list)) as (D & _).
    cbv zeta in D. subst booking. rewrite D. cbn [Service.log].
    now rewrite dispatched_two.
Qed.

(** What a look-up reads after such a request. *)
Lemma status_request_read (s : Service.t Repository.t C) (req : Request)
      (id status : string) (after : Booking.t) (r' : Repository.t) :
  target req = Some id ->
  newStatus req = Some status ->
  snd (fst (perform formatDateTime req s)) = None ->
  Repository.GetBookingByID (Service.repo (snd (perform formatDateTime req s))) id =
  ((after, None), r') ->
  after = withBookingStatus status
            (fst (fst (Repository.GetBookingByID (Service.repo s) id))).
Proof.
  intros Ht Hn Hok G'.
  destruct (status_request_nil s req Ht Hn Hok) as (row & Hrow & Hb & Tb & _).
  destruct (lookup_facts _ _ G') as (row' & Hrow' & Hb' & _).
  rewrite Tb, find_map_hasID, Hrow in Hrow' by reflexivity.
  injection Hrow' as <-. rewrite Hb, Hb'. reflexivity.
Qed.

(** X1.  An accept, refuse or cancel that returns nil has stored its
    status: the status column of the rows with that identifier, and no
    other cell of the table, is rewritten; exactly one announcement is
    handed to the chat client; and a following look-up that succeeds
    reads the booking as it was read before, with the new status. *)
Theorem decision_stored_and_read_back (s : Service.t Repository.t C) (req : Request)
        (id status : string) :
  target req = Some id ->
  newStatus req = Some status ->
  let out := perform formatDateTime req s in
  snd (fst out) = None ->
  Repository.table (Service.repo (snd out)) =
  map (fun row => if Repository.hasID id row
                  then Repository.withStatus status row else row)
      (Repository.table (Service.repo s)) /\
  Repository.statusOf (Service.repo (snd out)) id = Some status /\
  dispatched (Service.log (snd out)) = S (dispatched (Service.log s)) /\
  (forall (after : Booking.t) (r' : Repository.t),
      Repository.GetBookingByID (Service.repo (snd out)) id = ((after, None), r') ->
      after = withBookingStatus status
                (fst (fst (Repository.GetBookingByID (Service.repo s) id)))).
Proof.
  intros Ht Hn out Hok.
  destruct (status_request_nil s req Ht Hn Hok) as (row & Hrow & Hb & Tb & D).
  fold out in Tb, D.
  split; [exact Tb|]. split; [|split; [exact D|]].
  - unfold Repository.statusOf.
    rewrite Tb, find_map_hasID, Hrow by reflexivity. reflexivity.
  - intros after r' G'. exact (status_request_read s req Ht Hn Hok G').
Qed.

(** X2.  On a booking that the look-up finds, [RefuseBooking] returns
    [ErrInvalidBookingState] exactly when the current status is
    ["refused"] or ["canceled"]; for any other status (["pending"],
    ["accepted"], or an unknown one), when the database executes the
    status update, it returns nil and the stored status is ["refused"]. *)
Theorem refuse_state_check (s : Service.t Repository.t C) (id reason : string)
        (booking : Booking.t) (r1 : Repository.t) :
  Repository.GetBookingByID (Service.repo s) id = ((booking, None), r1) ->
  let out := Service.RefuseBooking formatDateTime id reason s in
  (fst out = Some ErrInvalidBookingState <->
   Booking.Status booking = "refused" \/ Booking.Status booking = "canceled") /\
  (Booking.Status booking <> "refused" ->
   Booking.Status booking <> "canceled" ->
   fst (Repository.roundTrip r1) = None ->
   fst out = None /\
   Repository.statusOf (Service.repo (snd out)) id = Some "refused").
Proof.
  intros G out.
  pose proof (RefuseBooking_paths formatDateTime id reason s) as P. unfold_path P.
  rewrite G in P. project P. fold out in P.
  destruct (lookup_facts _ _ G) as (row & Hrow & Hb & _ & T1 & Hrow1).
  destruct (String.eqb (Booking.Status booking) "refused"
            || String.eqb (Booking.Status booking) "canceled") eqn:Guard.
  - apply status_guard in Guard. split; [|tauto].
    split; [tauto|]. intros _. now rewrite P.
  - apply status_guard_false in Guard.
    destruct (fst (Repository.SetBookingStatus r1 id "refused")) as [e|] eqn:W.
    + destruct (SetBookingStatus_error _ _ _ Hrow1 W) as (msg & ->).
      split.
      * rewrite P. simpl. split; [discriminate|tauto].
      * intros _ _ Hexec.
        destruct (SetBookingStatus_done r1 id "refused" Hexec Hrow1) as [W' _].
        congruence.
    + split.
      * rewrite P. simpl. split; [discriminate|tauto].
      * intros _ _ _. rewrite P. cbn [fst snd]. split; [reflexivity|].
        rewrite notified_repo. cbn [Service.repo].
        destruct (SetBookingStatus_nil _ _ _ W) as [Tb _].
        unfold Repository.statusOf.
        rewrite Tb, find_map_hasID, Hrow1 by reflexivity. reflexivity.
Qed.

(** X3.  [CancelBooking] by the owner or by a listed player, on a booking
    found with a status other than ["canceled"] and ["refused"] (so also
    on an accepted one), when the database executes the status update:
    it returns nil, the stored status is ["canceled"], and exactly one
    announcement is handed to the chat client. *)
Theorem cancel_by_owner_or_player (s : Service.t Repository.t C) (id : string)
        (booking : Booking.t) (r1 : Repository.t) (user : DiscordUser.t) :
  Repository.GetBookingByID (Service.repo s) id = ((booking, None), r1) ->
  Booking.Status booking <> "canceled" ->
  Booking.Status booking <> "refused" ->
  Booking.UserID booking = DiscordUser.ID user \/
  In (DiscordUser.Username user) (Booking.Players booking) ->
  fst (Repository.roundTrip r1) = None ->
  let out := Service.CancelBooking formatDateTime id user s in
  fst out = None /\
  Repository.statusOf (Service.repo (snd out)) id = Some "canceled" /\
  dispatched (Service.log (snd out)) = S (dispatched (Service.log s)).
Proof.
  intros G Hc Hr Ha Hexec out.
  destruct (lookup_facts _ _ G) as (row & Hrow & Hb & _ & T1 & Hrow1).
  destruct (SetBookingStatus_done r1 id "canceled" Hexec Hrow1) as [W _].
  assert (Hok : snd (fst (perform formatDateTime (Cancel id user) s)) = None).
  { unfold perform.
    pose proof (CancelBooking_paths formatDateTime id user s) as P. unfold_path P.
    rewrite G in P. project P.
    assert (Guard : String.eqb (Booking.Status booking) "canceled"
                    || String.eqb (Booking.Status booking) "refused" = false)
      by now apply status_guard_false.
    apply checkUserAllowed_iff in Ha.
    rewrite Guard, Ha, W in P. now rewrite P. }
  destruct (status_request_nil s (Cancel id user) eq_refl eq_refl Hok)
    as (row' & Hrow' & _ & Tb & D).
  unfold perform in Hok, Tb, D. fold out in Hok, Tb, D.
  destruct out as [err s']. cbn [fst snd] in *.
  split; [exact Hok|]. split; [|exact D].
  unfold Repository.statusOf.
  rewrite Tb, find_map_hasID, Hrow' by reflexivity. reflexivity.
Qed.

(** X4.  No decision is taken twice in a row: after an accept, refuse or
    cancel that returned nil, a request for the same status on the same
    booking, if its look-up succeeds, returns [ErrInvalidBookingState]
    and leaves the table as it is. *)
Theorem no_decision_twice (s : Service.t Repository.t C) (req again : Request)
        (id status : string) (booking : Booking.t) (r' : Repository.t) :
  target req = Some id ->
  newStatus req = Some status ->
  snd (fst (perform formatDateTime req s)) = None ->
  let s1 := snd (perform formatDateTime req s) in
  target again = Some id ->
  newStatus again = Some status ->
  Repository.GetBookingByID (Service.repo s1) id = ((booking, None), r') ->
  snd (fst (perform formatDateTime again s1)) = Some ErrInvalidBookingState /\
  Repository.table (Service.repo (snd (perform formatDateTime again s1))) =
  Repository.table (Service.repo s1).
Proof.
  intros Ht Hn Hok s1 Ht' Hn' G'.
  pose proof (status_request_read s req Ht Hn Hok G') as Hb.
  assert (Hst : Booking.Status booking = status) by (rewrite Hb; reflexivity).
  assert (Hrej : rejectedIn again (Booking.Status booking) = true).
  { rewrite Hst.
    destruct again; simpl in Hn'; try discriminate;
      injection Hn' as <-; reflexivity. }
  rewrite (rejected_request s1 again G' Ht' Hrej). cbn [fst snd Service.repo].
  split; [reflexivity|].
  destruct (lookup_facts _ _ G') as (_ & _ & _ & _ & T & _). exact T.
Qed.

(** X5.  A canceled booking is final: after a [CancelBooking] that
    returned nil, every request on that booking (modify, accept, refuse,
    cancel, by any caller), if its look-up succeeds, returns
    [ErrInvalidBookingState] and leaves the table as it is. *)
Theorem canceled_is_final (s : Service.t Repository.t C) (id : string)
        (user : DiscordUser.t) (next : Request) (booking : Booking.t)
        (r' : Repository.t) :
  fst (Service.CancelBooking formatDateTime id user s) = None ->
  let s1 := snd (Service.CancelBooking formatDateTime id user s) in
  target next = Some id ->
  Repository.GetBookingByID (Service.repo s1) id = ((booking, None), r') ->
  snd (fst (perform formatDateTime next s1)) = Some ErrInvalidBookingState /\
  Repository.table (Service.repo (snd (perform formatDateTime next s1))) =
  Repository.table (Service.repo s1).
Proof.
  intros Hok s1 Ht' G'.
  assert (Hok' : snd (fst (perform formatDateTime (Cancel id user) s)) = None).
  { unfold perform.
    destruct (Service.CancelBooking formatDateTime id user s). exact Hok. }
  assert (E1 : snd (perform formatDateTime (Cancel id user) s) = s1).
  { unfold perform, s1.
    destruct (Service.CancelBooking formatDateTime id user s). reflexivity. }
  rewrite <- E1 in G'.
  pose proof (status_request_read s (Cancel id user) eq_refl eq_refl Hok' G') as Hb.
  rewrite E1 in G'.
  assert (Hst : Booking.Status booking = "canceled") by (rewrite Hb; reflexivity).
  assert (Hrej : rejectedIn next (Booking.Status booking) = true).
  { rewrite Hst. destruct next; simpl in Ht'; try discriminate; reflexivity. }
  rewrite (rejected_request s1 next G' Ht' Hrej). cbn [fst snd Service.repo].
  split; [reflexivity|].
  destruct (lookup_facts _ _ G') as (_ & _ & _ & _ & T & _). exact T.
Qed.

(** X6.  Once a decision is stored the booking can no longer be edited:
    after an accept, refuse or cancel that returned nil, [ModifyBooking]
    on that booking, by any caller and with any values, returns
    [ErrInvalidBookingState] if its look-up succeeds, and leaves the
    table as it is. *)
Theorem modify_closed_by_decision (s : Service.t Repository.t C) (req : Request)
        (id status : string) (updated : Booking.t) (user : DiscordUser.t)
        (booking : Booking.t) (r' : Repository.t) :
  target req = Some id ->
  newStatus req = Some status ->
  snd (fst (perform formatDateTime req s)) = None ->
  let s1 := snd (perform formatDateTime req s) in
  Booking.ID updated = id ->
  Repository.GetBookingByID (Service.repo s1) id = ((booking, None), r') ->
  fst (Service.ModifyBooking formatDateTime updated user s1) =
  Some ErrInvalidBookingState /\
  Repository.table (Service.repo
                      (snd (Service.ModifyBooking formatDateTime updated user s1))) =
  Repository.table (Service.repo s1).
Proof.
  intros Ht Hn Hok s1 Hid G'.
  pose proof (status_request_read s req Ht Hn Hok G') as Hb.
  assert (Hst : Booking.Status booking = status) by (rewrite Hb; reflexivity).
  assert (Hrej : rejectedIn (Modify updated user) (Booking.Status booking) = true).
  { rewrite Hst.
    destruct req; simpl in Hn; try discriminate; injection Hn as <-; reflexivity. }
  assert (Ht' : target (Modify updated user) = Some id) by (simpl; now rewrite Hid).
  pose proof (rejected_request s1 (Modify updated user) G' Ht' Hrej) as P.
  unfold perform in P.
  destruct (Service.ModifyBooking formatDateTime updated user s1) as [err s2].
  injection P as -> ->. cbn [fst snd Service.repo].
  split; [reflexivity|].
  destruct (lookup_facts _ _ G') as (_ & _ & _ & _ & T & _). exact T.
Qed.

(** X7.  Whenever a lifecycle request (create, modify, accept, refuse,
    cancel) returns an error, whatever the error, the table is what it
    was before the request and nothing has been handed to the chat
    client. *)
Theorem failure_is_atomic (s : Service.t Repository.t C) (req : Request) :
  let out := perform formatDateTime req s in
  snd (fst out) <> None ->
  Repository.table (Service.repo (snd out)) = Repository.table (Service.repo s) /\
  dispatched (Service.log (snd out)) = dispatched (Service.log s).
Proof.
  exact (failed_request s req).
Qed.

(** A request whose look-up returns an error returns that error as it
    is, after the look-up alone. *)
Lemma lookup_failed_request (s : Service.t Repository.t C) (req : Request)
      (id : string) (booking : Booking.t) (e : error) (r1 : Repository.t) :
  Repository.GetBookingByID (Service.repo s) id = ((booking, Some e), r1) ->
  target req = Some id ->
  perform formatDateTime req s =
  ((None, Some e),
   Service.mk r1 (Service.client s) (Service.channelID s)
              (Service.log s ++ [CallGetBookingByID id])%list).
Proof.
  intros G Ht.
  destruct req as [draft|updated user|id'|id' reason|id' user];
    simpl in Ht; try discriminate; injection Ht as Ht; subst id; unfold perform.
  - pose proof (ModifyBooking_paths formatDateTime updated user s) as P. unfold_path P.
    rewrite G in P. project P. now rewrite P.
  - pose proof (AcceptBooking_paths formatDateTime id' s) as P. unfold_path P.
    rewrite G in P. project P. now rewrite P.
  - pose proof (RefuseBooking_paths formatDateTime id' reason s) as P. unfold_path P.
    rewrite G in P. project P. now rewrite P.
  - pose proof (CancelBooking_paths formatDateTime id' user s) as P. unfold_path P.
    rewrite G in P. project P. now rewrite P.
Qed.

(** A request on an identifier that no row carries. *)
Lemma missing_request (s : Service.t Repository.t C) (req : Request) (id : string) :
  target req = Some id ->
  (forall row, In row (Repository.table (Service.repo s)) -> Row.id row <> id) ->
  fst (Repository.roundTrip (Service.repo s)) = None ->
  let out := perform formatDateTime req s in
  snd (fst out) = Some ErrBookingNotFound /\
  Service.log (snd out) = (Service.log s ++ [CallGetBookingByID id])%list /\
  Repository.table (Service.repo (snd out)) = Repository.table (Service.repo s).
Proof.
  intros Ht Habs Hexec out.
  assert (Hnone : find (Repository.hasID id) (Repository.table (Service.repo s)) = None).
  { destruct (find _ _) as [row|] eqn:F; [|reflexivity].
    apply find_some in F. destruct F as [Hin E].
    apply String.eqb_eq in E. now elim (Habs row Hin). }
  assert (G : Repository.GetBookingByID (Service.repo s) id =
              ((Booking.zero, Some ErrBookingNotFound),
               snd (Repository.roundTrip (Service.repo s)))).
  { unfold Repository.GetBookingByID.
    pose proof (roundTrip_table (Service.repo s)) as T.
    destruct (Repository.roundTrip (Service.repo s)) as [fault r1].
    simpl in Hexec, T. subst fault. rewrite T, Hnone. reflexivity. }
  subst out. rewrite (lookup_failed_request s req G Ht). cbn [fst snd Service.repo Service.log].
  repeat split. apply roundTrip_table.
Qed.

(** X8.  A request on an identifier that no row of the table carries,
    when the database executes the look-up: every one of modify, accept,
    refuse and cancel returns exactly [ErrBookingNotFound], issues no
    call but the look-up, and leaves the table as it is. *)
Theorem missing_booking (s : Service.t Repository.t C) (req : Request) (id : string) :
  target req = Some id ->
  (forall row, In row (Repository.table (Service.repo s)) -> Row.id row <> id) ->
  fst (Repository.roundTrip (Service.repo s)) = None ->
  let out := perform formatDateTime req s in
  snd (fst out) = Some ErrBookingNotFound /\
  Service.log (snd out) = (Service.log s ++ [CallGetBookingByID id])%list /\
  Repository.table (Service.repo (snd out)) = Repository.table (Service.repo s).
Proof.
  exact (missing_request s req (id:=id)).
Qed.

(** A modify that returns nil: the look-up had found the booking, and
    the rows with that identifier carry the merged booking. *)
Lemma modify_nil (s : Service.t Repository.t C) (updated : Booking.t)
      (user : DiscordUser.t) :
  fst (Service.ModifyBooking formatDateTime updated user s) = None ->
  exists row,
    find (Repository.hasID (Booking.ID updated)) (Repository.table (Service.repo s)) =
    Some row /\
    fst (Repository.GetBookingByID (Service.repo s) (Booking.ID updated)) =
    (Repository.scan row, None) /\
    Repository.table
      (Service.repo (snd (Service.ModifyBooking formatDateTime updated user s))) =
    map (fun r => if Repository.hasID (Booking.ID updated) r
                  then Repository.updated (merged (Repository.scan row) updated) r
                  else r)
        (Repository.table (Service.repo s)).
Proof.
  pose proof (ModifyBooking_paths formatDateTime updated user s) as P. unfold_path P.
  destruct (Repository.GetBookingByID (Service.repo s) (Booking.ID updated))
    as [[booking err] r1] eqn:G.
  project P. rewrite P.
  destruct err as [e|]; [discriminate|].
  destruct (String.eqb (Booking.Status booking) "pending"); [|discriminate].
  destruct (checkUserAllowed booking user); [|discriminate].
  destruct (fst (Repository.UpdateBooking r1 (merged booking updated))) eqn:W;
    [discriminate|].
  intros _. destruct (lookup_facts _ _ G) as (row & Hrow & Hb & Hid & T1 & _).
  exists row. cbn [fst snd]. rewrite notified_repo. cbn [Service.repo].
  rewrite (UpdateBooking_done _ _ W), T1.
  assert (Hsame : Booking.ID (merged booking updated) = Booking.ID updated)
    by (rewrite Hb; simpl; exact Hid).
  rewrite Hsame, Hb. repeat split; assumption.
Qed.




Lemma map_untouched {A : Type} (p : A -> bool) (l : list A) :
  map (fun x => if p x then x else x) l = l.
Proof.
  induction l as [|x l IH]; simpl; [reflexivity|].
  rewrite IH. now destruct (p x).
Qed.

(** The table after any request: the rows of the addressed booking are
    rewritten in place, keeping their identifier, and a create appends at
    most one row. *)
Lemma table_after (s : Service.t Repository.t C) (req : Request) :
  exists (f : Row.t -> Row.t) (added : list Row.t),
    (forall row, Row.id (f row) = Row.id row) /\
    Repository.table (Service.repo (snd (perform formatDateTime req s))) =
    (map (fun row => match target req with
                     | Some id => if Repository.hasID id row then f row else row
                     | None => row
                     end)
         (Repository.table (Service.repo s)) ++ added)%list /\
    (length added <= 1)%nat /\
    (target req <> None -> added = []).
Proof.
  destruct (snd (fst (perform formatDateTime req s))) as [e|] eqn:R.
  - exists (fun row => row), []. split; [reflexivity|].
    destruct (failed_request s req) as [T _]; [cbv zeta; congruence|].
    cbv zeta in T. rewrite T, app_nil_r. repeat split; [|simpl; lia].
    destruct (target req); [now rewrite map_untouched|now rewrite map_id].
  - destruct req as [draft|updated user|id|id reason|id user].
    + unfold perform in *.
      pose proof (CreateBooking_done formatDateTime s draft) as D. cbv zeta in D.
      destruct (Service.CreateBooking formatDateTime draft s) as [res s'].
      cbn [fst snd] in *. destruct (D R) as [_ Tb].
      exists (fun row => row), [Repository.inserted
                   (Repository.newID (Service.repo s)
                                     (Repository.table (Service.repo s))) draft].
      rewrite Tb. simpl. rewrite map_id. repeat split; [lia|congruence].
    + unfold perform in *.
      pose proof (modify_nil s updated user) as D.
      destruct (Service.ModifyBooking formatDateTime updated user s) as [err s'].
      cbn [fst snd] in *. destruct (D R) as (row & _ & _ & Tb).
      exists (Repository.updated (merged (Repository.scan row) updated)), [].
      rewrite Tb, app_nil_r. simpl. repeat split; lia.
    + destruct (status_request_nil s (Accept id) eq_refl eq_refl R) as (_ & _ & _ & Tb & _).
      exists (Repository.withStatus "accepted"), [].
      rewrite Tb, app_nil_r. simpl. repeat split; lia.
    + destruct (status_request_nil s (Refuse id reason) eq_refl eq_refl R)
        as (_ & _ & _ & Tb & _).
      exists (Repository.withStatus "refused"), [].
      rewrite Tb, app_nil_r. simpl. repeat split; lia.
    + destruct (status_request_nil s (Cancel id user) eq_refl eq_refl R)
        as (_ & _ & _ & Tb & _).
      exists (Repository.withStatus "canceled"), [].
      rewrite Tb, app_nil_r. simpl. repeat split; lia.
Qed.


(** X12.  No request deletes or renames a booking: whatever the request
    and its outcome, the identifiers of the rows that were in the table
    are afterwards at the same places; only a create can add a row, and
    it adds at most one, at the end. *)
Theorem bookings_never_deleted (s : Service.t Repository.t C) (req : Request) :
  let before := Repository.table (Service.repo s) in
  let after := Repository.table (Service.repo (snd (perform formatDateTime req s))) in
  firstn (length before) (map Row.id after) = map Row.id before /\
  (length before <= length after <= length before + 1)%nat /\
  (target req <> None -> length after = length before).
Proof.
  intros before after.
  destruct (table_after s req) as (f & added & Hid & Tb & Hlen & Hnone).
  fold before after in Tb.
  assert (Hids : map Row.id (map (fun row => match target req with
                                             | Some id =>
                                                 if Repository.hasID id row
                                                 then f row else row
                                             | None => row
                                             end) before) = map Row.id before).
  { rewrite map_map. apply map_ext. intros row.
    destruct (target req) as [id|]; [|reflexivity].
    destruct (Repository.hasID id row); [apply Hid|reflexivity]. }
  rewrite Tb, map_app, Hids. split; [|split].
  - rewrite <- (length_map Row.id before), firstn_app, firstn_all.
    rewrite Nat.sub_diag. simpl. apply app_nil_r.
  - rewrite length_app, length_map. lia.
  - intros Ht. rewrite (Hnone Ht), app_nil_r, length_map. reflexivity.
Qed.

End Outcomes.

(** ** The calls of a request, in order *)

Section Announcements.
Context {R C : Type} {HR : BookingRepository R} {HC : DiscordClient C}.
Variable formatDateTime : Time -> string.

Lemma searches_are_chat (players : list string) :
  forallb (fun c => negb (isRepositoryCall c)) (searches players) = true.
Proof. induction players; simpl; auto. Qed.

Lemma resolvePlayers_log (players : list string) :
  forall (acc : list string) (s : Service.t R C),
    let s' := snd (Service.resolvePlayers players acc s) in
    Service.log s' = (Service.log s ++ searches players)%list /\
    Service.channelID s' = Service.channelID s.
Proof.
  induction players as [|player rest IH]; intros acc s.
  - simpl. now rewrite app_nil_r.
  - simpl. unfold Service.bind, Service.client_SearchMembers.
    destruct (SearchMembers (Service.client s) player 1) as [[members err] d].
    set (s1 := Service.record (CallSearchMembers player 1) (Service.repo s) d s).
    assert (H : forall acc',
               Service.log (snd (Service.resolvePlayers rest acc' s1)) =
               (Service.log s ++ CallSearchMembers player 1 :: searches rest)%list /\
               Service.channelID (snd (Service.resolvePlayers rest acc' s1)) =
               Service.channelID s).
    { intros acc'. destruct (IH acc' s1) as [Hl Hc]. cbv zeta in Hl, Hc.
      rewrite Hl, Hc. subst s1. simpl. now rewrite <- app_assoc. }
    destruct members as [|m0 ms], err as [e|]; apply H.
Qed.

(** The log after [sendNotification]. *)
Lemma sendNotification_log (booking : Booking.t) (options : NotificationOptions.t)
      (s : Service.t R C) :
  exists tags : list string,
    Service.log (snd (Service.sendNotification formatDateTime booking options s)) =
    (Service.log s ++ searches (Booking.Players booking) ++
     [CallSendMessage (Service.channelID s)
        (Message.mk "" [Service.composeEmbed formatDateTime (Service.channelID s)
                          booking options tags])])%list.
Proof.
  unfold Service.sendNotification, Service.bind, Service.client_SendMessage,
    Service.ret.
  destruct (resolvePlayers_log (Booking.Players booking) [] s) as [Hl Hc].
  cbv zeta in Hl, Hc.
  destruct (Service.resolvePlayers (Booking.Players booking) [] s) as [tags s1].
  simpl in Hl, Hc.
  destruct (SendMessage (Service.client s1) (Service.channelID s1) _) as [err d].
  exists tags. simpl. now rewrite Hl, Hc, <- app_assoc.
Qed.

(** X13.  To announce a booking, [sendNotification] searches each player
    once, in the order of the players list and with limit 1, whatever the
    earlier searches returned, and then hands exactly one message to the
    chat client, addressed to the channel of the service; it issues no
    other call. *)
Theorem one_search_per_player (booking : Booking.t) (options : NotificationOptions.t)
        (s : Service.t R C) :
  let out := Service.sendNotification formatDateTime booking options s in
  exists message : Message.t,
    Service.log (snd out) =
    (Service.log s ++
     map (fun player => CallSearchMembers player 1) (Booking.Players booking) ++
     [CallSendMessage (Service.channelID s) message])%list /\
    map Embed.ChannelID (Message.Embeds message) = [Service.channelID s] /\
    Service.repo (snd out) = Service.repo s.
Proof.
  intros out.
  destruct (sendNotification_log booking options s) as (tags & Hl).
  eexists. split; [exact Hl|]. split; [reflexivity|].
  destruct (sendNotification_frame formatDateTime booking options s)
    as (_ & l & m & (Hr & _) & _).
  exact Hr.
Qed.

(** X14.  The embed that [sendNotification] sends has the type "rich",
    the title given in the options, and the fields "Utilisateur", "Date
    et Heure", "Jeu", "Points", "Joueurs", "Description" in this order,
    all inline, followed by a field "Raison" exactly when the reason is
    not empty; "Jeu" is the game, "Points" the points in decimal, and
    "Raison" the reason. *)
Theorem announcement_layout (booking : Booking.t) (options : NotificationOptions.t)
        (s : Service.t R C) :
  let out := Service.sendNotification formatDateTime booking options s in
  exists embed : Embed.t,
    sentMessages (Service.log (snd out)) =
    (sentMessages (Service.log s) ++ [Message.mk "" [embed]])%list /\
    Embed.Type_ embed = "rich" /\
    Embed.Title embed = NotificationOptions.message options /\
    map EmbedField.Name (Embed.Fields embed) =
    (["Utilisateur"; "Date et Heure"; "Jeu"; "Points"; "Joueurs"; "Description"] ++
     match NotificationOptions.reason options with
     | "" => []
     | _ => ["Raison"]
     end)%list /\
    forallb EmbedField.Inline (Embed.Fields embed) = true /\
    fieldValue "Jeu" embed = Some (Booking.Game booking) /\
    fieldValue "Points" embed = Some (Itoa (Booking.Points booking)) /\
    fieldValue "Date et Heure" embed = Some (formatDateTime (Booking.DateTime booking)) /\
    fieldValue "Raison" embed =
    match NotificationOptions.reason options with
    | "" => None
    | _ => Some (NotificationOptions.reason options)
    end.
Proof.
  intros out.
  destruct (sendNotification_sends formatDateTime booking options s)
    as (tags & c' & _ & Hm).
  eexists. split; [exact Hm|].
  unfold Service.composeEmbed, fieldValue.
  destruct (NotificationOptions.reason options); simpl; repeat split.
Qed.

Ltac relog :=
  unfold marked, rewritten, looked, Service.record;
  cbn [fst snd Service.repo Service.client Service.channelID Service.log].

Ltac silent calls :=
  intros ->; cbn [snd]; relog;
  exists calls, []; rewrite ?app_nil_r, <- ?app_assoc;
  split; [reflexivity|]; split; [reflexivity|]; split; [reflexivity|];
  now left.

Ltac announced calls booking :=
  intros ->; cbn [snd]; unfold notified;
  match goal with
  | |- context [Service.sendNotification ?f ?b ?o ?s0] =>
      let tags := fresh "tags" in
      let Hl := fresh "Hl" in
      destruct (sendNotification_log b o s0) as (tags & Hl);
      rewrite Hl; relog;
      eexists calls, _; rewrite <- ?app_assoc;
      split; [reflexivity|]; split; [reflexivity|];
      split; [rewrite forallb_app, searches_are_chat; reflexivity|];
      right; split; [reflexivity|]; exists booking, tags; reflexivity
  end.

(** X15.  Every lifecycle request first talks to the repository and only
    then to the chat client, and never goes back: its calls are
    repository calls followed by chat calls.  The chat calls are either
    none, or, after exactly one write that the repository reported as
    done, the searches of the players of the announced booking followed
    by one message whose embed carries the title of that operation, and
    the reason only for a refusal. *)
Theorem repository_then_chat (req : Request) (s : Service.t R C) :
  let out := perform formatDateTime req s in
  exists repoCalls chatCalls : list Call,
    Service.log (snd out) = (Service.log s ++ repoCalls ++ chatCalls)%list /\
    forallb isRepositoryCall repoCalls = true /\
    forallb (fun c => negb (isRepositoryCall c)) chatCalls = true /\
    (chatCalls = [] \/
     committed repoCalls = 1%nat /\
     exists (booking : Booking.t) (tags : list string),
       chatCalls =
       (map (fun player => CallSearchMembers player 1) (Booking.Players booking) ++
        [CallSendMessage (Service.channelID s)
           (Message.mk "" [Service.composeEmbed formatDateTime (Service.channelID s)
                             booking (optionsOf req) tags])])%list).
Proof.
  destruct req as [draft|updated user|id|id reason|id user]; cbv zeta; unfold perform.
  - pose proof (CreateBooking_paths formatDateTime draft s) as P. cbv zeta in P.
    revert P. relog.
    destruct (InsertBooking (Service.repo s) draft) as [[booking err] r1].
    cbn [fst snd]. destruct err as [e|].
    + silent [CallInsertBooking draft (Some e)].
    + announced [CallInsertBooking draft None] booking.
  - pose proof (ModifyBooking_paths formatDateTime updated user s) as P. cbv zeta in P.
    revert P. relog.
    destruct (GetBookingByID (Service.repo s) (Booking.ID updated))
      as [[booking err] r1].
    cbn [fst snd]. destruct err as [e|];
      [silent [CallGetBookingByID (Booking.ID updated)]|].
    destruct (String.eqb (Booking.Status booking) "pending");
      [|silent [CallGetBookingByID (Booking.ID updated)]].
    destruct (checkUserAllowed booking user);
      [|silent [CallGetBookingByID (Booking.ID updated)]].
    destruct (UpdateBooking r1 (merged booking updated)) as [err r2].
    cbn [fst snd]. destruct err as [e|].
    + silent [CallGetBookingByID (Booking.ID updated);
              CallUpdateBooking (merged booking updated) (Some e)].
    + announced [CallGetBookingByID (Booking.ID updated);
                 CallUpdateBooking (merged booking updated) None]
                (merged booking updated).
  - pose proof (AcceptBooking_paths formatDateTime id s) as P. cbv zeta in P.
    revert P. relog.
    destruct (GetBookingByID (Service.repo s) id) as [[booking err] r1].
    cbn [fst snd]. destruct err as [e|]; [silent [CallGetBookingByID id]|].
    destruct (_ || _); [silent [CallGetBookingByID id]|].
    destruct (SetBookingStatus r1 id "accepted") as [err r2].
    cbn [fst snd]. destruct err as [e|].
    + silent [CallGetBookingByID id; CallSetBookingStatus id "accepted" (Some e)].
    + announced [CallGetBookingByID id; CallSetBookingStatus id "accepted" None]
                booking.
  - pose proof (RefuseBooking_paths formatDateTime id reason s) as P. cbv zeta in P.
    revert P. relog.
    destruct (GetBookingByID (Service.repo s) id) as [[booking err] r1].
    cbn [fst snd]. destruct err as [e|]; [silent [CallGetBookingByID id]|].
    destruct (_ || _); [silent [CallGetBookingByID id]|].
    destruct (SetBookingStatus r1 id "refused") as [err r2].
    cbn [fst snd]. destruct err as [e|].
    + silent [CallGetBookingByID id; CallSetBookingStatus id "refused" (Some e)].
    + announced [CallGetBookingByID id; CallSetBookingStatus id "refused" None]
                booking.
  - pose proof (CancelBooking_paths formatDateTime id user s) as P. cbv zeta in P.
    revert P. relog.
    destruct (GetBookingByID (Service.repo s) id) as [[booking err] r1].
    cbn [fst snd]. destruct err as [e|]; [silent [CallGetBookingByID id]|].
    destruct (_ || _); [silent [CallGetBookingByID id]|].
    destruct (checkUserAllowed booking user); [|silent [CallGetBookingByID id]].
    destruct (SetBookingStatus r1 id "canceled") as [err r2].
    cbn [fst snd]. destruct err as [e|].
    + silent [CallGetBookingByID id; CallSetBookingStatus id "canceled" (Some e)].
    + announced [CallGetBookingByID id; CallSetBookingStatus id "canceled" None]
                booking.
Qed.

End Announcements.

(** * The HTTP layer *)

Lemma Next_stopped {R C : Type} {HR : BookingRepository R} {HC : DiscordClient C}
      (handlers : list (@api.HandlerFunc R C)) (c : gin.Context) (s : Service.t R C) :
  gin.Aborted c || gin.Panicked c = true -> api.Next handlers c s = (c, s).
Proof.
  intros E. destruct handlers; simpl; [reflexivity|]. now rewrite E.
Qed.

Section Http.
Context {R C : Type} {HR : BookingRepository R} {HC : DiscordClient C}.
Context {HG : GuildClient C}.
Variable formatDateTime : Time -> string.
Variable adminRoleID : string.

(** A request that [DiscordAuth] turns away. *)
Lemma serve_unauthenticated (route : api.Route) (token id reason : string)
      (body : Booking.t + error) (s : Service.t R C) :
  token = "" \/ snd (fst (GetGuildMember (Service.client s) token)) <> None ->
  exists d : C,
    api.serve formatDateTime adminRoleID route (gin.incoming token id reason body) s =
    (gin.Abort
       (gin.JSON 401
          (gin.H_error match token with
                       | "" => "missing authentication"
                       | _ => "invalid authentication"
                       end)
          (gin.incoming token id reason body)),
     authenticatedWith d s).
Proof.
  intros H. unfold api.serve.
  assert (E : exists rest, api.chain formatDateTime adminRoleID route =
                           api.DiscordAuth adminRoleID :: rest)
    by (destruct route; eexists; reflexivity).
  destruct E as (rest & ->). simpl. unfold api.DiscordAuth. simpl.
  destruct token as [|a token]; simpl.
  - exists (Service.client s).
    rewrite Next_stopped by reflexivity. destruct s; reflexivity.
  - destruct H as [H|H]; [discriminate|].
    destruct (GetGuildMember (Service.client s) (String a token)) as [[member err] d].
    simpl in *. destruct err as [e|]; [|now elim H].
    exists d. now rewrite Next_stopped.
Qed.

(** A chat client that returns neither a member nor an error makes the
    middleware panic. *)
Lemma serve_panics (route : api.Route) (token id reason : string)
      (body : Booking.t + error) (s : Service.t R C) (d : C) :
  token <> "" ->
  GetGuildMember (Service.client s) token = ((None, None), d) ->
  api.serve formatDateTime adminRoleID route (gin.incoming token id reason body) s =
  (gin.panic (gin.incoming token id reason body), authenticatedWith d s).
Proof.
  intros Ht G. unfold api.serve.
  assert (E : exists rest, api.chain formatDateTime adminRoleID route =
                           api.DiscordAuth adminRoleID :: rest)
    by (destruct route; eexists; reflexivity).
  destruct E as (rest & ->). simpl. unfold api.DiscordAuth. simpl.
  destruct token; [now elim Ht|]. simpl. rewrite G. simpl.
  now rewrite Next_stopped.
Qed.

(** A request that [DiscordAuth] lets through reaches the rest of the
    chain with the user of the member. *)
Lemma serve_authenticated (route : api.Route) (token id reason : string)
      (body : Booking.t + error) (s : Service.t R C) (member : Member.t) (d : C) :
  token <> "" ->
  GetGuildMember (Service.client s) token = ((Some member, None), d) ->
  api.serve formatDateTime adminRoleID route (gin.incoming token id reason body) s =
  api.Next (tl (api.chain formatDateTime adminRoleID route))
           (gin.Set_accessToken token
              (gin.Set_user (userOf adminRoleID member)
                            (gin.incoming token id reason body)))
           (authenticatedWith d s).
Proof.
  intros Ht G. unfold api.serve.
  assert (E : exists rest, api.chain formatDateTime adminRoleID route =
                           api.DiscordAuth adminRoleID :: rest)
    by (destruct route; eexists; reflexivity).
  destruct E as (rest & ->). simpl. unfold api.DiscordAuth. simpl.
  destruct token; [now elim Ht|]. simpl. rewrite G. reflexivity.
Qed.

(** An authenticated request on a lifecycle route, past [AdminOnly] where
    the route has it: the service performs the request of the route, and
    the handler writes one response, the one that answers the result. *)
Lemma serve_lifecycle (route : api.Route) (token id reason : string)
      (body : Booking.t + error) (s : Service.t R C) (member : Member.t) (d : C)
      (req : Request) :
  token <> "" ->
  GetGuildMember (Service.client s) token = ((Some member, None), d) ->
  requestOf route (gin.incoming token id reason body) (userOf adminRoleID member) =
  Some req ->
  (adminRoute route = true -> Contains (Member.Roles member) adminRoleID = true) ->
  let out := perform formatDateTime req (authenticatedWith d s) in
  let served :=
    api.serve formatDateTime adminRoleID route (gin.incoming token id reason body) s in
  snd served = snd out /\
  gin.Written (fst served) =
  [(fst (reply route (fst out)), Some (snd (reply route (fst out))))] /\
  gin.Panicked (fst served) = false.
Proof.
  intros Ht G Hreq Hadmin out served. subst served out.
  rewrite (serve_authenticated route id reason body s Ht G).
  destruct route; simpl in Hreq; try discriminate.
  - (* POST_bookings *)
    destruct body as [booking|e]; [|discriminate]. injection Hreq as <-.
    simpl. unfold api.Create, gin.BindJSON, perform. simpl.
    destruct (Service.CreateBooking formatDateTime booking (authenticatedWith d s))
      as [[created err] s'].
    simpl. destruct err as [e|]; simpl; auto.
  - (* PUT_accept *)
    injection Hreq as <-. specialize (Hadmin eq_refl).
    simpl. unfold api.AdminOnly. simpl. rewrite Hadmin. simpl.
    unfold api.Accept, perform. simpl.
    destruct (Service.AcceptBooking formatDateTime id (authenticatedWith d s))
      as [err s'].
    unfold reply. simpl. destruct err as [e|]; simpl; auto.
    destruct (Is_chain e ErrBookingNotFound); simpl; auto.
    destruct (Is_chain e ErrInvalidBookingState); simpl; auto.
  - (* PUT_refuse *)
    injection Hreq as <-. specialize (Hadmin eq_refl).
    simpl. unfold api.AdminOnly. simpl. rewrite Hadmin. simpl.
    unfold api.Refuse, perform. simpl.
    destruct (Service.RefuseBooking formatDateTime id reason (authenticatedWith d s))
      as [err s'].
    unfold reply. simpl. destruct err as [e|]; simpl; auto.
    destruct (Is_chain e ErrBookingNotFound); simpl; auto.
    destruct (Is_chain e ErrInvalidBookingState); simpl; auto.
  - (* PUT_cancel *)
    injection Hreq as <-.
    simpl. unfold api.Cancel, perform. simpl.
    destruct (Service.CancelBooking formatDateTime id (userOf adminRoleID member)
                (authenticatedWith d s)) as [err s'].
    unfold reply. simpl. destruct err as [e|]; simpl; auto.
    destruct (Is_chain e ErrBookingNotFound); simpl; auto.
    destruct (Is_chain e ErrInvalidBookingState); simpl; auto.
  - (* PUT_modify *)
    destruct body as [booking|e]; [|discriminate]. injection Hreq as <-.
    simpl. unfold api.Modify, gin.BindJSON, perform. simpl.
    destruct (Service.ModifyBooking formatDateTime (Booking.set_ID id booking)
                (userOf adminRoleID member) (authenticatedWith d s)) as [err s'].
    unfold reply. simpl. destruct err as [e|]; simpl; auto.
    destruct (Is_chain e ErrNotAllowed); simpl; auto.
Qed.

(** An authenticated request on a route behind [AdminOnly], from a member
    without the role. *)
Lemma serve_not_admin (route : api.Route) (token id reason : string)
      (body : Booking.t + error) (s : Service.t R C) (member : Member.t) (d : C) :
  token <> "" ->
  GetGuildMember (Service.client s) token = ((Some member, None), d) ->
  adminRoute route = true ->
  Contains (Member.Roles member) adminRoleID = false ->
  gin.Written (fst (api.serve formatDateTime adminRoleID route
                      (gin.incoming token id reason body) s)) =
  [(403, Some (gin.H_error "not allowed"))] /\
  gin.Panicked (fst (api.serve formatDateTime adminRoleID route
                       (gin.incoming token id reason body) s)) = false /\
  snd (api.serve formatDateTime adminRoleID route
         (gin.incoming token id reason body) s) = authenticatedWith d s.
Proof.
  intros Ht G Ha Hrole.
  rewrite (serve_authenticated route id reason body s Ht G).
  destruct route; try discriminate; simpl; unfold api.AdminOnly; simpl;
    rewrite Hrole; simpl; auto.
Qed.

(** An authenticated request whose body does not decode, on the two
    routes that read one. *)
Lemma serve_undecodable (route : api.Route) (token id reason : string) (e : error)
      (s : Service.t R C) (member : Member.t) (d : C) :
  token <> "" ->
  GetGuildMember (Service.client s) token = ((Some member, None), d) ->
  route = api.POST_bookings \/ route = api.PUT_modify ->
  gin.Written (fst (api.serve formatDateTime adminRoleID route
                      (gin.incoming token id reason (inr e)) s)) =
  [(400, None);
   (match route with api.PUT_modify => 500 | _ => 400 end,
    Some (gin.H_error "failed to parse JSON body"))] /\
  gin.Panicked (fst (api.serve formatDateTime adminRoleID route
                       (gin.incoming token id reason (inr e)) s)) = false /\
  snd (api.serve formatDateTime adminRoleID route
         (gin.incoming token id reason (inr e)) s) = authenticatedWith d s.
Proof.
  intros Ht G Hroute.
  rewrite (serve_authenticated route id reason (inr e) s Ht G).
  destruct Hroute as [-> | ->]; simpl; auto.
Qed.

(** The two routes that only read. *)
Lemma serve_reads (route : api.Route) (token id reason : string)
      (body : Booking.t + error) (s : Service.t R C) (member : Member.t) (d : C) :
  token <> "" ->
  GetGuildMember (Service.client s) token = ((Some member, None), d) ->
  route = api.GET_booking_id \/ route = api.GET_user_info ->
  let served := api.serve formatDateTime adminRoleID route
                          (gin.incoming token id reason body) s in
  (exists (code : Z) (p : gin.Payload), gin.Written (fst served) = [(code, Some p)]) /\
  gin.Panicked (fst served) = false /\
  snd served =
  match route with
  | api.GET_booking_id => snd (api.FindBookingByID id (authenticatedWith d s))
  | _ => authenticatedWith d s
  end.
Proof.
  intros Ht G Hroute. cbv zeta.
  rewrite (serve_authenticated route id reason body s Ht G).
  destruct Hroute as [-> | ->]; simpl.
  - unfold api.GetByID. simpl.
    destruct (api.FindBookingByID id (authenticatedWith d s)) as [[booking err] s'].
    simpl. destruct err as [e|]; simpl; eauto.
    destruct (Is_chain e ErrBookingNotFound); simpl; eauto.
  - eauto.
Qed.

Lemma reply_ok (route : api.Route) (result : option Booking.t * option error) :
  snd result = None ->
  fst (reply route result) = 200 \/ fst (reply route result) = 201.
Proof.
  intros E. unfold reply. rewrite E. destruct route; simpl; auto.
Qed.

Lemma reply_error (route : api.Route) (result : option Booking.t * option error) :
  snd result <> None ->
  fst (reply route result) <> 200 /\ fst (reply route result) <> 201.
Proof.
  intros E. unfold reply. destruct (snd result) as [e|]; [|now elim E].
  destruct route; simpl;
    repeat match goal with
           | |- context [if ?b then _ else _] => destruct b
           end; simpl; split; discriminate.
Qed.

Lemma lifecycle_or_not (route : api.Route) :
  (route = api.GET_booking_id \/ route = api.GET_user_info) \/
  (route = api.POST_bookings \/ route = api.PUT_modify) \/
  (adminRoute route = true) \/ route = api.PUT_cancel.
Proof. destruct route; simpl; auto. Qed.

(** X16.  A request without [accesstoken] header, or whose token the
    chat platform does not resolve to a member, is answered 401 on every
    route, with one error message, and goes no further: the handlers of
    the route do not run, so the repository is not called and the log of
    the service is what it was. *)
Theorem unauthenticated_is_401 (route : api.Route) (token id reason : string)
        (body : Booking.t + error) (s : Service.t R C) :
  token = "" \/ snd (fst (GetGuildMember (Service.client s) token)) <> None ->
  let served := api.serve formatDateTime adminRoleID route
                          (gin.incoming token id reason body) s in
  gin.status (fst served) = 401 /\
  gin.payloads (fst served) =
  [gin.H_error match token with
               | "" => "missing authentication"
               | _ => "invalid authentication"
               end] /\
  gin.Aborted (fst served) = true /\
  Service.repo (snd served) = Service.repo s /\
  Service.log (snd served) = Service.log s.
Proof.
  intros H served.
  destruct (serve_unauthenticated route id reason body s H) as (d & E).
  subst served. rewrite E. simpl. repeat split.
Qed.

(** X17.  [PUT accept] and [PUT refuse] are for administrators: a member
    whose roles do not include the administrator role is answered 403
    "not allowed", and the service is not called (no repository call, no
    announcement); the [Admin] flag is exactly the membership of that
    role. *)
Theorem admin_routes_need_the_role (route : api.Route) (token id reason : string)
        (body : Booking.t + error) (s : Service.t R C) (member : Member.t) (d : C) :
  token <> "" ->
  GetGuildMember (Service.client s) token = ((Some member, None), d) ->
  route = api.PUT_accept \/ route = api.PUT_refuse ->
  ~ In adminRoleID (Member.Roles member) ->
  let served := api.serve formatDateTime adminRoleID route
                          (gin.incoming token id reason body) s in
  gin.status (fst served) = 403 /\
  gin.payloads (fst served) = [gin.H_error "not allowed"] /\
  Service.repo (snd served) = Service.repo s /\
  Service.log (snd served) = Service.log s.
Proof.
  intros Ht G Hroute Hrole served.
  assert (Hc : Contains (Member.Roles member) adminRoleID = false).
  { destruct (Contains _ _) eqn:E; [|reflexivity].
    apply Contains_In in E. now elim Hrole. }
  assert (Ha : adminRoute route = true) by (destruct Hroute as [-> | ->]; reflexivity).
  destruct (serve_not_admin route id reason body s Ht G Ha Hc) as (W & _ & S).
  subst served. unfold gin.status, gin.payloads. rewrite W, S. simpl. auto.
Qed.

(** X18.  Every request gets exactly one JSON value as answer and no
    handler panics, on every route and whatever the repository and the
    chat client do, as long as the chat client returns a member or an
    error for the token (never neither): in particular the handlers that
    read the user from the context always find it. *)
Theorem one_answer_no_panic (route : api.Route) (token id reason : string)
        (body : Booking.t + error) (s : Service.t R C) :
  (token <> "" ->
   fst (fst (GetGuildMember (Service.client s) token)) <> None \/
   snd (fst (GetGuildMember (Service.client s) token)) <> None) ->
  let served := api.serve formatDateTime adminRoleID route
                          (gin.incoming token id reason body) s in
  gin.Panicked (fst served) = false /\
  length (gin.payloads (fst served)) = 1%nat.
Proof.
  intros Hclient served. subst served.
  destruct (string_dec token "") as [E|Ht].
  - destruct (serve_unauthenticated route id reason body s (or_introl E)) as (d & ->).
    simpl. auto.
  - specialize (Hclient Ht).
    destruct (GetGuildMember (Service.client s) token) as [[member err] d] eqn:G.
    simpl in Hclient. destruct err as [e|].
    + destruct (serve_unauthenticated route (token:=token) id reason body s)
        as (d' & ->).
      * right. rewrite G. discriminate.
      * simpl. auto.
    + destruct member as [member|]; [|destruct Hclient as [H|H]; now elim H].
      destruct (lifecycle_or_not route) as [Hr|[Hr|Hr]].
      * destruct (serve_reads id reason body s Ht G Hr) as ((code & p & W) & P & _).
        split; [exact P|]. unfold gin.payloads. now rewrite W.
      * destruct body as [booking|e].
        -- destruct (requestOf route (gin.incoming token id reason (inl booking))
                       (userOf adminRoleID member)) as [req|] eqn:Q;
             [|destruct Hr as [-> | ->]; discriminate].
           destruct (serve_lifecycle route id reason (inl booking) s Ht G Q)
             as (_ & W & P).
           { destruct Hr as [-> | ->]; discriminate. }
           split; [exact P|]. unfold gin.payloads. now rewrite W.
        -- destruct (serve_undecodable id reason e s Ht G Hr) as (W & P & _).
           split; [exact P|]. unfold gin.payloads. now rewrite W.
      * destruct (Contains (Member.Roles member) adminRoleID) eqn:Hrole.
        -- destruct (requestOf route (gin.incoming token id reason body)
                       (userOf adminRoleID member)) as [req|] eqn:Q;
             [|destruct Hr as [Hr | ->]; [destruct route|]; discriminate].
           destruct (serve_lifecycle route id reason body s Ht G Q) as (_ & W & P).
           { intros _. exact Hrole. }
           split; [exact P|]. unfold gin.payloads. now rewrite W.
        -- destruct Hr as [Hr | ->].
           ++ destruct (serve_not_admin route id reason body s Ht G Hr Hrole)
                as (W & P & _).
              split; [exact P|]. unfold gin.payloads. now rewrite W.
           ++ destruct (serve_lifecycle api.PUT_cancel id reason body s Ht G eq_refl)
                as (_ & W & P).
              { discriminate. }
              split; [exact P|]. unfold gin.payloads. now rewrite W.
Qed.

End Http.

(** ** Callers turned away by the engine *)

Section Forbidden.
Context {C : Type} {HC : DiscordClient C}.
Variable formatDateTime : Time -> string.

(** A modify or cancel by a caller who is neither the owner nor a player,
    on a booking found in a status that the operation accepts:
    [ErrNotAllowed], and nothing but the look-up. *)
Lemma forbidden_request (s : Service.t Repository.t C) (req : Request) (id : string)
      (user : DiscordUser.t) (booking : Booking.t) (r1 : Repository.t) :
  Repository.GetBookingByID (Service.repo s) id = ((booking, None), r1) ->
  req = Cancel id user \/
  (exists updated, req = Modify updated user /\ Booking.ID updated = id) ->
  rejectedIn req (Booking.Status booking) = false ->
  checkUserAllowed booking user = false ->
  perform formatDateTime req s =
  ((None, Some ErrNotAllowed),
   Service.mk r1 (Service.client s) (Service.channelID s)
              (Service.log s ++ [CallGetBookingByID id])%list).
Proof.
  intros G Hreq Hst Hchk.
  destruct Hreq as [-> | (updated & -> & <-)]; simpl in Hst; unfold perform.
  - pose proof (CancelBooking_paths formatDateTime id user s) as P.
    cbv zeta in P. unfold marked, looked, Service.record in P. on_postgres P.
    rewrite G in P. cbn [fst snd] in P. rewrite Hst, Hchk in P. now rewrite P.
  - pose proof (ModifyBooking_paths formatDateTime updated user s) as P.
    cbv zeta in P. unfold rewritten, looked, Service.record in P. on_postgres P.
    rewrite G in P. cbn [fst snd] in P.
    apply negb_false_iff in Hst. rewrite Hst, Hchk in P. now rewrite P.
Qed.

End Forbidden.

(** ** The HTTP layer on the PostgreSQL repository *)

Lemma lookup_executes (r : Repository.t) (id : string) (row : Row.t) :
  fst (Repository.roundTrip r) = None ->
  find (Repository.hasID id) (Repository.table r) = Some row ->
  Repository.GetBookingByID r id =
  ((Repository.scan row, None), snd (Repository.roundTrip r)).
Proof.
  intros Hexec F. unfold Repository.GetBookingByID.
  pose proof (roundTrip_table r) as T.
  destruct (Repository.roundTrip r) as [fault r1]. simpl in Hexec, T. subst fault.
  rewrite T, F. reflexivity.
Qed.

Lemma insert_executes (r : Repository.t) (draft : Booking.t) :
  fst (Repository.roundTrip r) = None ->
  snd (fst (Repository.InsertBooking r draft)) = None.
Proof.
  intros Hexec. unfold Repository.InsertBooking.
  destruct (Repository.roundTrip r) as [fault r1]. simpl in Hexec. now subst fault.
Qed.

Section HttpOnPostgres.
Context {C : Type} {HC : DiscordClient C} {HG : GuildClient C}.
Variable formatDateTime : Time -> string.
Variable adminRoleID : string.

Ltac status_of W :=
  unfold gin.status, gin.payloads; rewrite W; cbn [flat_map app fst snd].

(** X19.  An answer other than 200 or 201 means that nothing happened:
    on every route, whatever the request, the repository and the chat
    client do, if the status of the response is neither 200 nor 201 then
    the table is what it was before the request and no announcement has
    been handed to the chat client. *)
Theorem error_answer_means_unchanged (route : api.Route) (token id reason : string)
        (body : Booking.t + error) (s : Service.t Repository.t C) :
  let served := api.serve formatDateTime adminRoleID route
                          (gin.incoming token id reason body) s in
  gin.status (fst served) <> 200 ->
  gin.status (fst served) <> 201 ->
  Repository.table (Service.repo (snd served)) = Repository.table (Service.repo s) /\
  dispatched (Service.log (snd served)) = dispatched (Service.log s).
Proof.
  intros served H200 H201. subst served.
  assert (Hlife : forall req member d,
             token <> "" ->
             GetGuildMember (Service.client s) token = ((Some member, None), d) ->
             requestOf route (gin.incoming token id reason body)
                       (userOf adminRoleID member) = Some req ->
             (adminRoute route = true ->
              Contains (Member.Roles member) adminRoleID = true) ->
             Repository.table
               (Service.repo (snd (api.serve formatDateTime adminRoleID route
                                     (gin.incoming token id reason body) s))) =
             Repository.table (Service.repo s) /\
             dispatched
               (Service.log (snd (api.serve formatDateTime adminRoleID route
                                    (gin.incoming token id reason body) s))) =
             dispatched (Service.log s)).
  { intros req member d Ht G Q Hadmin.
    destruct (serve_lifecycle formatDateTime adminRoleID route id reason body s Ht G Q Hadmin)
      as (S & W & _).
    revert H200 H201. status_of W. intros H200 H201. rewrite S.
    destruct (snd (fst (perform formatDateTime req (authenticatedWith d s)))) eqn:E.
    - apply (failed_request formatDateTime (authenticatedWith d s) req).
      cbv zeta. congruence.
    - destruct (reply_ok route _ E); congruence. }
  destruct (string_dec token "") as [E|Ht].
  - destruct (serve_unauthenticated formatDateTime adminRoleID route id reason body s
                (or_introl E)) as (d & ->).
    simpl. auto.
  - destruct (GetGuildMember (Service.client s) token) as [[member err] d] eqn:G.
    destruct err as [e|].
    + destruct (serve_unauthenticated formatDateTime adminRoleID route (token:=token)
                  id reason body s) as (d' & ->).
      * right. rewrite G. discriminate.
      * simpl. auto.
    + destruct member as [member|].
      2:{ rewrite (serve_panics formatDateTime adminRoleID route id reason body s Ht G)
            in H200.
          now elim H200. }
      destruct (lifecycle_or_not route) as [Hr|[Hr|Hr]].
      * destruct (serve_reads formatDateTime adminRoleID id reason body s Ht G Hr)
          as (_ & _ & ->).
        destruct Hr as [-> | ->]; [|simpl; auto].
        unfold api.FindBookingByID, Service.repo_GetBookingByID.
        change (@GetBookingByID Repository.t _) with Repository.GetBookingByID.
        pose proof (GetBookingByID_table (Service.repo (authenticatedWith d s)) id) as T.
        destruct (Repository.GetBookingByID (Service.repo (authenticatedWith d s)) id)
          as [res r1].
        simpl in *. split; [exact T|]. now apply dispatched_one.
      * destruct body as [booking|e].
        -- destruct (requestOf route (gin.incoming token id reason (inl booking))
                       (userOf adminRoleID member)) as [req|] eqn:Q;
             [|destruct Hr as [-> | ->]; discriminate].
           apply (Hlife req member d Ht eq_refl Q).
           destruct Hr as [-> | ->]; discriminate.
        -- destruct (serve_undecodable formatDateTime adminRoleID id reason e s Ht G Hr)
             as (_ & _ & ->).
           simpl. auto.
      * destruct (Contains (Member.Roles member) adminRoleID) eqn:Hrole.
        -- destruct (requestOf route (gin.incoming token id reason body)
                       (userOf adminRoleID member)) as [req|] eqn:Q;
             [|destruct Hr as [Hr | ->]; [destruct route|]; discriminate].
           apply (Hlife req member d Ht eq_refl Q). intros _. exact Hrole.
        -- destruct Hr as [Hr | ->].
           ++ destruct (serve_not_admin formatDateTime adminRoleID route id reason body s Ht G
                          Hr Hrole) as (_ & _ & ->).
              simpl. auto.
           ++ apply (Hlife (Cancel id (userOf adminRoleID member)) member d Ht eq_refl
                           eq_refl).
              discriminate.
Qed.

(** X20.  An answer 200 on a decision route means that the decision is
    stored: if [PUT accept], [PUT refuse] or [PUT cancel] answers 200
    (and no handler panicked), the stored status of the booking named in
    the path is ["accepted"], ["refused"] or ["canceled"] respectively,
    and exactly one announcement has been handed to the chat client. *)
Theorem ok_answer_means_stored (route : api.Route) (token id reason : string)
        (body : Booking.t + error) (s : Service.t Repository.t C) (status : string) :
  (route = api.PUT_accept /\ status = "accepted") \/
  (route = api.PUT_refuse /\ status = "refused") \/
  (route = api.PUT_cancel /\ status = "canceled") ->
  let served := api.serve formatDateTime adminRoleID route
                          (gin.incoming token id reason body) s in
  gin.Panicked (fst served) = false ->
  gin.status (fst served) = 200 ->
  Repository.statusOf (Service.repo (snd served)) id = Some status /\
  dispatched (Service.log (snd served)) = S (dispatched (Service.log s)).
Proof.
  intros Hroute served Hp H200. subst served.
  destruct (string_dec token "") as [E|Ht].
  { destruct (serve_unauthenticated formatDateTime adminRoleID route id reason body s
                (or_introl E)) as (d & E').
    rewrite E' in H200. discriminate. }
  destruct (GetGuildMember (Service.client s) token) as [[member err] d] eqn:G.
  destruct err as [e|].
  { destruct (serve_unauthenticated formatDateTime adminRoleID route (token:=token)
                id reason body s) as (d' & E').
    - right. rewrite G. discriminate.
    - rewrite E' in H200. discriminate. }
  destruct member as [member|].
  2:{ rewrite (serve_panics formatDateTime adminRoleID route id reason body s Ht G) in Hp.
      discriminate. }
  destruct (Contains (Member.Roles member) adminRoleID) eqn:Hrole.
  2:{ destruct Hroute as [[-> _]|[[-> _]|[-> ->]]].
      - destruct (serve_not_admin formatDateTime adminRoleID api.PUT_accept id reason
                    body s Ht G eq_refl Hrole) as (W & _).
        revert H200. status_of W. discriminate.
      - destruct (serve_not_admin formatDateTime adminRoleID api.PUT_refuse id reason
                    body s Ht G eq_refl Hrole) as (W & _).
        revert H200. status_of W. discriminate.
      - destruct (serve_lifecycle formatDateTime adminRoleID api.PUT_cancel id reason
                    body s Ht G (req:=Cancel id (userOf adminRoleID member)) eq_refl)
          as (S & W & _); [discriminate|].
        revert H200. status_of W. intros H200. rewrite S.
        destruct (snd (fst (perform formatDateTime
                              (Cancel id (userOf adminRoleID member))
                              (authenticatedWith d s)))) eqn:E.
        + destruct (@reply_error api.PUT_cancel
                      (fst (perform formatDateTime
                              (Cancel id (userOf adminRoleID member))
                              (authenticatedWith d s)))) as [N _];
            [congruence|now elim N].
        + destruct (status_request_nil formatDateTime (authenticatedWith d s)
                      (Cancel id (userOf adminRoleID member)) eq_refl eq_refl E)
            as (row & Hrow & _ & Tb & D).
          split; [|exact D]. unfold Repository.statusOf.
          rewrite Tb, find_map_hasID by reflexivity.
          rewrite Hrow. reflexivity. }
  assert (Hreq : exists req,
             requestOf route (gin.incoming token id reason body)
                       (userOf adminRoleID member) = Some req /\
             target req = Some id /\ newStatus req = Some status).
  { destruct Hroute as [[-> ->]|[[-> ->]|[-> ->]]]; eexists; simpl; eauto. }
  destruct Hreq as (req & Q & Htarget & Hnew).
  destruct (serve_lifecycle formatDateTime adminRoleID route id reason body s Ht G Q)
    as (S & W & _); [intros _; exact Hrole|].
  revert H200. status_of W. intros H200. rewrite S.
  destruct (snd (fst (perform formatDateTime req (authenticatedWith d s)))) eqn:E.
  - destruct (@reply_error route
                (fst (perform formatDateTime req (authenticatedWith d s))))
      as [N _]; [congruence|now elim N].
  - destruct (status_request_nil formatDateTime (authenticatedWith d s) req
                Htarget Hnew E) as (row & Hrow & _ & Tb & D).
    split; [|exact D]. unfold Repository.statusOf.
    rewrite Tb, find_map_hasID by reflexivity.
    rewrite Hrow. reflexivity.
Qed.

(** X21.  On the three decision routes, for an authenticated caller (with
    the administrator role on accept and refuse) and when the database
    executes the look-up: a path that names no booking is answered 404
    "booking not found"; a booking whose status the operation rejects
    (canceled for all three, accepted for accept, refused for refuse and
    cancel) is answered 400 "invalid booking state". *)
Theorem decision_routes_missing_or_conflict (route : api.Route)
        (token id reason : string) (body : Booking.t + error)
        (s : Service.t Repository.t C) (member : Member.t) (d : C) :
  token <> "" ->
  GetGuildMember (Service.client s) token = ((Some member, None), d) ->
  route = api.PUT_accept \/ route = api.PUT_refuse \/ route = api.PUT_cancel ->
  (route <> api.PUT_cancel -> In adminRoleID (Member.Roles member)) ->
  fst (Repository.roundTrip (Service.repo s)) = None ->
  let served := api.serve formatDateTime adminRoleID route
                          (gin.incoming token id reason body) s in
  ((forall row, In row (Repository.table (Service.repo s)) -> Row.id row <> id) ->
   gin.status (fst served) = 404 /\
   gin.payloads (fst served) = [gin.H_error "booking not found"]) /\
  (forall row,
      find (Repository.hasID id) (Repository.table (Service.repo s)) = Some row ->
      Row.status row = "canceled" \/
      (route = api.PUT_accept /\ Row.status row = "accepted") \/
      (route <> api.PUT_accept /\ Row.status row = "refused") ->
      gin.status (fst served) = 400 /\
      gin.payloads (fst served) = [gin.H_error "invalid booking state"]).
Proof.
  intros Ht G Hroute Hrole Hexec served. subst served.
  assert (Hreq : exists req,
             requestOf route (gin.incoming token id reason body)
                       (userOf adminRoleID member) = Some req /\
             target req = Some id /\
             (forall st, st = "canceled" \/
                         (route = api.PUT_accept /\ st = "accepted") \/
                         (route <> api.PUT_accept /\ st = "refused") ->
                         rejectedIn req st = true)).
  { destruct Hroute as [-> |[-> | ->]]; eexists; simpl; (split; [reflexivity|]);
      (split; [reflexivity|]);
      intros st [-> |[[E ->]|[E ->]]]; try reflexivity; try discriminate;
      now elim E. }
  destruct Hreq as (req & Q & Htarget & Hrej).
  destruct (serve_lifecycle formatDateTime adminRoleID route id reason body s Ht G Q)
    as (_ & W & _).
  { intros Ha. apply Contains_In. apply Hrole. intros ->. discriminate. }
  split.
  - intros Habs.
    destruct (missing_request formatDateTime (authenticatedWith d s) req Htarget)
      as (E & _); [exact Habs|exact Hexec|].
    status_of W.
    destruct (perform formatDateTime req (authenticatedWith d s)) as [[b err] s'].
    simpl in E. subst err.
    destruct Hroute as [-> |[-> | ->]]; simpl; auto.
  - intros row Hrow Hst.
    pose proof (lookup_executes (Service.repo (authenticatedWith d s)) id Hexec Hrow)
      as L.
    pose proof (rejected_request formatDateTime (authenticatedWith d s) req L Htarget
                  (Hrej _ Hst)) as E.
    status_of W. rewrite E.
    destruct Hroute as [-> |[-> | ->]]; simpl; auto.
Qed.


(** X23.  [PUT cancel] has no answer of its own for a caller who is not
    allowed: for an authenticated caller who is neither the owner nor a
    player of a booking that is neither canceled nor refused, when the
    database executes the look-up, the answer is 500 "failed to cancel
    booking", and the table is unchanged. *)
Theorem cancel_route_forbidden_is_500 (token id reason : string)
        (body : Booking.t + error) (s : Service.t Repository.t C)
        (member : Member.t) (d : C) (row : Row.t) :
  token <> "" ->
  GetGuildMember (Service.client s) token = ((Some member, None), d) ->
  fst (Repository.roundTrip (Service.repo s)) = None ->
  find (Repository.hasID id) (Repository.table (Service.repo s)) = Some row ->
  Row.status row <> "canceled" ->
  Row.status row <> "refused" ->
  ~ (COALESCE (Row.userId row) "" = User.ID (Member.User member) \/
     In (User.Username (Member.User member)) (Row.players row)) ->
  let served := api.serve formatDateTime adminRoleID api.PUT_cancel
                          (gin.incoming token id reason body) s in
  gin.status (fst served) = 500 /\
  gin.payloads (fst served) = [gin.H_error "failed to cancel booking"] /\
  Repository.table (Service.repo (snd served)) = Repository.table (Service.repo s).
Proof.
  intros Ht G Hexec Hrow Hc Hr Hna served. subst served.
  destruct (serve_lifecycle formatDateTime adminRoleID api.PUT_cancel id reason
              body s Ht G (req:=Cancel id (userOf adminRoleID member)) eq_refl)
    as (S & W & _); [discriminate|].
  set (user := userOf adminRoleID member) in *.
  pose proof (lookup_executes (Service.repo (authenticatedWith d s)) id Hexec Hrow)
    as L.
  assert (Hok : rejectedIn (Cancel id user) (Booking.Status (Repository.scan row)) =
                false).
  { simpl. now apply status_guard_false. }
  assert (Hchk : checkUserAllowed (Repository.scan row) user = false).
  { destruct (checkUserAllowed (Repository.scan row) user) eqn:K; [|reflexivity].
    apply checkUserAllowed_iff in K. now elim Hna. }
  pose proof (forbidden_request formatDateTime (authenticatedWith d s) (user:=user) L
                (or_introl eq_refl) Hok Hchk) as E.
  rewrite S. status_of W. rewrite E. simpl. repeat split.
  apply roundTrip_table.
Qed.

(** X24.  [POST] stores the owner that the body names: for any
    authenticated member, when the body decodes and the database executes
    the insertion, the answer is 201 with the draft under its new
    identifier, and the table gains one row whose user ID and username
    are those of the body, not those of the member, and whose status is
    ["pending"]. *)
Theorem create_route_owner_from_body (token id reason : string) (draft : Booking.t)
        (s : Service.t Repository.t C) (member : Member.t) (d : C) :
  token <> "" ->
  GetGuildMember (Service.client s) token = ((Some member, None), d) ->
  fst (Repository.roundTrip (Service.repo s)) = None ->
  let served := api.serve formatDateTime adminRoleID api.POST_bookings
                          (gin.incoming token id reason (inl draft)) s in
  let newID := Repository.newID (Service.repo s) (Repository.table (Service.repo s)) in
  gin.status (fst served) = 201 /\
  gin.payloads (fst served) = [gin.OfBooking (Booking.set_ID newID draft)] /\
  exists row,
    Repository.table (Service.repo (snd served)) =
    (Repository.table (Service.repo s) ++ [row])%list /\
    Row.id row = newID /\
    Row.userId row = Some (Booking.UserID draft) /\
    Row.username row = Some (Booking.Username draft) /\
    Row.status row = "pending".
Proof.
  intros Ht G Hexec served newID. subst served.
  destruct (serve_lifecycle formatDateTime adminRoleID api.POST_bookings id reason
              (inl draft) s Ht G (req:=Create draft) eq_refl)
    as (S & W & _); [discriminate|].
  assert (Hok : snd (fst (Service.CreateBooking formatDateTime draft
                            (authenticatedWith d s))) = None).
  { rewrite CreateBooking_paths. cbn [fst snd].
    apply (insert_executes (Service.repo (authenticatedWith d s)) draft Hexec). }
  destruct (CreateBooking_done formatDateTime (authenticatedWith d s) draft Hok)
    as [Hc Tb].
  rewrite S. status_of W. unfold perform.
  destruct (Service.CreateBooking formatDateTime draft (authenticatedWith d s))
    as [[created err] s'].
  cbn [fst snd] in *. subst err created. simpl. repeat split.
  exists (Repository.inserted newID draft). rewrite Tb. repeat split.
Qed.

(** X25.  [GET booking/:id] for an authenticated caller, when the
    database executes the look-up: the booking of the first row with that
    identifier is answered with 200, NULL owner columns and reminder flag
    being read as empty and false; a path that names no booking is
    answered 404 "booking not found".  Any member may read any booking,
    and the table is unchanged. *)
Theorem get_booking_route (token id reason : string) (body : Booking.t + error)
        (s : Service.t Repository.t C) (member : Member.t) (d : C) :
  token <> "" ->
  GetGuildMember (Service.client s) token = ((Some member, None), d) ->
  fst (Repository.roundTrip (Service.repo s)) = None ->
  let served := api.serve formatDateTime adminRoleID api.GET_booking_id
                          (gin.incoming token id reason body) s in
  (forall row,
      find (Repository.hasID id) (Repository.table (Service.repo s)) = Some row ->
      gin.status (fst served) = 200 /\
      gin.payloads (fst served) =
      [gin.OfBooking
         (Booking.mk (Row.id row) (Row.game row)
                     match Row.userId row with Some u => u | None => "" end
                     match Row.username row with Some u => u | None => "" end
                     (Row.points row) (Row.description row) (Row.status row)
                     match Row.reminderEnabled row with Some b => b | None => false end
                     (Row.dateTime row) (Row.players row))]) /\
  ((forall row, In row (Repository.table (Service.repo s)) -> Row.id row <> id) ->
   gin.status (fst served) = 404 /\
   gin.payloads (fst served) = [gin.H_error "booking not found"]) /\
  Repository.table (Service.repo (snd served)) = Repository.table (Service.repo s).
Proof.
  intros Ht G Hexec served. subst served.
  rewrite (serve_authenticated formatDateTime adminRoleID api.GET_booking_id id reason
             body s Ht G).
  simpl. unfold api.GetByID, api.FindBookingByID, Service.repo_GetBookingByID.
  change (@GetBookingByID Repository.t _) with Repository.GetBookingByID.
  cbn [gin.Param_id gin.Set_accessToken gin.Set_user gin.incoming].
  change (Service.repo (authenticatedWith d s)) with (Service.repo s).
  pose proof (GetBookingByID_table (Service.repo s) id) as T.
  split; [|split].
  - intros row Hrow.
    rewrite (lookup_executes (Service.repo s) id Hexec Hrow).
    simpl. split; reflexivity.
  - intros Habs.
    assert (Hnone : find (Repository.hasID id)
                         (Repository.table (Service.repo s)) =
                    None).
    { destruct (find _ _) as [row|] eqn:F; [|reflexivity].
      apply find_some in F. destruct F as [Hin E].
      apply String.eqb_eq in E. now elim (Habs row Hin). }
    unfold Repository.GetBookingByID.
    pose proof (roundTrip_table (Service.repo s)) as T'.
    destruct (Repository.roundTrip (Service.repo s))
      as [fault r1].
    simpl in Hexec, T'. subst fault. rewrite T', Hnone. simpl. split; reflexivity.
  - destruct (Repository.GetBookingByID (Service.repo s) id)
      as [[booking err] r1].
    simpl in T |- *. destruct err as [e|]; simpl.
    + destruct (Is_chain e ErrBookingNotFound); exact T.
    + exact T.
Qed.

End HttpOnPostgres.

(** ** Bodies that do not decode *)

Section Undecodable.
Context {R C : Type} {HR : BookingRepository R} {HC : DiscordClient C}.
Context {HG : GuildClient C}.
Variable formatDateTime : Time -> string.
Variable adminRoleID : string.

(** X26.  A body that does not decode as a booking never reaches the
    service: on [POST] and on [PUT modify], for an authenticated caller,
    the answer carries the one message "failed to parse JSON body", the
    repository is not called and the log of the service is what it was.
    The status is 400 on both routes: gin's [BindJSON] has written it
    when it aborted, before the modify handler asks for 500. *)
Theorem undecodable_body_is_400 (route : api.Route) (token id reason : string)
        (e : error) (s : Service.t R C) (member : Member.t) (d : C) :
  token <> "" ->
  GetGuildMember (Service.client s) token = ((Some member, None), d) ->
  route = api.POST_bookings \/ route = api.PUT_modify ->
  let served := api.serve formatDateTime adminRoleID route
                          (gin.incoming token id reason (inr e)) s in
  gin.status (fst served) = 400 /\
  gin.payloads (fst served) = [gin.H_error "failed to parse JSON body"] /\
  Service.repo (snd served) = Service.repo s /\
  Service.log (snd served) = Service.log s.
Proof.
  intros Ht G Hroute served.
  destruct (serve_undecodable formatDateTime adminRoleID id reason e s Ht G Hroute)
    as (W & _ & S).
  subst served. unfold gin.status, gin.payloads. rewrite W, S. simpl. auto.
Qed.

End Undecodable.

(** ** The listings *)

Lemma filter_map_same {A : Type} (p : A -> bool) (g : A -> A) (l : list A) :
  (forall x, p (g x) = p x) -> filter p (map g l) = map g (filter p l).
Proof.
  intros H. induction l as [|x l IH]; simpl; [reflexivity|].
  rewrite H. destruct (p x); simpl; now rewrite IH.
Qed.

Section Listings.
Context {C : Type} {HC : DiscordClient C}.
Variable formatDateTime : Time -> string.

(** X27.  A decision does not take a booking off the list of active
    bookings: after an accept, refuse or cancel that returned nil, the
    bookings that [GetActiveBookings] returns for a given instant are
    those it would have returned before the request, the decided booking
    carrying its new status; so a canceled or refused booking stays
    listed until its date has passed. *)
Theorem decided_booking_stays_listed (s : Service.t Repository.t C) (req : Request)
        (id status : string) (now : Time) :
  target req = Some id ->
  newStatus req = Some status ->
  snd (fst (perform formatDateTime req s)) = None ->
  let s1 := snd (perform formatDateTime req s) in
  let before := Queries.GetActiveBookings (Service.repo s) now in
  let after := Queries.GetActiveBookings (Service.repo s1) now in
  snd (fst before) = None ->
  snd (fst after) = None ->
  forall booking : Booking.t,
    In booking (fst (fst after)) <->
    exists listed : Booking.t,
      In listed (fst (fst before)) /\
      booking = if String.eqb (Booking.ID listed) id
                then withBookingStatus status listed
                else listed.
Proof.
  intros Ht Hn Hok s1 before after Hb Ha booking.
  destruct (status_request_nil formatDateTime s req Ht Hn Hok) as (_ & _ & _ & Tb & _).
  fold s1 in Tb.
  assert (Hlist : forall r,
             snd (fst (Queries.GetActiveBookings r now)) = None ->
             fst (fst (Queries.GetActiveBookings r now)) =
             map Repository.scan
                 (filter (fun row => Z.leb now (Row.dateTime row))
                         (Repository.table r))).
  { intros r. unfold Queries.GetActiveBookings.
    pose proof (roundTrip_table r) as T.
    destruct (Repository.roundTrip r) as [fault r1]. simpl in T.
    destruct fault; simpl; [discriminate|]. now rewrite T. }
  subst before after. rewrite (Hlist _ Ha), (Hlist _ Hb), Tb.
  rewrite filter_map_same
    by (intros row; destruct (Repository.hasID id row); reflexivity).
  rewrite map_map, in_map_iff. split.
  - intros (row & <- & Hin).
    exists (Repository.scan row). split; [apply in_map; exact Hin|].
    unfold Repository.hasID. simpl.
    destruct (String.eqb (Row.id row) id); reflexivity.
  - intros (listed & Hin & ->). apply in_map_iff in Hin.
    destruct Hin as (row & <- & Hin).
    exists row. split; [|exact Hin].
    unfold Repository.hasID. simpl.
    destruct (String.eqb (Row.id row) id); reflexivity.
Qed.

End Listings.

(** X28.  [GetBookingsPerUsername] lists, when the database executes the
    query, exactly the bookings whose stored username is the given name
    or whose players include it, whatever their status and date; a
    booking whose username column is NULL is listed only for its
    players.  Hence every booking on which [checkUserAllowed] lets a
    caller act as a player is in the listing of that caller's username. *)
Theorem listed_for_owner_and_players (r : Repository.t) (username : string) :
  let out := Queries.GetBookingsPerUsername r username in
  snd (fst out) = None ->
  (forall booking : Booking.t,
      In booking (fst (fst out)) <->
      exists row, In row (Repository.table r) /\
                  booking = Repository.scan row /\
                  (Row.username row = Some username \/
                   In username (Row.players row))) /\
  (forall (row : Row.t) (user : DiscordUser.t),
      In row (Repository.table r) ->
      DiscordUser.Username user = username ->
      In username (Row.players row) ->
      checkUserAllowed (Repository.scan row) user = true /\
      In (Repository.scan row) (fst (fst out))).
Proof.
  intros out Hok.
  assert (Hlist : fst (fst out) =
                  map Repository.scan
                      (filter (Queries.concerns username) (Repository.table r))).
  { subst out. revert Hok. unfold Queries.GetBookingsPerUsername.
    pose proof (roundTrip_table r) as T.
    destruct (Repository.roundTrip r) as [fault r1]. simpl in T.
    destruct fault; simpl; [discriminate|]. now rewrite T. }
  assert (Hconcerns : forall row,
             Queries.concerns username row = true <->
             Row.username row = Some username \/ In username (Row.players row)).
  { intros row. unfold Queries.concerns.
    rewrite orb_true_iff, Contains_In.
    destruct (Row.username row) as [owner|].
    - rewrite String.eqb_eq. split; intros [H|H]; auto; left; congruence.
    - split; intros [H|H]; auto; discriminate. }
  rewrite Hlist. split.
  - intros booking. rewrite in_map_iff. split.
    + intros (row & <- & Hin). apply filter_In in Hin. destruct Hin as [Hin Hc].
      exists row. repeat split; [exact Hin|]. now apply Hconcerns.
    + intros (row & Hin & -> & Hc). exists row. split; [reflexivity|].
      apply filter_In. split; [exact Hin|]. now apply Hconcerns.
  - intros row user Hin Hu Hp. split.
    + apply checkUserAllowed_iff. right. simpl. now rewrite Hu.
    + apply in_map. apply filter_In. split; [exact Hin|].
      apply Hconcerns. now right.
Qed.

(** ** The further properties on the fixtures *)

Lemma decision_stored_and_read_back_witness :
  let s := Fixture.service "pending" [] in
  let out := perform Fixture.format (Refuse "123" "table taken") s in
  snd (fst out) = None /\
  Repository.statusOf (Service.repo (snd out)) "123" = Some "refused" /\
  dispatched (Service.log (snd out)) = 1%nat.
Proof.
  assert (Hok : snd (fst (perform Fixture.format (Refuse "123" "table taken")
                            (Fixture.service "pending" []))) = None) by reflexivity.
  split; [exact Hok|].
  destruct (@decision_stored_and_read_back Directory.t Directory_DiscordClient
              Fixture.format (Fixture.service "pending" [])
              (Refuse "123" "table taken") "123" "refused" eq_refl eq_refl Hok)
    as (_ & Hst & Hd & _).
  split; [exact Hst|exact Hd].
Defined.

Lemma refuse_state_check_witness :
  let s := Fixture.service "accepted" [] in
  let out := Service.RefuseBooking Fixture.format "123" "table taken" s in
  Repository.GetBookingByID (Service.repo s) "123" =
  ((Repository.scan (Fixture.row "accepted"), None), Service.repo s) /\
  fst out = None /\
  Repository.statusOf (Service.repo (snd out)) "123" = Some "refused".
Proof.
  split; [reflexivity|].
  destruct (@refuse_state_check Directory.t Directory_DiscordClient Fixture.format
              (Fixture.service "accepted" []) "123" "table taken"
              (Repository.scan (Fixture.row "accepted"))
              (Service.repo (Fixture.service "accepted" [])) eq_refl)
    as (_ & H).
  assert (Hr : Booking.Status (Repository.scan (Fixture.row "accepted")) <> "refused")
    by (simpl; discriminate).
  assert (Hc : Booking.Status (Repository.scan (Fixture.row "accepted")) <> "canceled")
    by (simpl; discriminate).
  exact (H Hr Hc eq_refl).
Defined.

Lemma cancel_by_owner_or_player_witness :
  let s := Fixture.service "accepted" [] in
  let out := Service.CancelBooking Fixture.format "123" Fixture.player2 s in
  In (DiscordUser.Username Fixture.player2)
     (Booking.Players (Repository.scan (Fixture.row "accepted"))) /\
  fst out = None /\
  Repository.statusOf (Service.repo (snd out)) "123" = Some "canceled" /\
  dispatched (Service.log (snd out)) = 1%nat.
Proof.
  assert (Hp : In (DiscordUser.Username Fixture.player2)
                  (Booking.Players (Repository.scan (Fixture.row "accepted"))))
    by (simpl; auto).
  split; [exact Hp|].
  assert (Hc : Booking.Status (Repository.scan (Fixture.row "accepted")) <> "canceled")
    by (simpl; discriminate).
  assert (Hr : Booking.Status (Repository.scan (Fixture.row "accepted")) <> "refused")
    by (simpl; discriminate).
  exact (@cancel_by_owner_or_player Directory.t Directory_DiscordClient Fixture.format
           (Fixture.service "accepted" []) "123"
           (Repository.scan (Fixture.row "accepted"))
           (Service.repo (Fixture.service "accepted" [])) Fixture.player2
           eq_refl Hc Hr (or_intror Hp) eq_refl).
Defined.

Lemma no_decision_twice_witness :
  let s := Fixture.service "pending" [] in
  let s1 := snd (perform Fixture.format (Accept "123") s) in
  snd (fst (perform Fixture.format (Accept "123") s)) = None /\
  snd (fst (perform Fixture.format (Accept "123") s1)) = Some ErrInvalidBookingState /\
  Repository.table (Service.repo (snd (perform Fixture.format (Accept "123") s1))) =
  Repository.table (Service.repo s1).
Proof.
  assert (Hok : snd (fst (perform Fixture.format (Accept "123")
                            (Fixture.service "pending" []))) = None) by reflexivity.
  split; [exact Hok|].
  exact (@no_decision_twice Directory.t Directory_DiscordClient Fixture.format
           (Fixture.service "pending" []) (Accept "123") (Accept "123") "123"
           "accepted" (Repository.scan (Fixture.row "accepted"))
           (Repository.mk [Fixture.row "accepted"] (fun _ => "124") [])
           eq_refl eq_refl Hok eq_refl eq_refl eq_refl).
Defined.

Lemma canceled_is_final_witness :
  let s := Fixture.service "accepted" [] in
  let s1 := snd (Service.CancelBooking Fixture.format "123" Fixture.user1 s) in
  fst (Service.CancelBooking Fixture.format "123" Fixture.user1 s) = None /\
  snd (fst (perform Fixture.format (Accept "123") s1)) = Some ErrInvalidBookingState.
Proof.
  assert (Hok : fst (Service.CancelBooking Fixture.format "123" Fixture.user1
                       (Fixture.service "accepted" [])) = None) by reflexivity.
  split; [exact Hok|].
  destruct (@canceled_is_final Directory.t Directory_DiscordClient Fixture.format
              (Fixture.service "accepted" []) "123" Fixture.user1 (Accept "123")
              (Repository.scan (Fixture.row "canceled"))
              (Repository.mk [Fixture.row "canceled"] (fun _ => "124") [])
              Hok eq_refl eq_refl) as [H _].
  exact H.
Defined.

Lemma modify_closed_by_decision_witness :
  let s := Fixture.service "pending" [] in
  let s1 := snd (perform Fixture.format (Accept "123") s) in
  snd (fst (perform Fixture.format (Accept "123") s)) = None /\
  fst (Service.ModifyBooking Fixture.format Fixture.changes Fixture.user1 s1) =
  Some ErrInvalidBookingState.
Proof.
  assert (Hok : snd (fst (perform Fixture.format (Accept "123")
                            (Fixture.service "pending" []))) = None) by reflexivity.
  split; [exact Hok|].
  destruct (@modify_closed_by_decision Directory.t Directory_DiscordClient
              Fixture.format (Fixture.service "pending" []) (Accept "123") "123"
              "accepted" Fixture.changes Fixture.user1
              (Repository.scan (Fixture.row "accepted"))
              (Repository.mk [Fixture.row "accepted"] (fun _ => "124") [])
              eq_refl eq_refl Hok eq_refl eq_refl) as [H _].
  exact H.
Defined.

Lemma failure_is_atomic_witness :
  let s := Fixture.service "pending" [None; Some "connection reset"] in
  let out := perform Fixture.format (Modify Fixture.changes Fixture.user1) s in
  snd (fst out) =
  Some (Errorf "failed to update booking" (ErrForeign "connection reset")) /\
  Repository.table (Service.repo (snd out)) = [Fixture.row "pending"] /\
  dispatched (Service.log (snd out)) = 0%nat.
Proof.
  split; [reflexivity|].
  apply (@failure_is_atomic Directory.t Directory_DiscordClient Fixture.format
           (Fixture.service "pending" [None; Some "connection reset"])
           (Modify Fixture.changes Fixture.user1)).
  discriminate.
Defined.

Lemma missing_booking_witness :
  let s := Fixture.service "pending" [] in
  let out := perform Fixture.format (Cancel "999" Fixture.user1) s in
  snd (fst out) = Some ErrBookingNotFound /\
  Service.log (snd out) = [CallGetBookingByID "999"] /\
  Repository.table (Service.repo (snd out)) = [Fixture.row "pending"].
Proof.
  apply (@missing_booking Directory.t Directory_DiscordClient Fixture.format
           (Fixture.service "pending" []) (Cancel "999" Fixture.user1) "999").
  - reflexivity.
  - intros row [<-|[]]. discriminate.
  - reflexivity.
Defined.




Lemma unauthenticated_is_401_witness :
  let served :=
    api.serve Fixture.format "role-admin" api.PUT_cancel
              (gin.incoming "bogus" "123" "" (inr (ErrForeign "EOF")))
              (Fixture.service "pending" []) in
  snd (fst (GetGuildMember (Service.client (Fixture.service "pending" [])) "bogus")) <>
  None /\
  gin.status (fst served) = 401 /\
  gin.payloads (fst served) = [gin.H_error "invalid authentication"] /\
  Service.log (snd served) = [].
Proof.
  assert (H : snd (fst (GetGuildMember (Service.client (Fixture.service "pending" []))
                                       "bogus")) <> None) by (simpl; discriminate).
  split; [exact H|].
  destruct (@unauthenticated_is_401 Repository.t Directory.t
              Repository_BookingRepository Directory_DiscordClient
              Directory_GuildClient Fixture.format "role-admin" api.PUT_cancel
              "bogus" "123" "" (inr (ErrForeign "EOF")) (Fixture.service "pending" [])
              (or_intror H)) as (H1 & H2 & _ & _ & H5).
  repeat split; assumption.
Defined.

Lemma admin_routes_need_the_role_witness :
  let served :=
    api.serve Fixture.format "role-admin" api.PUT_accept
              (gin.incoming "token-user1" "123" "" (inr (ErrForeign "EOF")))
              (Fixture.service "pending" []) in
  gin.status (fst served) = 403 /\
  gin.payloads (fst served) = [gin.H_error "not allowed"] /\
  Service.repo (snd served) = Service.repo (Fixture.service "pending" []) /\
  Service.log (snd served) = [].
Proof.
  apply (@admin_routes_need_the_role Repository.t Directory.t
           Repository_BookingRepository Directory_DiscordClient
           Directory_GuildClient Fixture.format "role-admin" api.PUT_accept
           "token-user1" "123" "" (inr (ErrForeign "EOF"))
           (Fixture.service "pending" [])
           (Member.mk (User.mk "user1ID" "user1") ["role-player"])
           Fixture.directory).
  - discriminate.
  - reflexivity.
  - now left.
  - simpl. intros [E|[]]. discriminate.
Defined.

Lemma one_answer_no_panic_witness :
  let served :=
    api.serve Fixture.format "role-admin" api.PUT_modify
              (gin.incoming "token-user1" "123" "" (inl Fixture.changes))
              (Fixture.service "pending" []) in
  gin.Panicked (fst served) = false /\
  length (gin.payloads (fst served)) = 1%nat.
Proof.
  apply (@one_answer_no_panic Repository.t Directory.t
           Repository_BookingRepository Directory_DiscordClient
           Directory_GuildClient Fixture.format "role-admin" api.PUT_modify
           "token-user1" "123" "" (inl Fixture.changes) (Fixture.service "pending" [])).
  intros _. left. simpl. discriminate.
Defined.

Lemma error_answer_means_unchanged_witness :
  let s := Fixture.service "pending" [] in
  let served :=
    api.serve Fixture.format "role-admin" api.PUT_cancel
              (gin.incoming "token-someone" "123" "" (inr (ErrForeign "EOF"))) s in
  gin.status (fst served) = 500 /\
  Repository.table (Service.repo (snd served)) = Repository.table (Service.repo s) /\
  dispatched (Service.log (snd served)) = dispatched (Service.log s).
Proof.
  assert (H : gin.status
                (fst (api.serve Fixture.format "role-admin" api.PUT_cancel
                        (gin.incoming "token-someone" "123" ""
                                      (inr (ErrForeign "EOF")))
                        (Fixture.service "pending" []))) = 500) by reflexivity.
  split; [exact H|].
  apply (@error_answer_means_unchanged Directory.t Directory_DiscordClient
           Directory_GuildClient Fixture.format "role-admin" api.PUT_cancel
           "token-someone" "123" "" (inr (ErrForeign "EOF"))
           (Fixture.service "pending" [])).
  - rewrite H. discriminate.
  - rewrite H. discriminate.
Defined.

Lemma ok_answer_means_stored_witness :
  let s := Fixture.service "pending" [] in
  let served :=
    api.serve Fixture.format "role-admin" api.PUT_accept
              (gin.incoming "token-admin" "123" "" (inr (ErrForeign "EOF"))) s in
  gin.status (fst served) = 200 /\
  Repository.statusOf (Service.repo (snd served)) "123" = Some "accepted" /\
  dispatched (Service.log (snd served)) = 1%nat.
Proof.
  assert (H : gin.status
                (fst (api.serve Fixture.format "role-admin" api.PUT_accept
                        (gin.incoming "token-admin" "123" ""
                                      (inr (ErrForeign "EOF")))
                        (Fixture.service "pending" []))) = 200) by reflexivity.
  split; [exact H|].
  apply (@ok_answer_means_stored Directory.t Directory_DiscordClient
           Directory_GuildClient Fixture.format "role-admin" api.PUT_accept
           "token-admin" "123" "" (inr (ErrForeign "EOF"))
           (Fixture.service "pending" []) "accepted").
  - left. split; reflexivity.
  - reflexivity.
  - exact H.
Defined.

Lemma decision_routes_missing_or_conflict_witness :
  let served :=
    api.serve Fixture.format "role-admin" api.PUT_refuse
              (gin.incoming "token-admin" "123" "no" (inr (ErrForeign "EOF")))
              (Fixture.service "canceled" []) in
  gin.status (fst served) = 400 /\
  gin.payloads (fst served) = [gin.H_error "invalid booking state"].
Proof.
  destruct (@decision_routes_missing_or_conflict Directory.t Directory_DiscordClient
              Directory_GuildClient Fixture.format "role-admin" api.PUT_refuse
              "token-admin" "123" "no" (inr (ErrForeign "EOF"))
              (Fixture.service "canceled" [])
              (Member.mk (User.mk "adminID" "admin") ["role-admin"])
              Fixture.directory) as [_ H].
  - discriminate.
  - reflexivity.
  - right. now left.
  - intros _. simpl. now left.
  - reflexivity.
  - apply (H (Fixture.row "canceled")); [reflexivity|now left].
Defined.


Lemma cancel_route_forbidden_is_500_witness :
  let s := Fixture.service "pending" [] in
  let served :=
    api.serve Fixture.format "role-admin" api.PUT_cancel
              (gin.incoming "token-someone" "123" "" (inr (ErrForeign "EOF"))) s in
  gin.status (fst served) = 500 /\
  gin.payloads (fst served) = [gin.H_error "failed to cancel booking"] /\
  Repository.table (Service.repo (snd served)) = Repository.table (Service.repo s).
Proof.
  apply (@cancel_route_forbidden_is_500 Directory.t Directory_DiscordClient
           Directory_GuildClient Fixture.format "role-admin"
           "token-someone" "123" "" (inr (ErrForeign "EOF"))
           (Fixture.service "pending" [])
           (Member.mk (User.mk "someone" "someone") [])
           Fixture.directory (Fixture.row "pending")).
  - discriminate.
  - reflexivity.
  - reflexivity.
  - reflexivity.
  - simpl. discriminate.
  - simpl. discriminate.
  - simpl. intros [E|[E|[E|[]]]]; discriminate.
Defined.

Lemma create_route_owner_from_body_witness :
  let s := Fixture.service "pending" [] in
  let served :=
    api.serve Fixture.format "role-admin" api.POST_bookings
              (gin.incoming "token-someone" "" "" (inl (Fixture.draft "")))  s in
  gin.status (fst served) = 201 /\
  map Row.userId (Repository.table (Service.repo (snd served))) =
  [Some "user1ID"; Some "user1ID"].
Proof.
  destruct (@create_route_owner_from_body Directory.t Directory_DiscordClient
              Directory_GuildClient Fixture.format "role-admin"
              "token-someone" "" "" (Fixture.draft "") (Fixture.service "pending" [])
              (Member.mk (User.mk "someone" "someone") [])
              Fixture.directory) as (H201 & _ & row & Htable & _ & Huser & _).
  - discriminate.
  - reflexivity.
  - reflexivity.
  - split; [exact H201|].
    rewrite Htable, map_app. simpl. now rewrite Huser.
Defined.

Lemma get_booking_route_witness :
  let served :=
    api.serve Fixture.format "role-admin" api.GET_booking_id
              (gin.incoming "token-someone" "123" "" (inr (ErrForeign "EOF")))
              (Fixture.service "canceled" []) in
  gin.status (fst served) = 200 /\
  gin.payloads (fst served) =
  [gin.OfBooking (Booking.mk "123" "test1" "user1ID" "user1" 10 "test description1"
                             "canceled" true 0 ["user1"; "player2"])].
Proof.
  destruct (@get_booking_route Directory.t Directory_DiscordClient
              Directory_GuildClient Fixture.format "role-admin"
              "token-someone" "123" "" (inr (ErrForeign "EOF"))
              (Fixture.service "canceled" [])
              (Member.mk (User.mk "someone" "someone") [])
              Fixture.directory) as (H & _ & _).
  - discriminate.
  - reflexivity.
  - reflexivity.
  - exact (H (Fixture.row "canceled") eq_refl).
Defined.

Lemma undecodable_body_is_400_witness :
  let served :=
    api.serve Fixture.format "role-admin" api.PUT_modify
              (gin.incoming "token-user1" "123" ""
                            (inr (ErrForeign "unexpected end of JSON input")))
              (Fixture.service "pending" []) in
  gin.status (fst served) = 400 /\
  gin.payloads (fst served) = [gin.H_error "failed to parse JSON body"] /\
  Service.repo (snd served) = Service.repo (Fixture.service "pending" []) /\
  Service.log (snd served) = [].
Proof.
  apply (@undecodable_body_is_400 Repository.t Directory.t
           Repository_BookingRepository Directory_DiscordClient
           Directory_GuildClient Fixture.format "role-admin" api.PUT_modify
           "token-user1" "123" "" (ErrForeign "unexpected end of JSON input")
           (Fixture.service "pending" [])
           (Member.mk (User.mk "user1ID" "user1") ["role-player"])
           Fixture.directory).
  - discriminate.
  - reflexivity.
  - now right.
Defined.

Lemma decided_booking_stays_listed_witness :
  let s := Fixture.service "pending" [] in
  let s1 := snd (perform Fixture.format (Cancel "123" Fixture.user1) s) in
  snd (fst (perform Fixture.format (Cancel "123" Fixture.user1) s)) = None /\
  In (withBookingStatus "canceled" (Repository.scan (Fixture.row "pending")))
     (fst (fst (Queries.GetActiveBookings (Service.repo s1) 0))).
Proof.
  assert (Hok : snd (fst (perform Fixture.format (Cancel "123" Fixture.user1)
                            (Fixture.service "pending" []))) = None) by reflexivity.
  split; [exact Hok|].
  apply (@decided_booking_stays_listed Directory.t Directory_DiscordClient
           Fixture.format (Fixture.service "pending" [])
           (Cancel "123" Fixture.user1) "123" "canceled" 0
           eq_refl eq_refl Hok eq_refl eq_refl).
  exists (Repository.scan (Fixture.row "pending")). split.
  - simpl. now left.
  - reflexivity.
Defined.

Lemma listed_for_owner_and_players_witness :
  let r := Fixture.database "refused" [] in
  let out := Queries.GetBookingsPerUsername r "player2" in
  snd (fst out) = None /\
  In (Repository.scan (Fixture.row "refused")) (fst (fst out)).
Proof.
  assert (Hok : snd (fst (Queries.GetBookingsPerUsername
                            (Fixture.database "refused" []) "player2")) = None)
    by reflexivity.
  split; [exact Hok|].
  destruct (@listed_for_owner_and_players (Fixture.database "refused" []) "player2"
              Hok) as [_ H].
  apply (H (Fixture.row "refused") Fixture.player2).
  - simpl. now left.
  - reflexivity.
  - simpl. auto.
Defined.
